(** * FossFLOW authentication back end: a shallow embedding

    The development follows the server sources:
    - [server/routes/auth.js]   register, login, setup-2fa, verify-2fa and the
                                router's own [authenticateToken];
    - [server/middleware/auth.js] the shared [authenticateToken];
    - [server/routes/users.js]  disable-2fa and the API-key routes;
    - [postgres/init/01-init.sql] the tables and the [updated_at] trigger.
    In the source tree at hand the text of [01-init.sql] and of
    [routes/auth.js] follows that of [scripts/generate-certs.sh], and the text
    of [middleware/auth.js] follows that of [server/index.js].

    A handler is a computation over the database that either runs to its last
    statement or leaves early with [return res.status(..).json(..)].  The
    libraries the handlers call (bcryptjs, jsonwebtoken, speakeasy's HMAC,
    crypto's SHA-256), and PostgreSQL's reading of a text as a [UUID] and of
    a date as a [TIMESTAMP WITH TIME ZONE], are an interface, [Libs]; every
    theorem holds for any implementation of it.  Request bodies carry string fields; a field is
    [None] when the client did not send it.  A JavaScript string is the
    sequence of its code units, and [String.length] is its [.length]. *)

From Stdlib Require Import ZArith List String Ascii Bool Lia Arith.
From Stdlib Require Import Permutation Sorted.
Import ListNotations.

Local Open Scope string_scope.
Local Open Scope Z_scope.

(** ** JSON values and HTTP responses *)

#[local] Set Warnings "-register-all".

Inductive json : Type :=
| JNull
| JBool (b : bool)
| JNum (n : Z)
| JStr (s : string)
| JArr (items : list json)
| JObj (fields : list (string * json)).

Fixpoint assoc {A : Type} (k : string) (l : list (string * A)) : option A :=
  match l with
  | [] => None
  | (k', v) :: l' => if (k' =? k)%string then Some v else assoc k l'
  end.

(** [obj.key]; [None] is JavaScript's [undefined]. *)
Definition field (k : string) (j : json) : option json :=
  match j with
  | JObj fs => assoc k fs
  | _ => None
  end.

Record Response : Type := mkResponse { status : Z; body : json }.

Definition error_body (msg : string) : json := JObj [("error", JStr msg)].

Definition json_opt_num (o : option Z) : json :=
  match o with Some n => JNum n | None => JNull end.

(** JavaScript truthiness of an optional string: [undefined], [null] and the
    empty string are falsy. *)
Definition truthy (o : option string) : bool :=
  match o with
  | Some s => negb (s =? "")%string
  | None => false
  end.

(** ** Tables of [01-init.sql] *)

Record User : Type := mkUser {
  id : string;
  username : string;
  email : string;
  password_hash : string;
  totp_secret : option string;
  totp_temp_secret : option string;
  is_active : bool;
  is_admin : bool;
  created_at : Z;
  updated_at : Z;
  last_login : option Z
}.

Record ApiKey : Type := mkApiKey {
  key_id : string;
  key_user_id : string;
  key_name : string;
  key_hash : string;
  permissions : list string;
  last_used_at : option Z;
  expires_at : option Z;
  key_is_active : bool;
  key_created_at : Z
}.

Record AuditLog : Type := mkAuditLog {
  log_id : string;
  log_user_id : string;
  action : string;
  resource_type : string;
  resource_id : string;
  ip_address : string;
  log_details : option json;
  log_created_at : Z
}.

Record Database : Type := mkDatabase {
  users : list User;
  api_keys : list ApiKey;
  audit_logs : list AuditLog
}.

(** ** Calls into the libraries, in the order they are made *)

Inductive Event : Type :=
| EvBcryptHash (plaintext : string)
| EvBcryptCompare (plaintext digest : string)
| EvTotpVerify (secret token : string)
| EvJwtSign (userId : string)
| EvJwtVerify (token : string)
| EvSha256 (input : string).

Record World : Type := mkWorld { db : Database; trace : list Event }.

(** What a request finds in its environment: the clock (seconds), the values
    the database and the random generators draw for it, and the configuration. *)
Record Env : Type := mkEnv {
  now : Z;
  new_row_id : string;
  new_log_id : string;
  salt : string;
  random_hex : string;
  new_secret : string;
  client_ip : string;
  JWT_SECRET : string
}.

(** ** The handler monad *)

Definition Handler (A : Type) : Type := World -> World * (A + Response).

Definition ret {A : Type} (a : A) : Handler A := fun w => (w, inl a).

Definition bind {A B : Type} (m : Handler A) (k : A -> Handler B) : Handler B :=
  fun w =>
    match m w with
    | (w', inl a) => k a w'
    | (w', inr r) => (w', inr r)
    end.

(** [return res.status(code).json(body)] *)
Definition reply {A : Type} (code : Z) (b : json) : Handler A :=
  fun w => (w, inr (mkResponse code b)).

(** An exception reaches the handler's [catch]. *)
Definition throw {A : Type} : Handler A :=
  reply 500 (error_body "Internal server error").

Definition get_db : Handler Database := fun w => (w, inl (db w)).

Definition put_db (d : Database) : Handler unit :=
  fun w => (mkWorld d (trace w), inl tt).

Definition emit (e : Event) : Handler unit :=
  fun w => (mkWorld (db w) (trace w ++ [e]), inl tt).

Declare Scope handler_scope.
Delimit Scope handler_scope with handler.
Notation "x <- m ;; k" := (bind m (fun x => k))
  (at level 100, m at next level, right associativity) : handler_scope.
Notation "m ;; k" := (bind m (fun _ => k))
  (at level 100, right associativity) : handler_scope.
Local Open Scope handler_scope.

Definition run (h : Handler Response) (w : World) : World * Response :=
  match h w with
  | (w', inl r) => (w', r)
  | (w', inr r) => (w', r)
  end.

(** ** Queries *)

Definition set_users (us : list User) (d : Database) : Database :=
  mkDatabase us (api_keys d) (audit_logs d).

(** [UPDATE users SET ... WHERE id = $n]: every matching row is rewritten, and
    the trigger [update_users_updated_at] stamps it. *)
Definition touch (t : Z) (u : User) : User :=
  mkUser (id u) (username u) (email u) (password_hash u) (totp_secret u)
         (totp_temp_secret u) (is_active u) (is_admin u) (created_at u) t
         (last_login u).

Definition update_users_where_id (t : Z) (uid : string) (set : User -> User)
  (d : Database) : Database :=
  set_users
    (map (fun u => if (id u =? uid)%string then touch t (set u) else u) (users d)) d.

Definition select_users_by_email (e : string) (d : Database) : list User :=
  filter (fun u => (email u =? e)%string) (users d).

Definition select_users_by_email_or_username (e n : string) (d : Database)
  : list User :=
  filter (fun u => (email u =? e)%string || (username u =? n)%string) (users d).

Definition select_users_by_id (uid : string) (d : Database) : list User :=
  filter (fun u => (id u =? uid)%string) (users d).

Definition set_last_login (t : Z) (u : User) : User :=
  mkUser (id u) (username u) (email u) (password_hash u) (totp_secret u)
         (totp_temp_secret u) (is_active u) (is_admin u) (created_at u)
         (updated_at u) (Some t).

Definition set_totp_temp_secret (s : option string) (u : User) : User :=
  mkUser (id u) (username u) (email u) (password_hash u) (totp_secret u)
         s (is_active u) (is_admin u) (created_at u)
         (updated_at u) (last_login u).

Definition set_totp_secrets (s tmp : option string) (u : User) : User :=
  mkUser (id u) (username u) (email u) (password_hash u) s
         tmp (is_active u) (is_admin u) (created_at u)
         (updated_at u) (last_login u).

Definition set_is_active (b : bool) (u : User) : User :=
  mkUser (id u) (username u) (email u) (password_hash u) (totp_secret u)
         (totp_temp_secret u) b (is_admin u) (created_at u)
         (updated_at u) (last_login u).

(** [INSERT INTO users (username, email, password_hash, created_at)]: the other
    columns take their defaults. *)
Definition new_user (uid n e h : string) (t : Z) : User :=
  mkUser uid n e h None None true false t t None.

Definition insert_audit_log (l : AuditLog) (d : Database) : Database :=
  mkDatabase (users d) (api_keys d) (audit_logs d ++ [l]).

Definition insert_api_key (k : ApiKey) (d : Database) : Database :=
  mkDatabase (users d) (api_keys d ++ [k]) (audit_logs d).

(** ** The libraries the routes call *)

Record JwtPayload : Type := mkJwtPayload {
  userId : string;
  jwt_username : string;
  iat : Z;
  exp : Z
}.

(** [jwt.verify] hands its callback either the decoded payload or an error,
    of which the middleware reads [err.name]. *)
Inductive JwtResult : Type :=
| JwtOk (payload : JwtPayload)
| JwtErr (name : string).

Class Libs : Type := {
  (** [bcrypt.hash(plaintext, rounds)], with the salt it draws *)
  bcrypt_hash : string -> Z -> string -> string;
  (** [bcrypt.compare(plaintext, digest)] *)
  bcrypt_compare : string -> string -> bool;
  (** [jwt.sign({userId, username}, secret, {expiresIn})] at a given time *)
  jwt_sign : string -> string -> string -> Z -> Z -> string;
  (** [jwt.verify(token, secret, callback)] at a given time *)
  jwt_verify : string -> string -> Z -> JwtResult;
  (** the HMAC of a counter under a secret, dynamically truncated to an integer *)
  hmac_truncate : string -> Z -> Z;
  (** the number of digits of a one-time code *)
  totp_digits : nat;
  (** [crypto.createHash('sha256').update(s).digest('hex')] *)
  sha256_hex : string -> string;
  (** the [otpauth_url] of [speakeasy.generateSecret] for a name and a secret *)
  otpauth_url : string -> string -> string;
  (** [QRCode.toDataURL] *)
  qrcode_toDataURL : string -> string;
  (** the database reading a text as a [UUID]: the text it prints for the
      uuid (lower case, hyphens after 8, 12, 16 and 20 digits), [None] when
      the text is no uuid *)
  uuid_in : string -> option string;
  (** whether the database takes a time, sent as a date, for a
      [TIMESTAMP WITH TIME ZONE] *)
  timestamptz_in : Z -> bool
}.

(** ** TOTP engine *)

Module Totp.

Definition step : Z := 30.

Definition digit_char (d : Z) : ascii := ascii_of_nat (48 + Z.to_nat d).

Definition is_digit (a : ascii) : bool :=
  ((48 <=? nat_of_ascii a) && (nat_of_ascii a <=? 57))%nat.

(** The decimal numeral of [v], on exactly [n] digits, zeros in front. *)
Fixpoint numeral (n : nat) (v : Z) : string :=
  match n with
  | O => ""
  | S n' => numeral n' (v / 10) ++ String (digit_char (v mod 10)) ""
  end.

Definition counter_of (t : Z) : Z := t / step.

Fixpoint steps_from (c : Z) (n : nat) : list Z :=
  match n with
  | O => []
  | S n' => c :: steps_from (c + 1) n'
  end.

Section Engine.
Context {L : Libs}.

(** Modelled from the spec: the code generation of speakeasy is not among
    the sources; by section 4.2 and the glossary the code of a time step is a
    short numeric code derived from the HMAC of the step's counter under the
    secret: here the truncated HMAC, modulo ten to the number of digits, in
    decimal. *)
Definition codeAt (secret : string) (c : Z) : string :=
  numeral totp_digits (hmac_truncate secret c mod 10 ^ Z.of_nat totp_digits).

Definition well_formed (code : string) : bool :=
  (String.length code =? totp_digits)%nat &&
  forallb is_digit (list_ascii_of_string code).

(** Modelled from the spec: [speakeasy.totp.verify] is not among the sources;
    section 4.2 gives [verifyCode(secret, code, windowSteps)]: the counter is
    the current time over the 30-second step, a code of the wrong length or
    with a character that is no digit is rejected before any HMAC is
    computed, and otherwise the code is accepted when it is the code of the
    current step or of a step at most [windowSteps] away. *)
Definition verifyCode (secret code : string) (windowSteps : Z) (t : Z) : bool :=
  well_formed code &&
  existsb (fun c => (codeAt secret c =? code)%string)
          (steps_from (counter_of t - windowSteps) (Z.to_nat (2 * windowSteps + 1))).

End Engine.
End Totp.

(** ** Requests *)

Record Request : Type := mkRequest {
  authorization : option string;
  req_body : list (string * string);
  (** the fields of a body that are no strings *)
  body_permissions : option (list string);
  body_expiresInDays : option Z;
  body_is_active : option bool;
  (** [req.params] *)
  params : list (string * string)
}.

(** [s.split(sep)] *)
Fixpoint split (sep : ascii) (s : string) : list string :=
  match s with
  | EmptyString => [""]
  | String c s' =>
    if Ascii.eqb c sep then "" :: split sep s'
    else match split sep s' with
         | h :: t => String c h :: t
         | [] => [String c ""]
         end
  end.

Definition body_field (k : string) (r : Request) : option string :=
  assoc k (req_body r).

(** The string behind a truthy optional string. *)
Definition str (o : option string) : string :=
  match o with Some s => s | None => "" end.

(** A value assigned to a column of type [VARCHAR(n)]: a longer string is an
    error, unless all that exceeds [n] characters is blanks, which are then
    cut off. *)
Definition varchar (n : nat) (s : string) : option string :=
  if (String.length s <=? n)%nat then Some s
  else if forallb (fun c => Ascii.eqb c " ")
                  (list_ascii_of_string (substring n (String.length s - n) s))
       then Some (substring 0 n s)
       else None.

Definition set_username (n : string) (u : User) : User :=
  mkUser (id u) n (email u) (password_hash u) (totp_secret u)
         (totp_temp_secret u) (is_active u) (is_admin u) (created_at u)
         (updated_at u) (last_login u).

Definition set_email (e : string) (u : User) : User :=
  mkUser (id u) (username u) e (password_hash u) (totp_secret u)
         (totp_temp_secret u) (is_active u) (is_admin u) (created_at u)
         (updated_at u) (last_login u).

(** A [Date] holds a time of at most 8.64e15 milliseconds either side of
    the epoch; beyond that it is an [Invalid Date].  Times are in seconds
    here. *)
Definition valid_date (t : Z) : bool :=
  (-8640000000000 <=? t) && (t <=? 8640000000000).

Section Routes.
Context {L : Libs}.
Variable env : Env.

(** A text of a request compared with a [UUID] column: the text the database
    prints for the uuid it reads, [None] when it reads none.  The ids in a
    table are texts the database printed, and it reads each of them as
    itself. *)
Definition read_uuid (stored : list string) (text : string) : option string :=
  if existsb (String.eqb text) stored then Some text else uuid_in text.

(** *** Library calls, logged *)

Definition call_bcrypt_hash (plaintext : string) (rounds : Z) : Handler string :=
  emit (EvBcryptHash plaintext);;
  ret (bcrypt_hash plaintext rounds (salt env)).

Definition call_bcrypt_compare (plaintext digest : string) : Handler bool :=
  emit (EvBcryptCompare plaintext digest);;
  ret (bcrypt_compare plaintext digest).

Definition call_totp_verify (secret token : string) (window : Z) : Handler bool :=
  emit (EvTotpVerify secret token);;
  ret (Totp.verifyCode secret token window (now env)).

Definition call_jwt_sign (uid uname : string) : Handler string :=
  emit (EvJwtSign uid);;
  ret (jwt_sign uid uname (JWT_SECRET env) (24 * 3600) (now env)).

Definition call_sha256 (s : string) : Handler string :=
  emit (EvSha256 s);;
  ret (sha256_hex s).

(** *** [server/routes/auth.js] *)

Definition unique_violation (u : User) (d : Database) : bool :=
  existsb (fun v => (id v =? id u)%string || (username v =? username u)%string
                    || (email v =? email u)%string) (users d).

(** [INSERT INTO users ... RETURNING ...]: [username] and [email] go into
    [VARCHAR(50)] and [VARCHAR(255)], and the row that results must be new in
    its keys.  (A bcrypt hash has 60 characters, within [VARCHAR(255)].) *)
Definition insert_user (u : User) : Handler User :=
  d <- get_db;;
  match varchar 50 (username u), varchar 255 (email u) with
  | Some n, Some e =>
    let row := set_email e (set_username n u) in
    if unique_violation row d then throw
    else put_db (set_users (users d ++ [row]) d);; ret row
  | _, _ => throw
  end.

Definition register (req : Request) : Handler Response :=
  let b_username := body_field "username" req in
  let b_email := body_field "email" req in
  let b_password := body_field "password" req in
  if negb (truthy b_username) || negb (truthy b_email) || negb (truthy b_password) then
    reply 400 (error_body "All fields are required")
  else if (String.length (str b_password) <? 8)%nat then
    reply 400 (error_body "Password must be at least 8 characters long")
  else
    d <- get_db;;
    let existingUser := select_users_by_email_or_username (str b_email) (str b_username) d in
    if (0 <? List.length existingUser)%nat then
      reply 400 (error_body "User already exists")
    else
      hashedPassword <- call_bcrypt_hash (str b_password) 12;;
      user <- insert_user (new_user (new_row_id env) (str b_username) (str b_email)
                                    hashedPassword (now env));;
      token <- call_jwt_sign (id user) (username user);;
      ret (mkResponse 201 (JObj [
        ("message", JStr "User created successfully");
        ("token", JStr token);
        ("user", JObj [("id", JStr (id user));
                       ("username", JStr (username user));
                       ("email", JStr (email user));
                       ("created_at", JNum (created_at user))])])).

Definition login (req : Request) : Handler Response :=
  let b_email := body_field "email" req in
  let b_password := body_field "password" req in
  let b_totp := body_field "totp" req in
  if negb (truthy b_email) || negb (truthy b_password) then
    reply 400 (error_body "Email and password are required")
  else
    d <- get_db;;
    match select_users_by_email (str b_email) d with
    | [] => reply 401 (error_body "Invalid credentials")
    | user :: _ =>
      passwordMatch <- call_bcrypt_compare (str b_password) (password_hash user);;
      if negb passwordMatch then
        reply 401 (error_body "Invalid credentials")
      else
        (if truthy (totp_secret user) then
           if negb (truthy b_totp) then
             reply 200 (JObj [("require2FA", JBool true)])
           else
             verified <- call_totp_verify (str (totp_secret user)) (str b_totp) 1;;
             if negb verified then reply 401 (error_body "Invalid 2FA code")
             else ret tt
         else ret tt);;
        d' <- get_db;;
        put_db (update_users_where_id (now env) (id user)
                                      (set_last_login (now env)) d');;
        token <- call_jwt_sign (id user) (username user);;
        ret (mkResponse 200 (JObj [
          ("message", JStr "Login successful");
          ("token", JStr token);
          ("user", JObj [("id", JStr (id user));
                         ("username", JStr (username user));
                         ("email", JStr (email user));
                         ("has2FA", JBool (truthy (totp_secret user)))])]))
    end.


(** The router's own [authenticateToken], at the end of [auth.js]. *)
Definition authenticateToken_local (req : Request)
  (next : JwtPayload -> Handler Response) : Handler Response :=
  let authHeader := authorization req in
  let token := match authHeader with
               | Some h => nth_error (split " " h) 1
               | None => None
               end in
  if negb (truthy token) then
    reply 401 (error_body "Access token required")
  else
    emit (EvJwtVerify (str token));;
    match jwt_verify (str token) (JWT_SECRET env) (now env) with
    | JwtErr _ => reply 403 (error_body "Invalid or expired token")
    | JwtOk user => next user
    end.

Definition setup_2fa (user : JwtPayload) (req : Request) : Handler Response :=
  let userId := userId user in
  let secret_base32 := new_secret env in
  let qrCodeUrl := qrcode_toDataURL (otpauth_url "FossFLOW" secret_base32) in
  d <- get_db;;
  put_db (update_users_where_id (now env) userId
            (set_totp_temp_secret (Some secret_base32)) d);;
  ret (mkResponse 200 (JObj [("secret", JStr secret_base32);
                             ("qrCode", JStr qrCodeUrl);
                             ("manualEntryKey", JStr secret_base32)])).

Definition verify_2fa (user : JwtPayload) (req : Request) : Handler Response :=
  let token := body_field "token" req in
  let userId := userId user in
  if negb (truthy token) then
    reply 400 (error_body "2FA token is required")
  else
    d <- get_db;;
    match select_users_by_id userId d with
    | [] => throw  (* rows[0] is undefined *)
    | row :: _ =>
      if negb (truthy (totp_temp_secret row)) then
        reply 400 (error_body "No 2FA setup in progress")
      else
        let tempSecret := str (totp_temp_secret row) in
        verified <- call_totp_verify tempSecret (str token) 1;;
        if negb verified then
          reply 400 (error_body "Invalid 2FA token")
        else
          d' <- get_db;;
          put_db (update_users_where_id (now env) userId
                    (set_totp_secrets (Some tempSecret) None) d');;
          ret (mkResponse 200 (JObj [("message", JStr "2FA activated successfully")]))
    end.

Definition route_setup_2fa (req : Request) : Handler Response :=
  authenticateToken_local req (fun user => setup_2fa user req).

Definition route_verify_2fa (req : Request) : Handler Response :=
  authenticateToken_local req (fun user => verify_2fa user req).

(** *** [server/middleware/auth.js] *)

Definition authenticateToken (req : Request)
  (next : JwtPayload -> Handler Response) : Handler Response :=
  let authHeader := authorization req in
  let token := match authHeader with
               | Some h => nth_error (split " " h) 1
               | None => None
               end in
  if negb (truthy token) then
    reply 401 (error_body "Access token required")
  else
    emit (EvJwtVerify (str token));;
    match jwt_verify (str token) (JWT_SECRET env) (now env) with
    | JwtErr name =>
      if (name =? "TokenExpiredError")%string then
        reply 401 (error_body "Token expired")
      else
        reply 403 (error_body "Invalid or expired token")
    | JwtOk user => next user
    end.

(** *** [server/routes/users.js] *)

Definition audit (uid act rtype rid : string) : Handler unit :=
  d <- get_db;;
  put_db (insert_audit_log
            (mkAuditLog (new_log_id env) uid act rtype rid (client_ip env) None (now env)) d).

Definition disable_2fa (user : JwtPayload) (req : Request) : Handler Response :=
  let userId := userId user in
  let password := body_field "password" req in
  if negb (truthy password) then
    reply 400 (error_body "Password is required to disable 2FA")
  else
    d <- get_db;;
    match select_users_by_id userId d with
    | [] => reply 404 (error_body "User not found")
    | row :: _ =>
      passwordMatch <- call_bcrypt_compare (str password) (password_hash row);;
      if negb passwordMatch then
        reply 401 (error_body "Incorrect password")
      else
        d' <- get_db;;
        put_db (update_users_where_id (now env) userId (set_totp_secrets None None) d');;
        audit userId "disable_2fa" "user" userId;;
        ret (mkResponse 200 (JObj [("message", JStr "2FA disabled successfully")]))
    end.

(** [ORDER BY created_at DESC] *)
Fixpoint insert_desc (k : ApiKey) (l : list ApiKey) : list ApiKey :=
  match l with
  | [] => [k]
  | h :: t => if key_created_at h <? key_created_at k then k :: l
              else h :: insert_desc k t
  end.

Definition order_by_created_at_desc (l : list ApiKey) : list ApiKey :=
  fold_right insert_desc [] l.

Definition json_permissions (ps : list string) : json := JArr (map JStr ps).

(** The columns [GET /me/api-keys] selects. *)
Definition listed_columns (k : ApiKey) : json :=
  JObj [("id", JStr (key_id k));
        ("name", JStr (key_name k));
        ("permissions", json_permissions (permissions k));
        ("last_used_at", json_opt_num (last_used_at k));
        ("expires_at", json_opt_num (expires_at k));
        ("is_active", JBool (key_is_active k));
        ("created_at", JNum (key_created_at k))].

Definition get_api_keys (user : JwtPayload) (req : Request) : Handler Response :=
  let userId := userId user in
  d <- get_db;;
  let rows := order_by_created_at_desc
                (filter (fun k => (key_user_id k =? userId)%string) (api_keys d)) in
  ret (mkResponse 200 (JArr (map listed_columns rows))).

(** The columns the [INSERT] of [POST /me/api-keys] returns. *)
Definition returned_columns (k : ApiKey) : list (string * json) :=
  [("id", JStr (key_id k));
   ("name", JStr (key_name k));
   ("permissions", json_permissions (permissions k));
   ("expires_at", json_opt_num (expires_at k));
   ("is_active", JBool (key_is_active k));
   ("created_at", JNum (key_created_at k))].

Definition create_api_key (user : JwtPayload) (req : Request) : Handler Response :=
  let userId := userId user in
  let name := body_field "name" req in
  let permissions := match body_permissions req with Some ps => ps | None => [] end in
  let expiresInDays := body_expiresInDays req in
  if negb (truthy name) then
    reply 400 (error_body "API key name is required")
  else
    let apiKey := "ffl_" ++ random_hex env in
    keyHash <- call_sha256 apiKey;;
    (* [expiresAt.setDate(expiresAt.getDate() + expiresInDays)], on a clock
       in seconds and days of 86400 seconds *)
    let expiresAt := match expiresInDays with
                     | Some days => if days =? 0 then None
                                    else Some (now env + days * 86400)
                     | None => None
                     end in
    d <- get_db;;
    (* the [INSERT]: [name] goes into [VARCHAR(100)]; [user_id] references
       [users(id)]; the [id] drawn is new; an [Invalid Date], or a date out
       of the range of the column, is refused.  (A SHA-256 digest has 64
       characters, within [VARCHAR(255)].) *)
    match varchar 100 (str name) with
    | None => throw
    | Some stored_name =>
      if negb (existsb (fun u => (id u =? userId)%string) (users d))
         || existsb (fun k => (key_id k =? new_row_id env)%string) (api_keys d)
         || match expiresAt with
            | Some t => negb (valid_date t && timestamptz_in t)
            | None => false
            end
      then throw
      else
        let row := mkApiKey (new_row_id env) userId stored_name keyHash permissions
                            None expiresAt true (now env) in
        put_db (insert_api_key row d);;
        audit userId "create_api_key" "api_key" (key_id row);;
        ret (mkResponse 201 (JObj (returned_columns row ++
          [("apiKey", JStr apiKey);
           ("warning",
            JStr "Save this API key securely. It will not be shown again.")])))
    end.

Definition delete_api_key (user : JwtPayload) (req : Request) : Handler Response :=
  let userId := userId user in
  let keyId := str (assoc "keyId" (params req)) in
  d <- get_db;;
  match read_uuid (map key_id (api_keys d)) keyId with
  | None => throw  (* invalid input syntax for type uuid *)
  | Some k =>
    match filter (fun r => (key_id r =? k)%string) (api_keys d) with
    | [] => reply 404 (error_body "API key not found")
    | row :: _ =>
      if negb (key_user_id row =? userId)%string then
        reply 403 (error_body "Unauthorized")
      else
        put_db (mkDatabase (users d)
                  (filter (fun r => negb (key_id r =? k)%string) (api_keys d))
                  (audit_logs d));;
        audit userId "delete_api_key" "api_key" k;;
        ret (mkResponse 200 (JObj [("message", JStr "API key deleted successfully")]))
    end
  end.

(** [PATCH /:id/status], the only statement that writes [is_active]. *)
Definition update_user_status (user : JwtPayload) (req : Request) : Handler Response :=
  let adminUserId := userId user in
  let target := str (assoc "id" (params req)) in
  d <- get_db;;
  let adminCheck := select_users_by_id adminUserId d in
  if negb (match adminCheck with row :: _ => is_admin row | [] => false end) then
    reply 403 (error_body "Admin access required")
  else
    match body_is_active req with
    | None => reply 400 (error_body "is_active field is required")
    | Some flag =>
      match read_uuid (map id (users d)) target with
      | None => throw  (* invalid input syntax for type uuid *)
      | Some uid =>
        let updated := select_users_by_id uid d in
        put_db (update_users_where_id (now env) uid (set_is_active flag) d);;
        match updated with
        | [] => reply 404 (error_body "User not found")
        | row :: _ =>
          d' <- get_db;;
          put_db (insert_audit_log
                    (mkAuditLog (new_log_id env) adminUserId "update_user_status" "user"
                       uid (client_ip env)
                       (Some (JObj [("is_active", JBool flag)]))
                       (now env)) d');;
          ret (mkResponse 200 (JObj [("id", JStr (id row));
                                     ("username", JStr (username row));
                                     ("email", JStr (email row));
                                     ("is_active", JBool flag)]))
        end
      end
    end.

Definition route_disable_2fa (req : Request) : Handler Response :=
  authenticateToken req (fun user => disable_2fa user req).

Definition route_get_api_keys (req : Request) : Handler Response :=
  authenticateToken req (fun user => get_api_keys user req).

Definition route_create_api_key (req : Request) : Handler Response :=
  authenticateToken req (fun user => create_api_key user req).

End Routes.

(** ** The routing table

    The routes of [auth.js] and [users.js] modelled above, each behind the
    middleware its declaration names. *)

Inductive Route : Type :=
| PostRegister | PostLogin | PostSetup2fa | PostVerify2fa
| PostDisable2fa | GetApiKeys | PostApiKeys | DeleteApiKey | PatchStatus.

Definition serve {L : Libs} (env : Env) (r : Route) (req : Request)
  : Handler Response :=
  match r with
  | PostRegister => register env req
  | PostLogin => login env req
  | PostSetup2fa => route_setup_2fa env req
  | PostVerify2fa => route_verify_2fa env req
  | PostDisable2fa => route_disable_2fa env req
  | GetApiKeys => route_get_api_keys env req
  | PostApiKeys => route_create_api_key env req
  | DeleteApiKey => authenticateToken env req (fun user => delete_api_key env user req)
  | PatchStatus => authenticateToken env req (fun user => update_user_status env user req)
  end.

(** ** Observations and frames used in the statements *)

(** The bearer token a response carries, if any. *)
Definition token_of (r : Response) : option json := field "token" (body r).

Definition map_users (g : User -> User) (w : World) : World :=
  mkWorld (set_users (map g (users (db w))) (db w)) (trace w).

Definition set_key_hash (h : string) (k : ApiKey) : ApiKey :=
  mkApiKey (key_id k) (key_user_id k) (key_name k) h (permissions k)
           (last_used_at k) (expires_at k) (key_is_active k) (key_created_at k).

(** The database with the [key_hash] column blanked. *)
Definition forget_key_hashes (w : World) : World :=
  mkWorld (mkDatabase (users (db w)) (map (set_key_hash "") (api_keys (db w)))
                      (audit_logs (db w)))
          (trace w).


(** Two user rows that differ at most in the 2FA secrets and the trigger's
    stamp. *)
Definition same_but_totp (u u' : User) : Prop :=
  id u' = id u /\ username u' = username u /\ email u' = email u /\
  password_hash u' = password_hash u /\ is_active u' = is_active u /\
  is_admin u' = is_admin u /\ created_at u' = created_at u /\
  last_login u' = last_login u.




(** [UPDATE users SET is_active = f(id)], for every row. *)
Definition reset_is_active (f : string -> bool) (u : User) : User :=
  set_is_active (f (id u)) u.

(** [UPDATE users SET totp_temp_secret = p(id)], for every row. *)
Definition reset_totp_temp_secret (p : string -> option string) (u : User) : User :=
  set_totp_temp_secret (p (id u)) u.

(** ** A small implementation of the libraries, for concrete runs *)

Module Demo.

Fixpoint parse_numeral_from (acc : Z) (s : string) : Z :=
  match s with
  | EmptyString => acc
  | String c s' => parse_numeral_from (10 * acc + (Z.of_nat (nat_of_ascii c) - 48)) s'
  end.

Definition parse_numeral (s : string) : Z := parse_numeral_from 0 s.

Fixpoint checksum (acc : Z) (s : string) : Z :=
  match s with
  | EmptyString => acc
  | String c s' => checksum ((acc * 31 + Z.of_nat (nat_of_ascii c)) mod 4294967296) s'
  end.

Definition demo_bcrypt_hash (plaintext : string) (rounds : Z) (salt : string) : string :=
  salt ++ "$" ++ Totp.numeral 10 (checksum (checksum 7 salt) plaintext).

Definition demo_bcrypt_compare (plaintext digest : string) : bool :=
  match split "$" digest with
  | [s; h] => (h =? Totp.numeral 10 (checksum (checksum 7 s) plaintext))%string
  | _ => false
  end.

Definition demo_signature (uid uname secret : string) (i e : Z) : string :=
  Totp.numeral 10 (checksum (checksum (checksum (i + e) uid) uname) secret).

Definition demo_jwt_sign (uid uname secret : string) (ttl t : Z) : string :=
  uid ++ "." ++ uname ++ "." ++ Totp.numeral 12 t ++ "." ++ Totp.numeral 12 (t + ttl)
      ++ "." ++ demo_signature uid uname secret t (t + ttl).

Definition demo_jwt_verify (token secret : string) (t : Z) : JwtResult :=
  match split "." token with
  | [uid; uname; i; e; sig] =>
    if negb (sig =? demo_signature uid uname secret (parse_numeral i) (parse_numeral e))%string
    then JwtErr "JsonWebTokenError"
    else if parse_numeral e <=? t then JwtErr "TokenExpiredError"
    else JwtOk (mkJwtPayload uid uname (parse_numeral i) (parse_numeral e))
  | _ => JwtErr "JsonWebTokenError"
  end.

(** A uuid as PostgreSQL reads one: 32 hexadecimal digits of either case,
    a hyphen allowed after every fourth digit, braces allowed around. *)
Definition is_hex (a : ascii) : bool :=
  let n := nat_of_ascii a in
  (((48 <=? n) && (n <=? 57)) || ((65 <=? n) && (n <=? 70))
   || ((97 <=? n) && (n <=? 102)))%nat.

Definition lower (a : ascii) : ascii :=
  let n := nat_of_ascii a in
  if ((65 <=? n) && (n <=? 90))%nat then ascii_of_nat (n + 32) else a.

(** The digits of [left] more bytes, the byte at hand being number [i]. *)
Fixpoint uuid_bytes (left i : nat) (src : list ascii) : option (list ascii * list ascii) :=
  match left with
  | O => Some ([], src)
  | S left' =>
    match src with
    | a :: b :: rest =>
      if is_hex a && is_hex b then
        let rest' := match rest with
                     | "-"%char :: rest2 =>
                       if Nat.odd i && (i <? 15)%nat then rest2 else rest
                     | _ => rest
                     end in
        match uuid_bytes left' (S i) rest' with
        | Some (digits, tail) => Some (lower a :: lower b :: digits, tail)
        | None => None
        end
      else None
    | _ => None
    end
  end.

Definition uuid_text (digits : list ascii) : string :=
  string_of_list_ascii
    (firstn 8 digits ++ "-"%char :: firstn 4 (skipn 8 digits)
     ++ "-"%char :: firstn 4 (skipn 12 digits)
     ++ "-"%char :: firstn 4 (skipn 16 digits)
     ++ "-"%char :: skipn 20 digits).

Definition demo_uuid_in (s : string) : option string :=
  let src := list_ascii_of_string s in
  match src with
  | "{"%char :: inner =>
    match uuid_bytes 16 0 inner with
    | Some (digits, ["}"%char]) => Some (uuid_text digits)
    | _ => None
    end
  | _ =>
    match uuid_bytes 16 0 src with
    | Some (digits, []) => Some (uuid_text digits)
    | _ => None
    end
  end.

#[export] Instance demo : Libs := {
  bcrypt_hash := demo_bcrypt_hash;
  bcrypt_compare := demo_bcrypt_compare;
  jwt_sign := demo_jwt_sign;
  jwt_verify := demo_jwt_verify;
  hmac_truncate := fun secret c => checksum (checksum 11 (Totp.numeral 12 c)) secret;
  totp_digits := 6;
  sha256_hex := fun s => Totp.numeral 10 (checksum 13 s);
  otpauth_url := fun name secret => "otpauth://totp/" ++ name ++ "?secret=" ++ secret;
  qrcode_toDataURL := fun s => "data:image/png;base64," ++ s;
  uuid_in := demo_uuid_in;
  (* the column starts in 4713 BC *)
  timestamptz_in := fun t => -210866803200 <=? t
}.

Definition env0 : Env :=
  mkEnv 1700000000 "row-1" "log-1" "salt" "00ff" "JBSWY3DPEHPK3PXP" "10.0.0.7" "server-secret".

Definition alice : User :=
  mkUser "u-alice" "alice" "alice@example.com"
         (demo_bcrypt_hash "password123" 12 "s1")
         None None true false 1600000000 1600000000 None.

(** bob has two-factor authentication, and an enrollment of his own pending. *)
Definition bob : User :=
  mkUser "u-bob" "bob" "bob@example.com"
         (demo_bcrypt_hash "hunter2hunter2" 12 "s2")
         (Some "BOBSECRET") (Some "BOBPENDING") true false 1600000000 1600000000 None.

(** carol was deactivated by an administrator. *)
Definition carol : User :=
  mkUser "u-carol" "carol" "carol@example.com"
         (demo_bcrypt_hash "correct horse" 12 "s3")
         None None false false 1600000000 1600000000 None.

Definition root : User :=
  mkUser "u-root" "admin" "admin@fossflow.local"
         (demo_bcrypt_hash "admin123" 12 "s0")
         None None true true 1600000000 1600000000 None.

Definition key0 : ApiKey :=
  mkApiKey "k-0" "u-alice" "ci" (sha256_hex "ffl_abcd") ["read"] None
           (Some 1800000000) true 1650000000.

Definition world0 : World :=
  mkWorld (mkDatabase [root; alice; bob; carol] [key0] []) [].

Definition post (fields : list (string * string)) : Request :=
  mkRequest None fields None None None [].

Definition with_bearer (token : string) (r : Request) : Request :=
  mkRequest (Some ("Bearer " ++ token)) (req_body r) (body_permissions r)
            (body_expiresInDays r) (body_is_active r) (params r).

Definition payload_of (u : User) : JwtPayload :=
  mkJwtPayload (id u) (username u) 1699990000 1700076400.

Definition carol_login : Request :=
  post [("email", "carol@example.com"); ("password", "correct horse")].




Definition alice_login : Request :=
  post [("email", "alice@example.com"); ("password", "password123")].

(** The administrator's [PATCH /u-alice/status] with [{is_active: false}]. *)
Definition deactivate_alice : Request :=
  mkRequest None [] None None (Some false) [("id", "u-alice")].

Definition bob_disable_2fa : Request :=
  post [("password", "hunter2hunter2")].

Definition alice_new_key : Request :=
  mkRequest None [("name", "deploy")] (Some ["read"; "write"]) (Some 30) None [].

(** A token the server signed long ago, and one signed with a guessed secret. *)
Definition expired_token : string :=
  demo_jwt_sign "u-alice" "alice" "server-secret" 86400 1600000000.

Definition forged_token : string :=
  demo_jwt_sign "u-alice" "alice" "guess" 86400 1699990000.

(** The world after alice has created an API key; the key drawn is
    [ffl_00ff]. *)
Definition world2 : World :=
  fst (run (create_api_key env0 (payload_of alice) alice_new_key) world0).

(** The world after the administrator's request. *)
Definition world1 : World :=
  fst (run (update_user_status env0 (payload_of root) deactivate_alice) world0).


(** The scenario of section 8 of the spec, for a new user dave. *)
Definition dave_register : Request :=
  post [("username", "dave"); ("email", "dave@example.com"); ("password", "password123")].

Definition dave_login (totp : list (string * string)) : Request :=
  post ([("email", "dave@example.com"); ("password", "password123")] ++ totp).

Definition dave_token : string :=
  jwt_sign "row-1" "dave" (JWT_SECRET env0) (24 * 3600) (now env0).

(** What dave's authenticator shows at the time of [env0]. *)
Definition dave_code : string :=
  Totp.codeAt (new_secret env0) (Totp.counter_of (now env0)).

Definition registered : World := fst (run (register env0 dave_register) world0).

Definition enrolling : World :=
  fst (run (route_setup_2fa env0 (with_bearer dave_token (post []))) registered).

Definition enrolled : World :=
  fst (run (route_verify_2fa env0 (with_bearer dave_token (post [("token", dave_code)])))
           enrolling).

End Demo.

(** * More of the routes and of the schema

    The rest of [server/routes/users.js] that reads and writes one user
    (the profile, its update, the change of password), the routes of
    [server/routes/diagrams.js] on one diagram, and from [01-init.sql] the
    tables [diagrams], [diagram_versions] and [sessions], the triggers on
    [diagrams] and the function [cleanup_expired_sessions].  The listings
    with pages and search patterns are left out. *)

(** ** Observations on requests and tables *)

Definition with_authorization (h : option string) (r : Request) : Request :=
  mkRequest h (req_body r) (body_permissions r) (body_expiresInDays r)
            (body_is_active r) (params r).

(** No blank in a string. *)
Definition no_space (s : string) : bool :=
  forallb (fun c => negb (Ascii.eqb c " ")) (list_ascii_of_string s).

(** The constraints [PRIMARY KEY (id)], [UNIQUE (username)] and
    [UNIQUE (email)] of the table [users]. *)
Definition unique_users (d : Database) : Prop :=
  NoDup (map id (users d)) /\
  NoDup (map username (users d)) /\
  NoDup (map email (users d)).

(** Two user rows that differ at most in [last_login] and the trigger's
    stamp. *)
Definition same_but_last_login (u u' : User) : Prop :=
  id u' = id u /\ username u' = username u /\ email u' = email u /\
  password_hash u' = password_hash u /\ totp_secret u' = totp_secret u /\
  totp_temp_secret u' = totp_temp_secret u /\ is_active u' = is_active u /\
  is_admin u' = is_admin u /\ created_at u' = created_at u.

(** ** The other routes of [users.js] on the table [users] *)

Definition set_password_hash (h : string) (u : User) : User :=
  mkUser (id u) (username u) (email u) h (totp_secret u)
         (totp_temp_secret u) (is_active u) (is_admin u) (created_at u)
         (updated_at u) (last_login u).

(** [x IS NOT NULL] *)
Definition is_not_null {A : Type} (o : option A) : bool :=
  match o with Some _ => true | None => false end.


(** The columns a profile is read by, and the ones it is not: [f] rewrites
    the password hash and the values of the two secrets, and keeps which of
    them are null. *)
Definition scramble (f : string -> string) (u : User) : User :=
  mkUser (id u) (username u) (email u) (f (password_hash u))
         (option_map f (totp_secret u)) (option_map f (totp_temp_secret u))
         (is_active u) (is_admin u) (created_at u) (updated_at u) (last_login u).



(** No active secret is the empty string. *)
Definition no_empty_secret (d : Database) : Prop :=
  Forall (fun u => totp_secret u <> Some "") (users d).




Section UserRoutes.
Context {L : Libs}.
Variable env : Env.




(** [GET /me] *)
Definition get_profile (user : JwtPayload) (req : Request) : Handler Response :=
  let userId := userId user in
  d <- get_db;;
  match select_users_by_id userId d with
  | [] => reply 404 (error_body "User not found")
  | row :: _ =>
    ret (mkResponse 200 (JObj [
      ("id", JStr (id row));
      ("username", JStr (username row));
      ("email", JStr (email row));
      ("is_active", JBool (is_active row));
      ("is_admin", JBool (is_admin row));
      ("created_at", JNum (created_at row));
      ("last_login", json_opt_num (last_login row));
      ("has_2fa", JBool (is_not_null (totp_secret row)))]))
  end.


(** [POST /me/change-password]; the hash is stored as [bcrypt.hash] returns
    it, as at registration: a bcrypt hash has 60 characters, within
    [VARCHAR(255)]. *)
Definition change_password (user : JwtPayload) (req : Request) : Handler Response :=
  let userId := userId user in
  let currentPassword := body_field "currentPassword" req in
  let newPassword := body_field "newPassword" req in
  if negb (truthy currentPassword) || negb (truthy newPassword) then
    reply 400 (error_body "Current and new passwords are required")
  else if (String.length (str newPassword) <? 8)%nat then
    reply 400 (error_body "New password must be at least 8 characters long")
  else
    d <- get_db;;
    match select_users_by_id userId d with
    | [] => reply 404 (error_body "User not found")
    | row :: _ =>
      passwordMatch <- call_bcrypt_compare (str currentPassword) (password_hash row);;
      if negb passwordMatch then
        reply 401 (error_body "Current password is incorrect")
      else
        newPasswordHash <- call_bcrypt_hash env (str newPassword) 12;;
        d' <- get_db;;
        put_db (update_users_where_id (now env) userId
                  (set_password_hash newPasswordHash) d');;
        audit env userId "change_password" "user" userId;;
        ret (mkResponse 200 (JObj [("message", JStr "Password changed successfully")]))
    end.

End UserRoutes.

(** ** The diagram tables of [01-init.sql] and the routes of [diagrams.js]

    A diagram id, a version id and a user id are uuids in the text the
    database prints them in, which is how clients get them and send them
    back; [DELETE /:id] is modelled for every text a client may send, which
    [read_uuid] turns into the text of the database.  The columns that no
    statement of the server leaves null
    ([is_public], [tags], [version]) are not optional. *)

(** JavaScript truthiness of a value of a request body; [None] is
    [undefined]. *)
Definition json_truthy (o : option json) : bool :=
  match o with
  | None | Some JNull => false
  | Some (JBool b) => b
  | Some (JNum n) => negb (n =? 0)
  | Some (JStr s) => negb (s =? "")%string
  | Some (JArr _) | Some (JObj _) => true
  end.

(** The range of the type [INTEGER]. *)
Definition int4_ok (n : Z) : bool := (-2147483648 <=? n) && (n <=? 2147483647).

(** PostgreSQL's type [jsonb] as the server meets it: [jsonb_in] is a value
    of a request body bound to a parameter of a [JSONB NOT NULL] column and
    read by the type's input function ([None] when the database refuses it,
    as it does a text that is no JSON, or a null), [jsonb_out] is a stored
    value as a result row carries it, and [jsonb_eqb] is [=] on the type. *)
Class Postgres : Type := {
  Jsonb : Type;
  jsonb_in : json -> option Jsonb;
  jsonb_out : Jsonb -> json;
  jsonb_eqb : Jsonb -> Jsonb -> bool
}.

Record Diagram {P : Postgres} : Type := mkDiagram {
  dg_id : string;
  dg_user_id : string;
  dg_title : string;
  dg_description : option string;
  dg_data : Jsonb;
  dg_is_public : bool;
  dg_tags : list string;
  dg_version : Z;
  dg_created_at : Z;
  dg_updated_at : Z
}.

Record DiagramVersion {P : Postgres} : Type := mkDiagramVersion {
  dv_id : string;
  dv_diagram_id : string;
  dv_version : Z;
  dv_data : Jsonb;
  dv_change_description : option string;
  dv_created_at : Z;
  dv_created_by : string
}.

Record Session {P : Postgres} : Type := mkSession {
  session_id : string;
  session_user_id : option string;
  session_data : option Jsonb;
  session_expires_at : Z;
  session_created_at : Z
}.

(** The tables of the claims' routes, and the two diagram tables. *)
Record Store {P : Postgres} : Type := mkStore {
  core : World;
  diagrams : list Diagram;
  diagram_versions : list DiagramVersion
}.

Arguments mkDiagram {P}.
Arguments mkDiagramVersion {P}.
Arguments mkSession {P}.
Arguments mkStore {P}.

(** The body of a diagram request: [title] and [description] are string
    fields of [http]; the fields that are no strings come beside it. *)
Record DiagramRequest : Type := mkDiagramRequest {
  http : Request;
  body_diagram_data : option json;
  body_is_public : option bool;
  body_tags : option (list string)
}.

(** The assignments of an [UPDATE diagrams], with the values bound to them. *)
Inductive DiagramAssignment : Type :=
| assign_title (v : string)
| assign_description (v : string)
| assign_diagram_data (v : json)
| assign_is_public (v : bool)
| assign_tags (v : list string).

Section Diagrams.
Context {L : Libs} {P : Postgres}.
Variable env : Env.

(** *** Handlers over the larger store *)

Definition DHandler (A : Type) : Type := Store -> Store * (A + Response).

Definition dret {A : Type} (a : A) : DHandler A := fun s => (s, inl a).

Definition dbind {A B : Type} (m : DHandler A) (k : A -> DHandler B) : DHandler B :=
  fun s =>
    match m s with
    | (s', inl a) => k a s'
    | (s', inr r) => (s', inr r)
    end.

Definition dreply {A : Type} (code : Z) (b : json) : DHandler A :=
  fun s => (s, inr (mkResponse code b)).

Definition dthrow {A : Type} : DHandler A :=
  dreply 500 (error_body "Internal server error").

Definition get_store : DHandler Store := fun s => (s, inl s).

Definition put_tables (ds : list Diagram) (vs : list DiagramVersion) : DHandler unit :=
  fun s => (mkStore (core s) ds vs, inl tt).

(** A statement on the other tables. *)
Definition lift {A : Type} (h : Handler A) : DHandler A :=
  fun s =>
    match h (core s) with
    | (w', r) => (mkStore w' (diagrams s) (diagram_versions s), r)
    end.

Definition drun (h : DHandler Response) (s : Store) : Store * Response :=
  match h s with
  | (s', inl r) => (s', r)
  | (s', inr r) => (s', r)
  end.

Declare Scope dhandler_scope.
Delimit Scope dhandler_scope with dhandler.
Notation "x <- m ;; k" := (dbind m (fun x => k))
  (at level 100, m at next level, right associativity) : dhandler_scope.
Notation "m ;; k" := (dbind m (fun _ => k))
  (at level 100, right associativity) : dhandler_scope.
Local Open Scope dhandler_scope.

(** *** Rows, as statements write them and as responses carry them *)

Definition set_dg_title (v : string) (d : Diagram) : Diagram :=
  mkDiagram (dg_id d) (dg_user_id d) v (dg_description d) (dg_data d)
            (dg_is_public d) (dg_tags d) (dg_version d) (dg_created_at d)
            (dg_updated_at d).

Definition set_dg_description (v : option string) (d : Diagram) : Diagram :=
  mkDiagram (dg_id d) (dg_user_id d) (dg_title d) v (dg_data d)
            (dg_is_public d) (dg_tags d) (dg_version d) (dg_created_at d)
            (dg_updated_at d).

Definition set_dg_data (v : Jsonb) (d : Diagram) : Diagram :=
  mkDiagram (dg_id d) (dg_user_id d) (dg_title d) (dg_description d) v
            (dg_is_public d) (dg_tags d) (dg_version d) (dg_created_at d)
            (dg_updated_at d).

Definition set_dg_is_public (v : bool) (d : Diagram) : Diagram :=
  mkDiagram (dg_id d) (dg_user_id d) (dg_title d) (dg_description d) (dg_data d)
            v (dg_tags d) (dg_version d) (dg_created_at d) (dg_updated_at d).

Definition set_dg_tags (v : list string) (d : Diagram) : Diagram :=
  mkDiagram (dg_id d) (dg_user_id d) (dg_title d) (dg_description d) (dg_data d)
            (dg_is_public d) v (dg_version d) (dg_created_at d) (dg_updated_at d).

Definition set_dg_version (v : Z) (d : Diagram) : Diagram :=
  mkDiagram (dg_id d) (dg_user_id d) (dg_title d) (dg_description d) (dg_data d)
            (dg_is_public d) (dg_tags d) v (dg_created_at d) (dg_updated_at d).

Definition set_dg_updated_at (v : Z) (d : Diagram) : Diagram :=
  mkDiagram (dg_id d) (dg_user_id d) (dg_title d) (dg_description d) (dg_data d)
            (dg_is_public d) (dg_tags d) (dg_version d) (dg_created_at d) v.

Definition json_opt_str (o : option string) : json :=
  match o with Some t => JStr t | None => JNull end.

(** A row of [SELECT *] or [RETURNING *] on [diagrams]. *)
Definition diagram_json (d : Diagram) : json :=
  JObj [("id", JStr (dg_id d));
        ("user_id", JStr (dg_user_id d));
        ("title", JStr (dg_title d));
        ("description", json_opt_str (dg_description d));
        ("diagram_data", jsonb_out (dg_data d));
        ("is_public", JBool (dg_is_public d));
        ("tags", JArr (map JStr (dg_tags d)));
        ("version", JNum (dg_version d));
        ("created_at", JNum (dg_created_at d));
        ("updated_at", JNum (dg_updated_at d))].

(** The columns [GET /:id/versions] selects. *)
Definition version_json (v : DiagramVersion) : json :=
  JObj [("id", JStr (dv_id v));
        ("version", JNum (dv_version v));
        ("change_description", json_opt_str (dv_change_description v));
        ("created_at", JNum (dv_created_at v));
        ("created_by", JStr (dv_created_by v))].

(** [ORDER BY version DESC] *)
Fixpoint insert_version_desc (v : DiagramVersion) (l : list DiagramVersion)
  : list DiagramVersion :=
  match l with
  | [] => [v]
  | h :: t => if dv_version h <? dv_version v then v :: l
              else h :: insert_version_desc v t
  end.

Definition order_by_version_desc (l : list DiagramVersion) : list DiagramVersion :=
  fold_right insert_version_desc [] l.

Definition select_diagrams_by_id (i : string) (s : Store) : list Diagram :=
  filter (fun d => (dg_id d =? i)%string) (diagrams s).

(** [WHERE id = $1 AND (user_id = $2 OR is_public = true)] *)
Definition select_readable (i uid : string) (s : Store) : list Diagram :=
  filter (fun d => (dg_id d =? i)%string
                   && ((dg_user_id d =? uid)%string || dg_is_public d))
         (diagrams s).

Definition user_exists (uid : string) (s : Store) : bool :=
  existsb (fun u => (id u =? uid)%string) (users (db (core s))).

(** *** The triggers on [diagrams] *)

(** [create_diagram_version], fired before the update of a row: the row to
    store and the row to archive, or [None] when the new version number is
    out of range. *)
Definition create_diagram_version (old new : Diagram)
  : option (Diagram * list DiagramVersion) :=
  if negb (jsonb_eqb (dg_data old) (dg_data new)) then
    let archived :=
      mkDiagramVersion (new_row_id env) (dg_id new) (dg_version new) (dg_data old)
                       None (now env) (dg_user_id new) in
    if int4_ok (dg_version old + 1)
    then Some (set_dg_version (dg_version old + 1) new, [archived])
    else None
  else Some (new, []).

(** [update_updated_at_column] *)
Definition update_updated_at_column (new : Diagram) : Diagram :=
  set_dg_updated_at (now env) new.

(** The two triggers in the order of their names. *)
Definition before_update (old new : Diagram) : option (Diagram * list DiagramVersion) :=
  match create_diagram_version old new with
  | Some (new', archived) => Some (update_updated_at_column new', archived)
  | None => None
  end.

(** *** Statements *)

(** [SET column = $n]: a title goes into [VARCHAR(255)], a value of the body
    into [JSONB]. *)
Definition diagram_assignment (a : DiagramAssignment) : option (Diagram -> Diagram) :=
  match a with
  | assign_title v => option_map set_dg_title (varchar 255 v)
  | assign_description v => Some (set_dg_description (Some v))
  | assign_diagram_data v => option_map set_dg_data (jsonb_in v)
  | assign_is_public v => Some (set_dg_is_public v)
  | assign_tags v => Some (set_dg_tags v)
  end.

Definition diagram_assignments (updates : list DiagramAssignment)
  : option (Diagram -> Diagram) :=
  fold_left (fun acc a =>
               match acc, diagram_assignment a with
               | Some f, Some g => Some (fun d => g (f d))
               | _, _ => None
               end)
            updates (Some (fun d => d)).

(** The rows of an [UPDATE diagrams ... WHERE id = $n] after their triggers,
    and the rows the triggers archive. *)
Fixpoint update_rows (i : string) (set : Diagram -> Diagram) (rows : list Diagram)
  : option (list Diagram * list DiagramVersion) :=
  match rows with
  | [] => Some ([], [])
  | old :: rest =>
    match (if (dg_id old =? i)%string then before_update old (set old)
           else Some (old, [])),
          update_rows i set rest with
    | Some (row, archived), Some (rows', archived') =>
      Some (row :: rows', (archived ++ archived')%list)
    | _, _ => None
    end
  end.

(** What [diagram_versions] asks of a row it is given: a new [id], and a
    user behind [created_by]. *)
Definition version_insertable (s : Store) (v : DiagramVersion) : bool :=
  negb (existsb (fun v' => (dv_id v' =? dv_id v)%string) (diagram_versions s))
  && user_exists (dv_created_by v) s.

(** [UPDATE diagrams SET ... WHERE id = $n RETURNING *]: the statement fails,
    and writes nothing, when a value does not go into its column or a
    trigger fails. *)
Definition update_diagrams_returning (i : string) (updates : list DiagramAssignment)
  : DHandler (list Diagram) :=
  s <- get_store;;
  match diagram_assignments updates with
  | None => dthrow
  | Some set =>
    match update_rows i set (diagrams s) with
    | None => dthrow
    | Some (rows, archived) =>
      if forallb (version_insertable s) archived then
        put_tables rows (diagram_versions s ++ archived);;
        dret (filter (fun d => (dg_id d =? i)%string) rows)
      else dthrow
    end
  end.

(** [INSERT INTO diagrams (...) VALUES (...) RETURNING *] *)
Definition insert_diagram (uid title : string) (description : option string)
  (diagram_data : option json) (is_public : bool) (tags : list string)
  : DHandler Diagram :=
  s <- get_store;;
  match varchar 255 title,
        match diagram_data with Some j => jsonb_in j | None => None end with
  | Some t, Some j =>
    let row := mkDiagram (new_row_id env) uid t description j is_public tags
                         1 (now env) (now env) in
    if existsb (fun d => (dg_id d =? dg_id row)%string) (diagrams s)
       || negb (user_exists uid s)
    then dthrow
    else put_tables (diagrams s ++ [row]) (diagram_versions s);; dret row
  | _, _ => dthrow
  end.

(** [INSERT INTO audit_logs (user_id, action, resource_type, resource_id,
    ip_address, details)]; [user_id] references [users(id)]. *)
Definition audit_details (uid act rtype rid : string) (details : option json)
  : Handler unit :=
  (d <- get_db;;
   match select_users_by_id uid d with
   | [] => throw
   | _ :: _ =>
     put_db (insert_audit_log
               (mkAuditLog (new_log_id env) uid act rtype rid (client_ip env)
                           details (now env)) d)
   end)%handler.

(** *** The routes *)

(** [GET /:id] *)
Definition get_diagram (user : JwtPayload) (req : DiagramRequest) : DHandler Response :=
  let i := str (assoc "id" (params (http req))) in
  let userId := userId user in
  s <- get_store;;
  match select_readable i userId s with
  | [] => dreply 404 (error_body "Diagram not found")
  | row :: _ => dret (mkResponse 200 (diagram_json row))
  end.

(** [POST /] *)
Definition create_diagram (user : JwtPayload) (req : DiagramRequest)
  : DHandler Response :=
  let title := body_field "title" (http req) in
  let description := body_field "description" (http req) in
  let diagram_data := body_diagram_data req in
  let is_public := match body_is_public req with Some b => b | None => false end in
  let tags := match body_tags req with Some t => t | None => [] end in
  let userId := userId user in
  if negb (truthy title) || negb (json_truthy diagram_data) then
    dreply 400 (error_body "Title and diagram data are required")
  else
    row <- insert_diagram userId (str title) description diagram_data is_public tags;;
    lift (audit_details userId "create" "diagram" (dg_id row) None);;
    dret (mkResponse 201 (diagram_json row)).

Definition sent {A : Type} (o : option A) (a : A -> DiagramAssignment)
  : list DiagramAssignment :=
  match o with Some v => [a v] | None => [] end.

(** [PUT /:id] *)
Definition update_diagram (user : JwtPayload) (req : DiagramRequest)
  : DHandler Response :=
  let i := str (assoc "id" (params (http req))) in
  let userId := userId user in
  s <- get_store;;
  match select_diagrams_by_id i s with
  | [] => dreply 404 (error_body "Diagram not found")
  | checked :: _ =>
    if negb (dg_user_id checked =? userId)%string then
      dreply 403 (error_body "Unauthorized")
    else
      let updates :=
        (sent (body_field "title" (http req)) assign_title
         ++ sent (body_field "description" (http req)) assign_description
         ++ sent (body_diagram_data req) assign_diagram_data
         ++ sent (body_is_public req) assign_is_public
         ++ sent (body_tags req) assign_tags)%list in
      if (List.length updates =? 0)%nat then
        dreply 400 (error_body "No fields to update")
      else
        rows <- update_diagrams_returning i updates;;
        lift (audit_details userId "update" "diagram" i None);;
        match rows with
        | row :: _ => dret (mkResponse 200 (diagram_json row))
        | [] => dthrow  (* not reached: the row was there a statement ago *)
        end
  end.

(** [DELETE /:id].  The three statements compare the id of the request with
    the [UUID] column [diagrams.id], so the text is read as a uuid first, and
    a text that is none raises; [resource_id] of [audit_logs] is a [UUID]
    too, and stores what was read.  The rows of [diagram_versions] under the
    diagram go with it, [ON DELETE CASCADE]. *)
Definition delete_diagram (user : JwtPayload) (req : DiagramRequest)
  : DHandler Response :=
  let i := str (assoc "id" (params (http req))) in
  let userId := userId user in
  s <- get_store;;
  match read_uuid (map dg_id (diagrams s)) i with
  | None => dthrow  (* invalid input syntax for type uuid *)
  | Some c =>
    match select_diagrams_by_id c s with
    | [] => dreply 404 (error_body "Diagram not found")
    | checked :: _ =>
      if negb (dg_user_id checked =? userId)%string then
        dreply 403 (error_body "Unauthorized")
      else
        put_tables (filter (fun d => negb (dg_id d =? c)%string) (diagrams s))
                   (filter (fun v => negb (dv_diagram_id v =? c)%string)
                           (diagram_versions s));;
        lift (audit_details userId "delete" "diagram" c None);;
        dret (mkResponse 200 (JObj [("message", JStr "Diagram deleted successfully")]))
    end
  end.

(** [GET /:id/versions] *)
Definition get_versions (user : JwtPayload) (req : DiagramRequest)
  : DHandler Response :=
  let i := str (assoc "id" (params (http req))) in
  let userId := userId user in
  s <- get_store;;
  match select_readable i userId s with
  | [] => dreply 404 (error_body "Diagram not found")
  | _ :: _ =>
    dret (mkResponse 200
            (JArr (map version_json
                     (order_by_version_desc
                        (filter (fun v => (dv_diagram_id v =? i)%string)
                                (diagram_versions s))))))
  end.

(** [POST /:id/versions/:versionId/restore]; the data of the version goes
    through a result row and a parameter on its way back. *)
Definition restore_version (user : JwtPayload) (req : DiagramRequest)
  : DHandler Response :=
  let i := str (assoc "id" (params (http req))) in
  let versionId := str (assoc "versionId" (params (http req))) in
  let userId := userId user in
  s <- get_store;;
  match select_diagrams_by_id i s with
  | [] => dreply 404 (error_body "Diagram not found")
  | checked :: _ =>
    if negb (dg_user_id checked =? userId)%string then
      dreply 403 (error_body "Unauthorized")
    else
      match filter (fun v => (dv_id v =? versionId)%string
                             && (dv_diagram_id v =? i)%string)
                   (diagram_versions s) with
      | [] => dreply 404 (error_body "Version not found")
      | version :: _ =>
        rows <- update_diagrams_returning i
                  [assign_diagram_data (jsonb_out (dv_data version))];;
        lift (audit_details userId "restore_version" "diagram" i
                (Some (JObj [("versionId", JStr versionId)])));;
        match rows with
        | row :: _ => dret (mkResponse 200 (diagram_json row))
        | [] => dthrow  (* not reached: the row was there two statements ago *)
        end
      end
  end.

(** *** [cleanup_expired_sessions] *)

(** [DELETE FROM sessions WHERE expires_at < NOW()] and the number of rows it
    deleted; [None] when that number is no [INTEGER], and nothing is deleted
    then. *)
Definition cleanup_expired_sessions (sessions : list Session)
  : option (list Session * Z) :=
  let deleted_count :=
    Z.of_nat (List.length (filter (fun x => session_expires_at x <? now env) sessions)) in
  if int4_ok deleted_count
  then Some (filter (fun x => negb (session_expires_at x <? now env)) sessions,
             deleted_count)
  else None.

End Diagrams.

(** *** Observations on the diagram tables *)

Section DiagramObservations.
Context {P : Postgres}.

(** A diagram that [uid] may read: their own, or a public one. *)
Definition readable_by (uid : string) (d : Diagram) : bool :=
  (dg_user_id d =? uid)%string || dg_is_public d.

(** The diagram tables as [uid] may read them: the readable diagrams and the
    versions of those. *)
Definition hide_from (uid : string) (s : Store) : Store :=
  mkStore (core s)
          (filter (readable_by uid) (diagrams s))
          (filter (fun v => existsb (fun d => readable_by uid d
                                              && (dg_id d =? dv_diagram_id v)%string)
                                    (diagrams s))
                  (diagram_versions s)).

(** The archived versions of a diagram. *)
Definition archive_of (d : Diagram) (s : Store) : list DiagramVersion :=
  filter (fun v => (dv_diagram_id v =? dg_id d)%string) (diagram_versions s).

(** The version number of a diagram counts its archive: diagram ids are
    unique, every archived version belongs to a diagram, and the archive of
    a diagram at version [n] has [n - 1] rows, under different version
    numbers from 1 up to [n - 1]. *)
Definition version_chain (s : Store) : Prop :=
  NoDup (map dg_id (diagrams s)) /\
  Forall (fun v => existsb (fun d => (dg_id d =? dv_diagram_id v)%string) (diagrams s)
                   = true)
         (diagram_versions s) /\
  Forall (fun d =>
            Forall (fun v => 1 <= dv_version v < dg_version d) (archive_of d s) /\
            NoDup (map dv_version (archive_of d s)) /\
            Z.of_nat (List.length (archive_of d s)) + 1 = dg_version d)
         (diagrams s).

End DiagramObservations.


(** The row that the restoring of a version leaves under the id. *)
Definition restored_row {P : Postgres} (env : Env) (data : Jsonb) (version : Z)
  (row : Diagram) : Diagram :=
  mkDiagram (dg_id row) (dg_user_id row) (dg_title row) (dg_description row) data
            (dg_is_public row) (dg_tags row) version (dg_created_at row) (now env).

(** The numbers from [n] down to 1. *)
Definition countdown (n : nat) : list Z := map Z.of_nat (rev (seq 1 n)).

(** The routes of [diagrams.js] behind [authenticateToken], but for the
    listing. *)
Inductive DiagramRoute : Type :=
| GetDiagram | PostDiagram | PutDiagram | DeleteDiagram | GetVersions | PostRestore.

Definition diagram_route {L : Libs} {P : Postgres} (env : Env) (r : DiagramRoute)
  (user : JwtPayload) (req : DiagramRequest) : DHandler Response :=
  match r with
  | GetDiagram => get_diagram user req
  | PostDiagram => create_diagram env user req
  | PutDiagram => update_diagram env user req
  | DeleteDiagram => delete_diagram env user req
  | GetVersions => get_versions user req
  | PostRestore => restore_version env user req
  end.

(** A database for examples: a document is a string, and any string is one. *)
Module DemoDiagrams.

#[export] Instance pg : Postgres := {
  Jsonb := string;
  jsonb_in := fun j => match j with JStr t => Some t | _ => None end;
  jsonb_out := JStr;
  jsonb_eqb := String.eqb
}.

(** alice's private diagram, at its second version. *)
Definition d1 : Diagram :=
  mkDiagram "d-1" "u-alice" "Network" None "{nodes:2}" false ["infra"] 2
            1650000000 1660000000.

(** bob's public diagram. *)
Definition d2 : Diagram :=
  mkDiagram "d-2" "u-bob" "Floor plan" (Some "third floor") "{rooms:7}" true [] 1
            1650000000 1650000000.

Definition v1 : DiagramVersion :=
  mkDiagramVersion "v-1" "d-1" 1 "{nodes:1}" None 1660000000 "u-alice".

Definition store0 : Store := mkStore Demo.world0 [d1; d2] [v1].

Definition on_diagram (i : string) (fields : list (string * string))
  (data : option json) : DiagramRequest :=
  mkDiagramRequest (mkRequest None fields None None None [("id", i)]) data None None.

Definition on_version (i v : string) : DiagramRequest :=
  mkDiagramRequest (mkRequest None [] None None None [("id", i); ("versionId", v)])
                   None None None.

(** alice's [PUT /d-1] with a new title and new data, and her restoring of
    the version that the update archives. *)
Definition alice_update : DiagramRequest :=
  on_diagram "d-1" [("title", "Network, third draft")] (Some (JStr "{nodes:3}")).


(** alice's [POST /] of a public diagram. *)
Definition alice_create : DiagramRequest :=
  mkDiagramRequest (mkRequest None [("title", "Rack")] None None None [])
                   (Some (JStr "{units:42}")) (Some true) None.


Definition s1 : Session := mkSession "s-1" (Some "u-alice") None 1699999999 1690000000.
Definition s2 : Session := mkSession "s-2" (Some "u-bob") None 1700000000 1690000000.
Definition s3 : Session := mkSession "s-3" None (Some "{}") 1600000000 1590000000.

End DemoDiagrams.

(** Rows under ids as the database prints them, and requests that write the
    same ids in capitals, or in capitals and braces. *)
Module DemoUuid.

Definition erin : User :=
  mkUser "6fa459ea-ee8a-3ca4-894e-db77e160355e" "erin" "erin@example.com"
         (Demo.demo_bcrypt_hash "tr0ub4dor&3" 12 "s4")
         None None true false 1600000000 1600000000 None.

Definition key1 : ApiKey :=
  mkApiKey "0f8fad5b-d9cb-469f-a165-70867728950e" "u-alice" "deploy"
           (sha256_hex (Libs := Demo.demo) "ffl_1234") ["read"] None None true 1650000000.

Definition world0 : World :=
  mkWorld (mkDatabase [Demo.root; Demo.alice; erin] [Demo.key0; key1] []) [].

(** alice's [DELETE /me/api-keys/0F8FAD5B-...]. *)
Definition alice_deletes_key : Request :=
  mkRequest None [] None None None [("keyId", "0F8FAD5B-D9CB-469F-A165-70867728950E")].

(** The administrator's [PATCH /{6FA459EA-...}/status] with [{is_active: false}]. *)
Definition deactivate_erin : Request :=
  mkRequest None [] None None (Some false)
            [("id", "{6FA459EA-EE8A-3CA4-894E-DB77E160355E}")].

(** alice's private diagram, at its second version. *)
Definition d3 : Diagram (P := DemoDiagrams.pg) :=
  mkDiagram "9b2f4c1e-5a7d-4e3b-8c6f-0d1a2b3c4d5e" "u-alice" "Rack" None
            ("{units:42}" : @Jsonb DemoDiagrams.pg) false [] 2 1650000000 1660000000.

Definition v3 : DiagramVersion (P := DemoDiagrams.pg) :=
  mkDiagramVersion "v-3" "9b2f4c1e-5a7d-4e3b-8c6f-0d1a2b3c4d5e" 1
                   ("{units:40}" : @Jsonb DemoDiagrams.pg) None 1660000000 "u-alice".

Definition store0 : Store (P := DemoDiagrams.pg) :=
  mkStore Demo.world0 [d3; DemoDiagrams.d2] [v3].

(** alice's [DELETE /9B2F4C1E-...]. *)
Definition alice_deletes_diagram : DiagramRequest :=
  DemoDiagrams.on_diagram "9B2F4C1E-5A7D-4E3B-8C6F-0D1A2B3C4D5E" [] None.

End DemoUuid.

(** * Properties *)

(** ** Running handlers *)

Ltac step_handler :=
  unfold run, bind, reply, throw, ret, get_db, put_db, emit,
         call_bcrypt_hash, call_bcrypt_compare, call_totp_verify,
         call_jwt_sign, call_sha256, audit;
  simpl.

Ltac unfold_queries :=
  unfold select_users_by_email, select_users_by_email_or_username,
         select_users_by_id, unique_violation, update_users_where_id, set_users,
         insert_audit_log, insert_api_key.

Ltac split_cases :=
  repeat match goal with
         | |- context [if ?b then _ else _] => destruct b; simpl
         | |- context [match ?x with _ => _ end] =>
           lazymatch type of x with
           | prod _ _ => fail
           | _ => destruct x; simpl
           end
         end.

Lemma truthy_true (o : option string) :
  truthy o = true -> exists s, o = Some s /\ s <> "".
Proof.
  destruct o as [s|]; simpl; [|discriminate].
  intros H. exists s. split; [reflexivity|].
  intros ->. discriminate.
Qed.

(** ** Registration *)

Section RegistrationFacts.
Context {L : Libs}.
Variable env : Env.

(** C9: a registration whose password has fewer than 8 characters is answered
    with status 400, by one of the two validation errors of the handler; the
    database is left as it was, so no user record is created, and the call
    log is left as it was, so [bcrypt.hash] was not reached. *)
Theorem C9_register_short_password (req : Request) (pw : string) (w : World) :
  body_field "password" req = Some pw ->
  (String.length pw < 8)%nat ->
  status (snd (run (register env req) w)) = 400 /\
  (body (snd (run (register env req) w)) = error_body "All fields are required" \/
   body (snd (run (register env req) w)) =
     error_body "Password must be at least 8 characters long") /\
  db (fst (run (register env req) w)) = db w /\
  trace (fst (run (register env req) w)) = trace w.
Proof.
  intros Hpw Hlen.
  unfold register. rewrite Hpw. cbn [str].
  destruct (negb (truthy (body_field "username" req))
            || negb (truthy (body_field "email" req))
            || negb (truthy (Some pw))).
  - step_handler. auto.
  - apply Nat.ltb_lt in Hlen. rewrite Hlen. step_handler. auto.
Qed.

End RegistrationFacts.

Lemma C9_register_short_password_witness :
  status (snd (run (register (L := Demo.demo) Demo.env0
            (Demo.post [("username", "dave"); ("email", "dave@example.com");
                        ("password", "1234567")])) Demo.world0)) = 400 /\
  (body (snd (run (register (L := Demo.demo) Demo.env0
            (Demo.post [("username", "dave"); ("email", "dave@example.com");
                        ("password", "1234567")])) Demo.world0)) =
     error_body "All fields are required" \/
   body (snd (run (register (L := Demo.demo) Demo.env0
            (Demo.post [("username", "dave"); ("email", "dave@example.com");
                        ("password", "1234567")])) Demo.world0)) =
     error_body "Password must be at least 8 characters long") /\
  db (fst (run (register (L := Demo.demo) Demo.env0
            (Demo.post [("username", "dave"); ("email", "dave@example.com");
                        ("password", "1234567")])) Demo.world0)) = db Demo.world0 /\
  trace (fst (run (register (L := Demo.demo) Demo.env0
            (Demo.post [("username", "dave"); ("email", "dave@example.com");
                        ("password", "1234567")])) Demo.world0)) = trace Demo.world0.
Proof.
  apply (C9_register_short_password (L := Demo.demo) Demo.env0 _ "1234567" Demo.world0).
  - reflexivity.
  - simpl. lia.
Defined.

(** ** Login *)

Section LoginFacts.
Context {L : Libs}.
Variable env : Env.


End LoginFacts.

(** *** Columns login does not read *)

Section LoginFrame.
Context {L : Libs}.
Variable env : Env.

(** A rewriting of user rows that keeps every column login reads, and that
    login's own [UPDATE] commutes with. *)
Variable g : User -> User.
Hypothesis g_id : forall u, id (g u) = id u.
Hypothesis g_username : forall u, username (g u) = username u.
Hypothesis g_email : forall u, email (g u) = email u.
Hypothesis g_password_hash : forall u, password_hash (g u) = password_hash u.
Hypothesis g_totp_secret : forall u, totp_secret (g u) = totp_secret u.
Hypothesis g_last_login :
  forall t u, g (touch t (set_last_login t u)) = touch t (set_last_login t (g u)).

Lemma select_users_by_email_frame (e : string) (us : list User) (d : Database) :
  select_users_by_email e (set_users (map g us) d) =
  map g (select_users_by_email e (set_users us d)).
Proof.
  unfold select_users_by_email. simpl.
  induction us as [|u us IH]; simpl; [reflexivity|].
  rewrite g_email. destruct (email u =? e)%string; simpl; rewrite IH; reflexivity.
Qed.

Lemma update_last_login_frame (t : Z) (uid : string) (us : list User) :
  map (fun u => if (id u =? uid)%string then touch t (set_last_login t u) else u)
      (map g us) =
  map g (map (fun u => if (id u =? uid)%string then touch t (set_last_login t u) else u)
             us).
Proof.
  rewrite !map_map. apply map_ext. intros u.
  rewrite g_id. destruct (id u =? uid)%string; [symmetry; apply g_last_login|reflexivity].
Qed.

Lemma login_frame (req : Request) (w : World) :
  run (login env req) (map_users g w) =
  (map_users g (fst (run (login env req) w)), snd (run (login env req) w)).
Proof.
  unfold login.
  destruct (negb (truthy (body_field "email" req))
            || negb (truthy (body_field "password" req))).
  { reflexivity. }
  step_handler. unfold select_users_by_email. simpl.
  pose proof (select_users_by_email_frame (str (body_field "email" req))
                (users (db w)) (db w)) as Hsel.
  unfold select_users_by_email in *. simpl in Hsel. rewrite Hsel. clear Hsel.
  destruct (filter (fun u => (email u =? str (body_field "email" req))%string)
                   (users (db w))) as [|user rest]; simpl.
  { reflexivity. }
  rewrite g_password_hash, g_totp_secret, g_id, g_username, g_email.
  destruct (bcrypt_compare (str (body_field "password" req)) (password_hash user));
    simpl; [|reflexivity].
  assert (Hupd : forall tr,
    mkWorld (update_users_where_id (now env) (id user) (set_last_login (now env))
               (set_users (map g (users (db w))) (db w))) tr =
    map_users g (mkWorld (update_users_where_id (now env) (id user)
                            (set_last_login (now env)) (db w)) tr)).
  { intros tr. unfold map_users, update_users_where_id, set_users. simpl.
    rewrite update_last_login_frame. reflexivity. }
  destruct (truthy (totp_secret user)); simpl.
  - destruct (truthy (body_field "totp" req)); simpl; [|reflexivity].
    destruct (Totp.verifyCode (str (totp_secret user)) (str (body_field "totp" req)) 1
                (now env)); simpl; [|reflexivity].
    rewrite Hupd. reflexivity.
  - rewrite Hupd. reflexivity.
Qed.

End LoginFrame.

(** The scenario of section 8: dave registers and logs in with his password;
    he starts an enrollment, which does not change his login; he confirms it,
    after which the password alone gets [{require2FA: true}] and the password
    with the current code gets a token. *)
Example enrollment_scenario :
  status (snd (run (register (L := Demo.demo) Demo.env0 Demo.dave_register) Demo.world0))
    = 201 /\
  token_of (snd (run (login (L := Demo.demo) Demo.env0 (Demo.dave_login []))
                     Demo.registered)) = Some (JStr Demo.dave_token) /\
  map (fun u => (totp_secret u, totp_temp_secret u))
      (select_users_by_email "dave@example.com" (db Demo.enrolling))
    = [(None, Some "JBSWY3DPEHPK3PXP")] /\
  token_of (snd (run (login (L := Demo.demo) Demo.env0 (Demo.dave_login []))
                     Demo.enrolling)) = Some (JStr Demo.dave_token) /\
  map (fun u => (totp_secret u, totp_temp_secret u))
      (select_users_by_email "dave@example.com" (db Demo.enrolled))
    = [(Some "JBSWY3DPEHPK3PXP", None)] /\
  snd (run (login (L := Demo.demo) Demo.env0 (Demo.dave_login [])) Demo.enrolled)
    = mkResponse 200 (JObj [("require2FA", JBool true)]) /\
  token_of (snd (run (login (L := Demo.demo) Demo.env0
                        (Demo.dave_login [("totp", Demo.dave_code)])) Demo.enrolled))
    = Some (JStr Demo.dave_token) /\
  map last_login
      (select_users_by_email "dave@example.com"
         (db (fst (run (login (L := Demo.demo) Demo.env0
                          (Demo.dave_login [("totp", Demo.dave_code)])) Demo.enrolled))))
    = [Some (now Demo.env0)].
Proof.
  vm_compute. repeat split; reflexivity.
Qed.

(** ** The [is_active] column *)

Section ActiveFlag.
Context {L : Libs}.
Variable env : Env.

(** C3, as the code has it: login never reads [is_active].  Whatever the flags
    in the users table, a login request gets the same response, token
    included, and leaves the same rows behind. *)
Theorem C3_login_ignores_is_active (f : string -> bool) (req : Request) (w : World) :
  run (login env req) (map_users (reset_is_active f) w) =
  (map_users (reset_is_active f) (fst (run (login env req) w)),
   snd (run (login env req) w)).
Proof.
  apply login_frame; intros; reflexivity.
Qed.

End ActiveFlag.

(** C3 fails on the code: carol's row has [is_active = false], and her login
    with the right password is answered with a token; so is alice's, after
    the administrator's status update has set her [is_active] to false. *)
Lemma C3_deactivated_user_gets_token :
  map is_active (select_users_by_email "carol@example.com" (db Demo.world0)) = [false] /\
  map is_active (select_users_by_email "alice@example.com" (db Demo.world1)) = [false] /\
  token_of (snd (run (login (L := Demo.demo) Demo.env0 Demo.carol_login) Demo.world0)) =
    Some (JStr "u-carol.carol.001700000000.001700086400.4057690370") /\
  token_of (snd (run (login (L := Demo.demo) Demo.env0 Demo.alice_login) Demo.world1)) =
    Some (JStr "u-alice.alice.001700000000.001700086400.3578160034").
Proof.
  vm_compute. repeat split; reflexivity.
Qed.

(** ** Failure responses of login *)

Section LoginFailures.
Context {L : Libs}.
Variable env : Env.


End LoginFailures.



(** ** Two-factor enrollment *)

Lemma Forall2_map_right {A B : Type} (R : A -> B -> Prop) (f : A -> B) (l : list A) :
  (forall a, R a (f a)) -> Forall2 R l (map f l).
Proof.
  intros H. induction l as [|a l IH]; simpl; constructor; auto.
Qed.

Lemma same_but_totp_touch (t : Z) (s tmp : option string) (u : User) :
  same_but_totp u (touch t (set_totp_secrets s tmp u)).
Proof.
  unfold same_but_totp. simpl. auto 10.
Qed.

Section Enrollment.
Context {L : Libs}.
Variable env : Env.

Lemma setup_2fa_users (user : JwtPayload) (req : Request) (w : World) :
  Forall2 (fun u u' =>
             totp_secret u' = totp_secret u /\ same_but_totp u u' /\
             if (id u =? userId user)%string
             then totp_temp_secret u' = Some (new_secret env)
             else u' = u)
          (users (db w)) (users (db (fst (run (setup_2fa env user req) w)))).
Proof.
  unfold setup_2fa. step_handler.
  apply Forall2_map_right. intros u.
  destruct (id u =? userId user)%string; simpl.
  - unfold same_but_totp. simpl. auto 10.
  - unfold same_but_totp. auto 10.
Qed.

Lemma verify_2fa_promotes (user : JwtPayload) (req : Request) (w : World) (row : User) :
  truthy (body_field "token" req) = true ->
  hd_error (select_users_by_id (userId user) (db w)) = Some row ->
  truthy (totp_temp_secret row) = true ->
  Totp.verifyCode (str (totp_temp_secret row)) (str (body_field "token" req)) 1 (now env)
    = true ->
  Forall2 (fun u u' =>
             if (id u =? userId user)%string
             then totp_secret u' = totp_temp_secret row /\
                  totp_temp_secret u' = None /\ same_but_totp u u'
             else u' = u)
          (users (db w)) (users (db (fst (run (verify_2fa env user req) w)))).
Proof.
  intros Ht Hrow Hp Hv.
  unfold verify_2fa. rewrite Ht. step_handler.
  destruct (select_users_by_id (userId user) (db w)) as [|r rest]; [discriminate|].
  inversion Hrow; subst r. rewrite Hp. simpl. rewrite Hv. simpl.
  apply Forall2_map_right. intros u.
  destruct (id u =? userId user)%string; [|reflexivity].
  simpl. split; [|split; [reflexivity|apply same_but_totp_touch]].
  destruct (truthy_true _ Hp) as (s & -> & _). reflexivity.
Qed.

Lemma verify_2fa_only_promotes (user : JwtPayload) (req : Request) (w : World) :
  db (fst (run (verify_2fa env user req) w)) = db w \/
  exists row,
    truthy (body_field "token" req) = true /\
    hd_error (select_users_by_id (userId user) (db w)) = Some row /\
    truthy (totp_temp_secret row) = true /\
    Totp.verifyCode (str (totp_temp_secret row)) (str (body_field "token" req)) 1
      (now env) = true.
Proof.
  unfold verify_2fa.
  destruct (truthy (body_field "token" req)) eqn:Ht; [|left; reflexivity].
  step_handler.
  destruct (select_users_by_id (userId user) (db w)) as [|row rest];
    [left; reflexivity|].
  destruct (truthy (totp_temp_secret row)) eqn:Hp; simpl; [|left; reflexivity].
  destruct (Totp.verifyCode (str (totp_temp_secret row)) (str (body_field "token" req))
              1 (now env)) eqn:Hv; simpl; [|left; reflexivity].
  right. exists row. auto.
Qed.

(** C6: enrollment has two phases.  [setup-2fa] stores the new secret in
    [totp_temp_secret] of the authenticated user and leaves every
    [totp_secret], and every other row, as it was.  [verify-2fa] either
    leaves the database as it was, or a supplied code verified against the
    pending secret; and when a supplied code verifies against the pending
    secret, that secret is the active one afterwards and the pending one is
    null.  Login does not read the pending secret: rewriting the pending
    secrets of the table changes neither the response to a login request nor,
    up to that rewriting, the rows it leaves; so a user with a pending secret
    and no active one logs in as one without 2FA. *)
Theorem C6_two_phase_enrollment (user : JwtPayload) (req login_req : Request)
  (p : string -> option string) (w : World) :
  Forall2 (fun u u' =>
             totp_secret u' = totp_secret u /\ same_but_totp u u' /\
             if (id u =? userId user)%string
             then totp_temp_secret u' = Some (new_secret env)
             else u' = u)
          (users (db w)) (users (db (fst (run (setup_2fa env user req) w)))) /\
  (db (fst (run (verify_2fa env user req) w)) = db w \/
   exists row,
     truthy (body_field "token" req) = true /\
     hd_error (select_users_by_id (userId user) (db w)) = Some row /\
     truthy (totp_temp_secret row) = true /\
     Totp.verifyCode (str (totp_temp_secret row)) (str (body_field "token" req)) 1
       (now env) = true) /\
  (forall row,
     truthy (body_field "token" req) = true ->
     hd_error (select_users_by_id (userId user) (db w)) = Some row ->
     truthy (totp_temp_secret row) = true ->
     Totp.verifyCode (str (totp_temp_secret row)) (str (body_field "token" req)) 1
       (now env) = true ->
     Forall2 (fun u u' =>
                if (id u =? userId user)%string
                then totp_secret u' = totp_temp_secret row /\
                     totp_temp_secret u' = None /\ same_but_totp u u'
                else u' = u)
             (users (db w)) (users (db (fst (run (verify_2fa env user req) w))))) /\
  run (login env login_req) (map_users (reset_totp_temp_secret p) w) =
  (map_users (reset_totp_temp_secret p) (fst (run (login env login_req) w)),
   snd (run (login env login_req) w)).
Proof.
  split; [apply setup_2fa_users|].
  split; [apply verify_2fa_only_promotes|].
  split; [intros row Ht Hrow Hp Hv; apply (verify_2fa_promotes user req w row Ht Hrow Hp Hv)|].
  apply login_frame; intros; reflexivity.
Qed.

End Enrollment.

(** ** Disabling two-factor authentication *)

Section Disable2FA.
Context {L : Libs}.
Variable env : Env.

(** C10: for an authenticated user whose row exists and who supplies a
    password, [disable-2fa] with the correct password answers 200 and its one
    [UPDATE] leaves the user's rows with [totp_secret] and [totp_temp_secret]
    null and every other credential column as it was, and leaves the other
    rows and the API keys untouched; with an incorrect password it answers
    401 [{error: 'Incorrect password'}] and the database is unchanged. *)
Theorem C10_disable_2fa (user : JwtPayload) (req : Request) (w : World) (row : User) :
  truthy (body_field "password" req) = true ->
  hd_error (select_users_by_id (userId user) (db w)) = Some row ->
  if bcrypt_compare (str (body_field "password" req)) (password_hash row)
  then
    status (snd (run (disable_2fa env user req) w)) = 200 /\
    Forall2 (fun u u' =>
               if (id u =? userId user)%string
               then totp_secret u' = None /\ totp_temp_secret u' = None /\
                    same_but_totp u u'
               else u' = u)
            (users (db w)) (users (db (fst (run (disable_2fa env user req) w)))) /\
    api_keys (db (fst (run (disable_2fa env user req) w))) = api_keys (db w)
  else
    snd (run (disable_2fa env user req) w) =
      mkResponse 401 (error_body "Incorrect password") /\
    db (fst (run (disable_2fa env user req) w)) = db w.
Proof.
  intros Hp Hrow.
  unfold disable_2fa. rewrite Hp. step_handler.
  destruct (select_users_by_id (userId user) (db w)) as [|r rest]; [discriminate|].
  inversion Hrow; subst r.
  destruct (bcrypt_compare (str (body_field "password" req)) (password_hash row));
    simpl; [|split; reflexivity].
  split; [reflexivity|]. split; [|reflexivity].
  apply Forall2_map_right. intros u.
  destruct (id u =? userId user)%string; [|reflexivity].
  split; [reflexivity|]. split; [reflexivity|]. apply same_but_totp_touch.
Qed.

End Disable2FA.

Lemma C10_disable_2fa_witness :
  status (snd (run (disable_2fa (L := Demo.demo) Demo.env0 (Demo.payload_of Demo.bob)
                      Demo.bob_disable_2fa) Demo.world0)) = 200 /\
  Forall2 (fun u u' =>
             if (id u =? "u-bob")%string
             then totp_secret u' = None /\ totp_temp_secret u' = None /\
                  same_but_totp u u'
             else u' = u)
          (users (db Demo.world0))
          (users (db (fst (run (disable_2fa (L := Demo.demo) Demo.env0
                                  (Demo.payload_of Demo.bob) Demo.bob_disable_2fa)
                               Demo.world0)))) /\
  api_keys (db (fst (run (disable_2fa (L := Demo.demo) Demo.env0
                            (Demo.payload_of Demo.bob) Demo.bob_disable_2fa)
                         Demo.world0))) = api_keys (db Demo.world0).
Proof.
  exact (C10_disable_2fa (L := Demo.demo) Demo.env0 (Demo.payload_of Demo.bob)
           Demo.bob_disable_2fa Demo.world0 Demo.bob eq_refl eq_refl).
Defined.

(** ** API keys *)

Lemma insert_desc_map (f : ApiKey -> ApiKey) (k : ApiKey) (l : list ApiKey) :
  (forall x, key_created_at (f x) = key_created_at x) ->
  insert_desc (f k) (map f l) = map f (insert_desc k l).
Proof.
  intros Hf. induction l as [|h t IH]; simpl; [reflexivity|].
  rewrite !Hf. destruct (key_created_at h <? key_created_at k); simpl.
  - reflexivity.
  - rewrite IH. reflexivity.
Qed.

Lemma order_by_created_at_desc_map (f : ApiKey -> ApiKey) (l : list ApiKey) :
  (forall x, key_created_at (f x) = key_created_at x) ->
  order_by_created_at_desc (map f l) = map f (order_by_created_at_desc l).
Proof.
  intros Hf. unfold order_by_created_at_desc.
  induction l as [|h t IH]; simpl; [reflexivity|].
  rewrite IH. apply insert_desc_map, Hf.
Qed.

Lemma filter_map_commute {A : Type} (f : A -> A) (q : A -> bool) (l : list A) :
  (forall x, q (f x) = q x) ->
  filter q (map f l) = map f (filter q l).
Proof.
  intros Hq. induction l as [|h t IH]; simpl; [reflexivity|].
  rewrite Hq. destruct (q h); simpl; rewrite IH; reflexivity.
Qed.

Lemma forget_keys_idem (l : list ApiKey) :
  map (set_key_hash "") (map (set_key_hash "") l) = map (set_key_hash "") l.
Proof.
  rewrite map_map. apply map_ext. reflexivity.
Qed.

Section KeyHashFacts.
Context {L : Libs}.
Variable env : Env.

Lemma existsb_map_keep {A : Type} (g : A -> A) (f : A -> bool) (l : list A) :
  (forall a, f (g a) = f a) -> existsb f (map g l) = existsb f l.
Proof.
  intros H. induction l as [|a l IH]; simpl; [reflexivity|].
  rewrite H, IH. reflexivity.
Qed.

(** No route looks a key digest up: on the database with the [key_hash]
    column blanked every route gives the same response and leaves, up to that
    column, the same database. *)
Lemma serve_blind_to_key_hash (r : Route) (req : Request) (w : World) :
  snd (run (serve env r req) (forget_key_hashes w)) = snd (run (serve env r req) w) /\
  forget_key_hashes (fst (run (serve env r req) (forget_key_hashes w))) =
  forget_key_hashes (fst (run (serve env r req) w)).
Proof.
  destruct r; unfold serve.
  - unfold register, insert_user, forget_key_hashes; unfold_queries. step_handler.
    split_cases; split; rewrite ?forget_keys_idem; reflexivity.
  - unfold login, forget_key_hashes; unfold_queries. step_handler.
    split_cases; split; rewrite ?forget_keys_idem; reflexivity.
  - unfold route_setup_2fa, authenticateToken_local, setup_2fa, forget_key_hashes;
      unfold_queries.
    step_handler. split_cases; split; rewrite ?forget_keys_idem; reflexivity.
  - unfold route_verify_2fa, authenticateToken_local, verify_2fa, forget_key_hashes;
      unfold_queries.
    step_handler. split_cases; split; rewrite ?forget_keys_idem; reflexivity.
  - unfold route_disable_2fa, authenticateToken, disable_2fa, forget_key_hashes;
      unfold_queries.
    step_handler. split_cases; split; rewrite ?forget_keys_idem; reflexivity.
  - unfold route_get_api_keys, authenticateToken, get_api_keys, forget_key_hashes.
    step_handler.
    split_cases; split; rewrite ?forget_keys_idem; try reflexivity.
    all: do 2 f_equal.
    all: rewrite filter_map_commute by reflexivity.
    all: rewrite order_by_created_at_desc_map by reflexivity.
    all: rewrite map_map; apply map_ext; reflexivity.
  - unfold route_create_api_key, authenticateToken, create_api_key, forget_key_hashes;
      unfold_queries.
    step_handler.
    destruct (negb (truthy _)); simpl; [split; rewrite ?forget_keys_idem; reflexivity|].
    destruct (jwt_verify _ _ _) as [user|name]; simpl;
      [|split_cases; split; rewrite ?forget_keys_idem; reflexivity].
    destruct (negb (truthy (body_field "name" req))); simpl;
      [split; rewrite ?forget_keys_idem; reflexivity|].
    destruct (varchar 100 _); simpl; [|split; rewrite ?forget_keys_idem; reflexivity].
    rewrite (existsb_map_keep (set_key_hash "")) by reflexivity.
    split_cases; split; rewrite ?map_app, ?forget_keys_idem; try reflexivity.
  - unfold authenticateToken, delete_api_key, read_uuid, forget_key_hashes;
      unfold_queries.
    step_handler.
    destruct (truthy _); simpl; [|split; rewrite ?forget_keys_idem; reflexivity].
    destruct (jwt_verify _ _ _) as [user|name]; simpl;
      [|split_cases; split; rewrite ?forget_keys_idem; reflexivity].
    rewrite map_map. cbn [key_id set_key_hash].
    destruct (if existsb _ _ then _ else _) as [k|]; simpl;
      [|split; rewrite ?forget_keys_idem; reflexivity].
    rewrite !(filter_map_commute (set_key_hash "")) by reflexivity.
    destruct (filter (fun r => (key_id r =? k)%string)
                     (api_keys (db w))) as [|row rest]; simpl;
      split_cases; split; rewrite ?forget_keys_idem; reflexivity.
  - unfold authenticateToken, update_user_status, forget_key_hashes; unfold_queries.
    step_handler. split_cases; split; rewrite ?forget_keys_idem; reflexivity.
Qed.


End KeyHashFacts.

Section ApiKeyFacts.
Context {L : Libs}.



End ApiKeyFacts.

(** ** Bearer tokens *)

Section TokenFacts.
Context {L : Libs}.
Variable env : Env.

Lemma authenticateToken_verify_error (req : Request)
  (next : JwtPayload -> Handler Response) (w : World) (h tok name : string) :
  authorization req = Some h ->
  nth_error (split " " h) 1 = Some tok ->
  tok <> "" ->
  jwt_verify tok (JWT_SECRET env) (now env) = JwtErr name ->
  snd (run (authenticateToken env req next) w) =
  if (name =? "TokenExpiredError")%string
  then mkResponse 401 (error_body "Token expired")
  else mkResponse 403 (error_body "Invalid or expired token").
Proof.
  intros Hh Htok Hne Hv.
  unfold authenticateToken. rewrite Hh, Htok. simpl.
  apply String.eqb_neq in Hne. rewrite Hne. step_handler. rewrite Hv.
  destruct (name =? "TokenExpiredError")%string; reflexivity.
Qed.

Lemma authenticateToken_local_verify_error (req : Request)
  (next : JwtPayload -> Handler Response) (w : World) (h tok name : string) :
  authorization req = Some h ->
  nth_error (split " " h) 1 = Some tok ->
  tok <> "" ->
  jwt_verify tok (JWT_SECRET env) (now env) = JwtErr name ->
  snd (run (authenticateToken_local env req next) w) =
  mkResponse 403 (error_body "Invalid or expired token").
Proof.
  intros Hh Htok Hne Hv.
  unfold authenticateToken_local. rewrite Hh, Htok. simpl.
  apply String.eqb_neq in Hne. rewrite Hne. step_handler. rewrite Hv.
  reflexivity.
Qed.

Lemma authenticateToken_no_token (req : Request)
  (next : JwtPayload -> Handler Response) (w : World) :
  truthy (match authorization req with
          | Some h => nth_error (split " " h) 1
          | None => None
          end) = false ->
  run (authenticateToken env req next) w =
    (w, mkResponse 401 (error_body "Access token required")) /\
  run (authenticateToken_local env req next) w =
    (w, mkResponse 401 (error_body "Access token required")).
Proof.
  intros H. unfold authenticateToken, authenticateToken_local. rewrite H.
  split; reflexivity.
Qed.

(** The verdict of [authenticateToken], shared or local, rests on the bearer
    token of the [Authorization] header alone. *)
Lemma authenticateToken_verdict (req : Request)
  (next : JwtPayload -> Handler Response) (w : World) :
  let token := match authorization req with
               | Some h => nth_error (split " " h) 1
               | None => None
               end in
  let w_verify := mkWorld (db w) (trace w ++ [EvJwtVerify (str token)]) in
  if truthy token then
    match jwt_verify (str token) (JWT_SECRET env) (now env) with
    | JwtOk user =>
      run (authenticateToken env req next) w = run (next user) w_verify /\
      run (authenticateToken_local env req next) w = run (next user) w_verify
    | JwtErr name =>
      run (authenticateToken env req next) w =
        (w_verify,
         if (name =? "TokenExpiredError")%string
         then mkResponse 401 (error_body "Token expired")
         else mkResponse 403 (error_body "Invalid or expired token")) /\
      run (authenticateToken_local env req next) w =
        (w_verify, mkResponse 403 (error_body "Invalid or expired token"))
    end
  else
    run (authenticateToken env req next) w =
      (w, mkResponse 401 (error_body "Access token required")) /\
    run (authenticateToken_local env req next) w =
      (w, mkResponse 401 (error_body "Access token required")).
Proof.
  cbv zeta.
  destruct (truthy (match authorization req with
                    | Some h => nth_error (split " " h) 1
                    | None => None
                    end)) eqn:Ht.
  - unfold authenticateToken, authenticateToken_local. rewrite Ht. step_handler.
    destruct (jwt_verify _ _ _) as [user|name].
    + split; reflexivity.
    + destruct (name =? "TokenExpiredError")%string; split; reflexivity.
  - apply authenticateToken_no_token. exact Ht.
Qed.

(** C8, as the code has it: the server has one way to authenticate a request,
    [authenticateToken] (the shared middleware and the auth router's copy),
    and its verdict rests on the bearer token of the [Authorization] header
    alone.  Without a token the request is refused with 401; with a token
    that [jwt.verify] rejects it is refused with 401 or 403; in both cases
    the database is not touched and the route is not entered.  With a token
    that [jwt.verify] accepts the route runs for the user of the token's
    payload.  No route looks a key digest up: on the database with the
    [key_hash] column blanked every route gives the same response and leaves,
    up to that column, the same database. *)
Theorem C8_no_api_key_authentication (r : Route) (req : Request)
  (next : JwtPayload -> Handler Response) (w : World) :
  (let token := match authorization req with
                | Some h => nth_error (split " " h) 1
                | None => None
                end in
   let w_verify := mkWorld (db w) (trace w ++ [EvJwtVerify (str token)]) in
   if truthy token then
     match jwt_verify (str token) (JWT_SECRET env) (now env) with
     | JwtOk user =>
       run (authenticateToken env req next) w = run (next user) w_verify /\
       run (authenticateToken_local env req next) w = run (next user) w_verify
     | JwtErr name =>
       run (authenticateToken env req next) w =
         (w_verify,
          if (name =? "TokenExpiredError")%string
          then mkResponse 401 (error_body "Token expired")
          else mkResponse 403 (error_body "Invalid or expired token")) /\
       run (authenticateToken_local env req next) w =
         (w_verify, mkResponse 403 (error_body "Invalid or expired token"))
     end
   else
     run (authenticateToken env req next) w =
       (w, mkResponse 401 (error_body "Access token required")) /\
     run (authenticateToken_local env req next) w =
       (w, mkResponse 401 (error_body "Access token required"))) /\
  snd (run (serve env r req) (forget_key_hashes w)) = snd (run (serve env r req) w) /\
  forget_key_hashes (fst (run (serve env r req) (forget_key_hashes w))) =
  forget_key_hashes (fst (run (serve env r req) w)).
Proof.
  split.
  - apply authenticateToken_verdict.
  - apply serve_blind_to_key_hash.
Qed.

End TokenFacts.

(** C8 fails on the code: alice's new key [ffl_00ff] is stored by its digest,
    active and not expired; presented to the server as the credential of a
    request, with or without the [Bearer] word, it is refused. *)
Lemma C8_raw_api_key_is_refused :
  map (fun k => (key_user_id k,
                 (key_hash k =? sha256_hex (Libs := Demo.demo) "ffl_00ff")%string,
                 key_is_active k, expires_at k))
      (filter (fun k => (key_name k =? "deploy")%string) (api_keys (db Demo.world2)))
    = [("u-alice", true, true, Some (now Demo.env0 + 30 * 86400))] /\
  snd (run (serve (L := Demo.demo) Demo.env0 GetApiKeys
              (Demo.with_bearer "ffl_00ff" (Demo.post []))) Demo.world2) =
    mkResponse 403 (error_body "Invalid or expired token") /\
  snd (run (serve (L := Demo.demo) Demo.env0 GetApiKeys
              (mkRequest (Some "ffl_00ff") [] None None None [])) Demo.world2) =
    mkResponse 401 (error_body "Access token required").
Proof.
  vm_compute. repeat split; reflexivity.
Qed.

(** C5, on the code: an expired token and a forged one are told apart by the
    shared middleware (401 [Token expired] against 403), as on
    [/api/users/me/disable-2fa]; the copy of [authenticateToken] in the auth
    router answers both with 403 [Invalid or expired token], as on
    [/api/auth/setup-2fa]. *)
Lemma C5_auth_router_conflates_expired_and_invalid :
  jwt_verify (Libs := Demo.demo) Demo.expired_token (JWT_SECRET Demo.env0) (now Demo.env0)
    = JwtErr "TokenExpiredError" /\
  jwt_verify (Libs := Demo.demo) Demo.forged_token (JWT_SECRET Demo.env0) (now Demo.env0)
    = JwtErr "JsonWebTokenError" /\
  snd (run (route_disable_2fa (L := Demo.demo) Demo.env0
              (Demo.with_bearer Demo.expired_token Demo.bob_disable_2fa)) Demo.world0)
    = mkResponse 401 (error_body "Token expired") /\
  snd (run (route_disable_2fa (L := Demo.demo) Demo.env0
              (Demo.with_bearer Demo.forged_token Demo.bob_disable_2fa)) Demo.world0)
    = mkResponse 403 (error_body "Invalid or expired token") /\
  snd (run (route_setup_2fa (L := Demo.demo) Demo.env0
              (Demo.with_bearer Demo.expired_token (Demo.post []))) Demo.world0)
    = mkResponse 403 (error_body "Invalid or expired token") /\
  snd (run (route_setup_2fa (L := Demo.demo) Demo.env0
              (Demo.with_bearer Demo.forged_token (Demo.post []))) Demo.world0)
    = mkResponse 403 (error_body "Invalid or expired token").
Proof.
  vm_compute. repeat split; reflexivity.
Qed.

(** ** The TOTP window *)

Lemma string_length_append (s1 s2 : string) :
  String.length (s1 ++ s2) = (String.length s1 + String.length s2)%nat.
Proof.
  induction s1 as [|c s1 IH]; simpl; [reflexivity|]. rewrite IH. reflexivity.
Qed.

Lemma list_ascii_of_string_append (s1 s2 : string) :
  list_ascii_of_string (s1 ++ s2) =
  (list_ascii_of_string s1 ++ list_ascii_of_string s2)%list.
Proof.
  induction s1 as [|c s1 IH]; simpl; [reflexivity|]. rewrite IH. reflexivity.
Qed.

Lemma is_digit_digit_char (v : Z) : Totp.is_digit (Totp.digit_char (v mod 10)) = true.
Proof.
  assert (H : 0 <= v mod 10 < 10) by (apply Z.mod_pos_bound; lia).
  assert (Hd : v mod 10 = 0 \/ v mod 10 = 1 \/ v mod 10 = 2 \/ v mod 10 = 3 \/
               v mod 10 = 4 \/ v mod 10 = 5 \/ v mod 10 = 6 \/ v mod 10 = 7 \/
               v mod 10 = 8 \/ v mod 10 = 9) by lia.
  repeat (destruct Hd as [Hd|Hd]; [rewrite Hd; reflexivity|]).
  rewrite Hd. reflexivity.
Qed.

Lemma numeral_length (n : nat) (v : Z) : String.length (Totp.numeral n v) = n.
Proof.
  revert v. induction n as [|n IH]; intros v; cbn [Totp.numeral]; [reflexivity|].
  rewrite string_length_append, IH. cbn [String.length]. lia.
Qed.

Lemma numeral_digits (n : nat) (v : Z) :
  forallb Totp.is_digit (list_ascii_of_string (Totp.numeral n v)) = true.
Proof.
  revert v. induction n as [|n IH]; intros v; cbn [Totp.numeral]; [reflexivity|].
  rewrite list_ascii_of_string_append, forallb_app, IH.
  cbn [list_ascii_of_string forallb andb].
  rewrite is_digit_digit_char. reflexivity.
Qed.

Lemma counter_of_step (c : Z) : Totp.counter_of (Totp.step * c) = c.
Proof.
  unfold Totp.counter_of, Totp.step. rewrite Z.mul_comm. apply Z.div_mul. lia.
Qed.

(** Among [n + 1] values below [n], two are equal. *)
Lemma pigeonhole (n : nat) :
  forall g : nat -> nat,
    (forall i, (i <= n)%nat -> (g i < n)%nat) ->
    exists i j, (i < j <= n)%nat /\ g i = g j.
Proof.
  induction n as [|n IH]; intros g Hg.
  - specialize (Hg 0%nat (Nat.le_refl 0)). lia.
  - destruct (existsb (fun i => (g i =? g (S n))%nat) (seq 0 (S n))) eqn:Hex.
    + apply existsb_exists in Hex. destruct Hex as (i & Hi & Heq).
      apply in_seq in Hi. apply Nat.eqb_eq in Heq.
      exists i, (S n). split; [lia|exact Heq].
    + assert (Hne : forall i, (i <= n)%nat -> g i <> g (S n)).
      { intros i Hi Heq.
        assert (Ht : existsb (fun i => (g i =? g (S n))%nat) (seq 0 (S n)) = true).
        { apply existsb_exists. exists i. split.
          - apply in_seq. lia.
          - apply Nat.eqb_eq. exact Heq. }
        congruence. }
      pose (g' := fun i => if (g i <? g (S n))%nat then g i else (g i - 1)%nat).
      destruct (IH g') as (i & j & Hij & Heq).
      { intros i Hi. unfold g'.
        pose proof (Hg i ltac:(lia)). pose proof (Hg (S n) ltac:(lia)).
        pose proof (Hne i Hi).
        destruct (g i <? g (S n))%nat eqn:Hlt.
        - apply Nat.ltb_lt in Hlt. lia.
        - apply Nat.ltb_ge in Hlt. lia. }
      exists i, j. split; [lia|].
      pose proof (Hne i ltac:(lia)). pose proof (Hne j ltac:(lia)).
      revert Heq. unfold g'.
      destruct (Nat.ltb_spec (g i) (g (S n))); destruct (Nat.ltb_spec (g j) (g (S n)));
        lia.
Qed.

Section TotpFacts.
Context {L : Libs}.

Lemma codeAt_well_formed (secret : string) (c : Z) :
  Totp.well_formed (Totp.codeAt secret c) = true.
Proof.
  unfold Totp.well_formed, Totp.codeAt.
  rewrite numeral_length, numeral_digits, Nat.eqb_refl. reflexivity.
Qed.

(** With a window of one step, a code is accepted exactly when it is well
    formed and is the code of the previous, the current or the next step. *)
Lemma verifyCode_window_1 (secret code : string) (t : Z) :
  Totp.verifyCode secret code 1 t =
  Totp.well_formed code &&
  ((Totp.codeAt secret (Totp.counter_of t - 1) =? code)%string ||
   (Totp.codeAt secret (Totp.counter_of t) =? code)%string ||
   (Totp.codeAt secret (Totp.counter_of t + 1) =? code)%string).
Proof.
  unfold Totp.verifyCode.
  change (Z.to_nat (2 * 1 + 1)) with 3%nat. cbn [Totp.steps_from existsb].
  replace (Totp.counter_of t - 1 + 1) with (Totp.counter_of t) by lia.
  rewrite orb_false_r, orb_assoc. reflexivity.
Qed.

(** Two steps a positive even distance apart share their code. *)
Lemma codes_repeat (secret : string) :
  exists c k, 2 <= k /\ 0 <= c /\ Totp.codeAt secret (c + k) = Totp.codeAt secret c.
Proof.
  assert (HN : 0 < 10 ^ Z.of_nat totp_digits) by (apply Z.pow_pos_nonneg; lia).
  unfold Totp.codeAt.
  generalize dependent (10 ^ Z.of_nat totp_digits). intros N HN.
  pose (g := fun i : nat => Z.to_nat (hmac_truncate secret (2 * Z.of_nat i) mod N)).
  destruct (pigeonhole (Z.to_nat N) g) as (i & j & Hij & Heq).
  { intros i _. unfold g.
    pose proof (Z.mod_pos_bound (hmac_truncate secret (2 * Z.of_nat i)) N HN). lia. }
  exists (2 * Z.of_nat i), (2 * Z.of_nat j - 2 * Z.of_nat i).
  split; [lia|]. split; [lia|].
  replace (2 * Z.of_nat i + (2 * Z.of_nat j - 2 * Z.of_nat i)) with (2 * Z.of_nat j)
    by lia.
  unfold g in Heq.
  pose proof (Z.mod_pos_bound (hmac_truncate secret (2 * Z.of_nat i)) N HN).
  pose proof (Z.mod_pos_bound (hmac_truncate secret (2 * Z.of_nat j)) N HN).
  f_equal. lia.
Qed.

(** C7, as the model has it: at any time, with the window of one step the
    routes pass, the codes of the current step and of the two adjacent steps
    are accepted; the code of a step [k] steps away is accepted exactly when it
    is also the code of one of those three steps, so the code of a step two or
    more away is rejected unless it repeats one of them. *)
Theorem C7_window_of_one_step (secret : string) (t k : Z) :
  Totp.verifyCode secret (Totp.codeAt secret (Totp.counter_of t - 1)) 1 t = true /\
  Totp.verifyCode secret (Totp.codeAt secret (Totp.counter_of t)) 1 t = true /\
  Totp.verifyCode secret (Totp.codeAt secret (Totp.counter_of t + 1)) 1 t = true /\
  Totp.verifyCode secret (Totp.codeAt secret (Totp.counter_of t + k)) 1 t =
    ((Totp.codeAt secret (Totp.counter_of t - 1) =? Totp.codeAt secret (Totp.counter_of t + k))%string ||
     (Totp.codeAt secret (Totp.counter_of t) =? Totp.codeAt secret (Totp.counter_of t + k))%string ||
     (Totp.codeAt secret (Totp.counter_of t + 1) =? Totp.codeAt secret (Totp.counter_of t + k))%string).
Proof.
  rewrite !verifyCode_window_1, !codeAt_well_formed, !String.eqb_refl.
  cbn [andb orb]. rewrite !orb_true_r. auto.
Qed.

End TotpFacts.

(** C7 fails on the model, whatever the HMAC and the number of digits: there
    are finitely many codes, so under every secret some step two or more away
    from the current one has the current step's code, and that code is
    accepted. *)
Lemma C7_far_step_code_accepted :
  ~ exists L : Libs,
      forall (secret : string) (t k : Z),
        2 <= Z.abs k ->
        Totp.verifyCode secret (Totp.codeAt secret (Totp.counter_of t + k)) 1 t = false.
Proof.
  intros (L & H).
  destruct (codes_repeat (L := L) "JBSWY3DPEHPK3PXP") as (c & k & Hk & Hc & Heq).
  specialize (H "JBSWY3DPEHPK3PXP" (Totp.step * c) k ltac:(lia)).
  rewrite counter_of_step, Heq in H.
  pose proof (verifyCode_window_1 (L := L) "JBSWY3DPEHPK3PXP"
                (Totp.codeAt "JBSWY3DPEHPK3PXP" c) (Totp.step * c)) as Hacc.
  rewrite counter_of_step, codeAt_well_formed, String.eqb_refl, orb_true_r in Hacc.
  cbn [andb orb] in Hacc. congruence.
Qed.

(** * Further properties *)

(** ** The [Authorization] header *)

Lemma split_first_word (s rest : string) :
  no_space s = true ->
  split " " (s ++ " " ++ rest) = s :: split " " rest.
Proof.
  unfold no_space. induction s as [|c s IH]; simpl; intros H.
  - reflexivity.
  - apply andb_true_iff in H. destruct H as [Hc Hs].
    apply negb_true_iff in Hc. rewrite Hc.
    simpl in IH. rewrite (IH Hs). reflexivity.
Qed.

Lemma split_no_space (s : string) :
  no_space s = true -> split " " s = [s].
Proof.
  unfold no_space. induction s as [|c s IH]; simpl; intros H.
  - reflexivity.
  - apply andb_true_iff in H. destruct H as [Hc Hs].
    apply negb_true_iff in Hc. rewrite Hc, (IH Hs). reflexivity.
Qed.

Section HeaderFacts.
Context {L : Libs}.
Variable env : Env.

(** X1: [authenticateToken] takes the second blank-separated field of the
    header for the token and never looks at the first: under any two scheme
    words without a blank, the same rest of the header gets the same
    treatment, so [Basic t] or [Token t] is handled as [Bearer t] is. *)
Theorem authenticateToken_ignores_scheme (s1 s2 rest : string) (req : Request)
  (next : JwtPayload -> Handler Response) (w : World) :
  no_space s1 = true ->
  no_space s2 = true ->
  run (authenticateToken env (with_authorization (Some (s1 ++ " " ++ rest)) req) next) w =
  run (authenticateToken env (with_authorization (Some (s2 ++ " " ++ rest)) req) next) w.
Proof.
  intros H1 H2. unfold authenticateToken. cbn [authorization with_authorization].
  rewrite (split_first_word s1 rest H1), (split_first_word s2 rest H2).
  reflexivity.
Qed.

End HeaderFacts.

Lemma authenticateToken_ignores_scheme_witness :
  run (authenticateToken (L := Demo.demo) Demo.env0
         (with_authorization (Some ("Basic" ++ " " ++ Demo.expired_token)) (Demo.post []))
         (fun _ => ret (mkResponse 200 JNull))) Demo.world0 =
  run (authenticateToken (L := Demo.demo) Demo.env0
         (with_authorization (Some ("Bearer" ++ " " ++ Demo.expired_token)) (Demo.post []))
         (fun _ => ret (mkResponse 200 JNull))) Demo.world0.
Proof.
  apply (authenticateToken_ignores_scheme (L := Demo.demo) Demo.env0 "Basic" "Bearer");
    reflexivity.
Defined.

(** ** Registration, then login *)

Lemma filter_orb_nil {A : Type} (a b : A -> bool) (l : list A) :
  filter (fun x => a x || b x) l = [] -> filter a l = [] /\ filter b l = [].
Proof.
  induction l as [|x l IH]; simpl; [auto|].
  destruct (a x) eqn:Ha; simpl; [discriminate|].
  destruct (b x) eqn:Hb; simpl; [discriminate|].
  exact IH.
Qed.

Lemma length_zero_nil {A : Type} (l : list A) :
  (0 <? List.length l)%nat = false -> l = [].
Proof.
  destruct l; [reflexivity|discriminate].
Qed.

Lemma varchar_fits (n : nat) (s : string) :
  (String.length s <= n)%nat -> varchar n s = Some s.
Proof.
  intros H. unfold varchar. apply Nat.leb_le in H. rewrite H. reflexivity.
Qed.

Section RegisterFacts.
Context {L : Libs}.
Variable env : Env.

(** What a registration answered with 201 went through, and what it left. *)
Lemma register_created (req : Request) (w : World) :
  status (snd (run (register env req) w)) = 201 ->
  (String.length (str (body_field "username" req)) <= 50)%nat ->
  (String.length (str (body_field "email" req)) <= 255)%nat ->
  truthy (body_field "username" req) = true /\
  truthy (body_field "email" req) = true /\
  truthy (body_field "password" req) = true /\
  (8 <= String.length (str (body_field "password" req)))%nat /\
  select_users_by_email_or_username (str (body_field "email" req))
    (str (body_field "username" req)) (db w) = [] /\
  users (db (fst (run (register env req) w))) =
    (users (db w) ++
     [new_user (new_row_id env) (str (body_field "username" req))
        (str (body_field "email" req))
        (bcrypt_hash (str (body_field "password" req)) 12 (salt env)) (now env)])%list /\
  api_keys (db (fst (run (register env req) w))) = api_keys (db w) /\
  audit_logs (db (fst (run (register env req) w))) = audit_logs (db w).
Proof.
  unfold register.
  destruct (truthy (body_field "username" req)); [|discriminate].
  destruct (truthy (body_field "email" req)); [|discriminate].
  destruct (truthy (body_field "password" req)); [|discriminate].
  cbn [negb orb].
  destruct (Nat.ltb_spec (String.length (str (body_field "password" req))) 8);
    [discriminate|].
  intros H201 Fn Fe. revert H201.
  unfold insert_user. cbn [username email new_user].
  rewrite (varchar_fits 50 _ Fn), (varchar_fits 255 _ Fe).
  step_handler.
  destruct (0 <? List.length _)%nat eqn:Hex; simpl; [discriminate|].
  apply length_zero_nil in Hex.
  destruct (unique_violation _ _); simpl; [discriminate|].
  intros _. auto 10.
Qed.

(** X2: registration and login compose.  After a registration answered with
    201, a login with the same email and password is answered with 200 and a
    token for the new user, provided [bcrypt.compare] accepts the password
    against the hash [bcrypt.hash] made of it.  The username and the email
    registered fit their columns, [VARCHAR(50)] and [VARCHAR(255)], so that
    the row holds them as they were sent. *)
Theorem register_then_login (later : Env) (req login_req : Request) (w : World) :
  status (snd (run (register env req) w)) = 201 ->
  (String.length (str (body_field "username" req)) <= 50)%nat ->
  (String.length (str (body_field "email" req)) <= 255)%nat ->
  bcrypt_compare (str (body_field "password" req))
    (bcrypt_hash (str (body_field "password" req)) 12 (salt env)) = true ->
  body_field "email" login_req = body_field "email" req ->
  body_field "password" login_req = body_field "password" req ->
  snd (run (login later login_req) (fst (run (register env req) w))) =
  mkResponse 200 (JObj [
    ("message", JStr "Login successful");
    ("token", JStr (jwt_sign (new_row_id env) (str (body_field "username" req))
                      (JWT_SECRET later) (24 * 3600) (now later)));
    ("user", JObj [("id", JStr (new_row_id env));
                   ("username", JStr (str (body_field "username" req)));
                   ("email", JStr (str (body_field "email" req)));
                   ("has2FA", JBool false)])]).
Proof.
  intros H201 Fn Fe Hbcrypt He Hp.
  destruct (register_created req w H201 Fn Fe)
    as (_ & Hte & Htp & _ & Hnone & Husers & _).
  remember (fst (run (register env req) w)) as w1 eqn:Hw1. clear Hw1.
  unfold login. rewrite He, Hp, Hte, Htp. cbn [negb orb].
  step_handler. unfold select_users_by_email. rewrite Husers, filter_app.
  apply filter_orb_nil in Hnone. destruct Hnone as [Hnone _].
  unfold select_users_by_email_or_username in Hnone. rewrite Hnone.
  simpl. rewrite String.eqb_refl. simpl. rewrite Hbcrypt. reflexivity.
Qed.


End RegisterFacts.

Lemma register_then_login_witness :
  token_of (snd (run (login (L := Demo.demo) Demo.env0 (Demo.dave_login []))
                     (fst (run (register (L := Demo.demo) Demo.env0 Demo.dave_register)
                               Demo.world0)))) =
  Some (JStr Demo.dave_token).
Proof.
  rewrite (register_then_login (L := Demo.demo) Demo.env0 Demo.env0 Demo.dave_register
             (Demo.dave_login []) Demo.world0 eq_refl
             ltac:(cbn; lia) ltac:(cbn; lia) eq_refl eq_refl eq_refl).
  reflexivity.
Defined.


(** ** What login writes and calls *)

Lemma Forall2_same {A : Type} (R : A -> A -> Prop) (l : list A) :
  (forall a, R a a) -> Forall2 R l l.
Proof.
  intros H. induction l; constructor; auto.
Qed.

Section LoginEffects.
Context {L : Libs}.
Variable env : Env.

(** X4: a login that issues no token leaves the database as it was; one that
    issues a token stamps [last_login] (and the trigger [updated_at]) with
    the current time in the rows of the user it found and changes nothing
    else: no other column, no other row, no other table. *)
Theorem login_writes_last_login_only (req : Request) (w : World) :
  (token_of (snd (run (login env req) w)) = None ->
   db (fst (run (login env req) w)) = db w) /\
  (token_of (snd (run (login env req) w)) <> None ->
   exists user,
     hd_error (select_users_by_email (str (body_field "email" req)) (db w)) = Some user /\
     Forall2 (fun u u' =>
                if (id u =? id user)%string
                then same_but_last_login u u' /\ last_login u' = Some (now env) /\
                     updated_at u' = now env
                else u' = u)
             (users (db w)) (users (db (fst (run (login env req) w)))) /\
     api_keys (db (fst (run (login env req) w))) = api_keys (db w) /\
     audit_logs (db (fst (run (login env req) w))) = audit_logs (db w)).
Proof.
  unfold login.
  destruct (negb (truthy (body_field "email" req))
            || negb (truthy (body_field "password" req))).
  { split; [reflexivity|]. intros H. exfalso. apply H. reflexivity. }
  step_handler.
  destruct (select_users_by_email (str (body_field "email" req)) (db w))
    as [|user rest]; simpl.
  { split; [reflexivity|]. intros H. exfalso. apply H. reflexivity. }
  assert (Hok :
    exists user0 : User,
      Some user = Some user0 /\
      Forall2 (fun u u' : User =>
                 if (id u =? id user0)%string
                 then same_but_last_login u u' /\ last_login u' = Some (now env) /\
                      updated_at u' = now env
                 else u' = u)
        (users (db w))
        (users (update_users_where_id (now env) (id user) (set_last_login (now env))
                  (db w))) /\
      api_keys (update_users_where_id (now env) (id user) (set_last_login (now env))
                  (db w)) = api_keys (db w) /\
      audit_logs (update_users_where_id (now env) (id user) (set_last_login (now env))
                    (db w)) = audit_logs (db w)).
  { exists user. split; [reflexivity|]. split; [|split; reflexivity].
    unfold update_users_where_id, set_users. cbn [users].
    apply Forall2_map_right. intros u.
    destruct (id u =? id user)%string; [|reflexivity].
    unfold same_but_last_login. simpl. auto 12. }
  destruct (bcrypt_compare _ _); simpl.
  2:{ split; [reflexivity|]. intros H. exfalso. apply H. reflexivity. }
  destruct (truthy (totp_secret user)); simpl.
  - destruct (truthy (body_field "totp" req)); simpl.
    2:{ split; [reflexivity|]. intros H. exfalso. apply H. reflexivity. }
    destruct (Totp.verifyCode _ _ _ _); simpl.
    2:{ split; [reflexivity|]. intros H. exfalso. apply H. reflexivity. }
    split; [unfold token_of; simpl; discriminate|]. intros _. exact Hok.
  - split; [unfold token_of; simpl; discriminate|]. intros _. exact Hok.
Qed.

(** X5: the order of login's checks.  The calls login adds to the log are, in
    this order: the comparison of the password with the stored hash; then,
    only if the comparison succeeded, the verification of the supplied code
    against the active secret; then, last, the signature of the token.  No
    code is verified for a request whose password was not accepted. *)
Theorem login_calls_in_order (req : Request) (w : World) :
  trace (fst (run (login env req) w)) = trace w \/
  exists user,
    hd_error (select_users_by_email (str (body_field "email" req)) (db w)) = Some user /\
    let compare := EvBcryptCompare (str (body_field "password" req)) (password_hash user) in
    let verify := EvTotpVerify (str (totp_secret user)) (str (body_field "totp" req)) in
    let sign := EvJwtSign (id user) in
    (trace (fst (run (login env req) w)) = trace w ++ [compare])%list \/
    bcrypt_compare (str (body_field "password" req)) (password_hash user) = true /\
    ((trace (fst (run (login env req) w)) = trace w ++ [compare; sign])%list \/
     (trace (fst (run (login env req) w)) = trace w ++ [compare; verify])%list \/
     (trace (fst (run (login env req) w)) = trace w ++ [compare; verify; sign])%list).
Proof.
  unfold login.
  destruct (negb (truthy (body_field "email" req))
            || negb (truthy (body_field "password" req))).
  { left. reflexivity. }
  step_handler.
  destruct (select_users_by_email (str (body_field "email" req)) (db w))
    as [|user rest]; simpl.
  { left. reflexivity. }
  right. exists user. split; [reflexivity|].
  destruct (bcrypt_compare _ _); simpl.
  2:{ left. reflexivity. }
  destruct (truthy (totp_secret user)); simpl.
  - destruct (truthy (body_field "totp" req)); simpl.
    2:{ left. reflexivity. }
    right. split; [reflexivity|].
    destruct (Totp.verifyCode _ _ _ _); simpl.
    + right. right. rewrite <- !app_assoc. reflexivity.
    + right. left. rewrite <- !app_assoc. reflexivity.
  - right. split; [reflexivity|]. left. rewrite <- !app_assoc. reflexivity.
Qed.

End LoginEffects.

(** ** Switching two-factor authentication on and off, then login *)

Lemma select_users_by_email_after_update (t : Z) (uid e : string)
  (set : User -> User) (d : Database) (row : User) :
  (forall u, email (set u) = email u) ->
  hd_error (select_users_by_email e d) = Some row ->
  hd_error (filter (fun u => (email u =? e)%string)
              (users (update_users_where_id t uid set d))) =
  Some (if (id row =? uid)%string then touch t (set row) else row).
Proof.
  intros Hset Hrow.
  pose proof (select_users_by_email_frame
                (fun u => if (id u =? uid)%string then touch t (set u) else u)) as Hf.
  assert (Hg : forall u, email (if (id u =? uid)%string then touch t (set u) else u)
                         = email u).
  { intros u. destruct (id u =? uid)%string; [apply Hset|reflexivity]. }
  specialize (Hf Hg e (users d) d).
  unfold select_users_by_email, update_users_where_id, set_users in *.
  cbn [users] in *. rewrite Hf.
  destruct (filter _ (users d)) as [|r rest]; [discriminate|].
  inversion Hrow; subst. reflexivity.
Qed.

Section TwoFactorThenLogin.
Context {L : Libs}.
Variable env : Env.

Lemma verify_2fa_activated (user : JwtPayload) (req : Request) (w : World) :
  status (snd (run (verify_2fa env user req) w)) = 200 ->
  exists row0,
    truthy (totp_temp_secret row0) = true /\
    db (fst (run (verify_2fa env user req) w)) =
    update_users_where_id (now env) (userId user)
      (set_totp_secrets (Some (str (totp_temp_secret row0))) None) (db w).
Proof.
  unfold verify_2fa.
  destruct (truthy (body_field "token" req)); [|discriminate].
  step_handler.
  destruct (select_users_by_id (userId user) (db w)) as [|row0 rest]; [discriminate|].
  destruct (truthy (totp_temp_secret row0)) eqn:Hp; simpl; [|discriminate].
  destruct (Totp.verifyCode _ _ _ _); simpl; [|discriminate].
  intros _. exists row0. auto.
Qed.

Lemma disable_2fa_done (user : JwtPayload) (req : Request) (w : World) :
  status (snd (run (disable_2fa env user req) w)) = 200 ->
  users (db (fst (run (disable_2fa env user req) w))) =
  users (update_users_where_id (now env) (userId user) (set_totp_secrets None None)
           (db w)).
Proof.
  unfold disable_2fa.
  destruct (truthy (body_field "password" req)); [|discriminate].
  step_handler.
  destruct (select_users_by_id (userId user) (db w)) as [|row0 rest]; [discriminate|].
  destruct (bcrypt_compare _ _); simpl; [|discriminate].
  reflexivity.
Qed.

(** X6: once [verify-2fa] has answered 200 for a user, a login of that user
    with the right password and no code is answered with
    [{require2FA: true}], without a token. *)
Theorem verify_2fa_then_login (later : Env) (user : JwtPayload)
  (req login_req : Request) (w : World) (row : User) :
  status (snd (run (verify_2fa env user req) w)) = 200 ->
  truthy (body_field "email" login_req) = true ->
  truthy (body_field "password" login_req) = true ->
  truthy (body_field "totp" login_req) = false ->
  hd_error (select_users_by_email (str (body_field "email" login_req)) (db w)) = Some row ->
  id row = userId user ->
  bcrypt_compare (str (body_field "password" login_req)) (password_hash row) = true ->
  snd (run (login later login_req) (fst (run (verify_2fa env user req) w))) =
  mkResponse 200 (JObj [("require2FA", JBool true)]).
Proof.
  intros H200 He Hp Ht Hrow Hid Hcmp.
  destruct (verify_2fa_activated user req w H200) as (row0 & Htemp & Hdb).
  remember (fst (run (verify_2fa env user req) w)) as w1 eqn:Hw1. clear Hw1.
  unfold login. rewrite He, Hp, Ht. cbn [negb orb]. step_handler.
  unfold select_users_by_email. rewrite Hdb.
  pose proof (select_users_by_email_after_update (now env) (userId user)
                (str (body_field "email" login_req))
                (set_totp_secrets (Some (str (totp_temp_secret row0))) None)
                (db w) row (fun u => eq_refl) Hrow) as Hsel.
  destruct (filter _ (users (update_users_where_id _ _ _ _))) as [|r rest];
    [discriminate|].
  inversion Hsel; subst r. rewrite Hid, String.eqb_refl. simpl.
  rewrite Hcmp. simpl.
  destruct (truthy_true _ Htemp) as (s & Hs & Hne). rewrite Hs. simpl.
  apply String.eqb_neq in Hne. rewrite Hne. reflexivity.
Qed.

(** X7: once [disable-2fa] has answered 200 for a user, a login of that user
    with the right password alone is answered with a token. *)
Theorem disable_2fa_then_login (later : Env) (user : JwtPayload)
  (req login_req : Request) (w : World) (row : User) :
  status (snd (run (disable_2fa env user req) w)) = 200 ->
  truthy (body_field "email" login_req) = true ->
  truthy (body_field "password" login_req) = true ->
  hd_error (select_users_by_email (str (body_field "email" login_req)) (db w)) = Some row ->
  id row = userId user ->
  bcrypt_compare (str (body_field "password" login_req)) (password_hash row) = true ->
  token_of (snd (run (login later login_req) (fst (run (disable_2fa env user req) w)))) =
  Some (JStr (jwt_sign (id row) (username row) (JWT_SECRET later) (24 * 3600)
                (now later))).
Proof.
  intros H200 He Hp Hrow Hid Hcmp.
  pose proof (disable_2fa_done user req w H200) as Hdb.
  remember (fst (run (disable_2fa env user req) w)) as w1 eqn:Hw1. clear Hw1.
  unfold login. rewrite He, Hp. cbn [negb orb]. step_handler.
  unfold select_users_by_email. rewrite Hdb.
  pose proof (select_users_by_email_after_update (now env) (userId user)
                (str (body_field "email" login_req))
                (set_totp_secrets None None)
                (db w) row (fun u => eq_refl) Hrow) as Hsel.
  destruct (filter _ (users (update_users_where_id _ _ _ _))) as [|r rest];
    [discriminate|].
  inversion Hsel; subst r.
  assert (Heq : (id row =? userId user)%string = true)
    by (rewrite Hid; apply String.eqb_refl).
  rewrite Heq. simpl. rewrite Hcmp. simpl. reflexivity.
Qed.

End TwoFactorThenLogin.

Lemma verify_2fa_then_login_witness :
  snd (run (login (L := Demo.demo) Demo.env0 (Demo.dave_login []))
           (fst (run (verify_2fa (L := Demo.demo) Demo.env0
                        (mkJwtPayload "row-1" "dave" 1700000000 1700086400)
                        (Demo.post [("token", Demo.dave_code)]))
                     Demo.enrolling))) =
  mkResponse 200 (JObj [("require2FA", JBool true)]).
Proof.
  apply (verify_2fa_then_login (L := Demo.demo) Demo.env0 Demo.env0
           (mkJwtPayload "row-1" "dave" 1700000000 1700086400)
           (Demo.post [("token", Demo.dave_code)]) (Demo.dave_login []) Demo.enrolling
           (nth 4 (users (db Demo.enrolling)) Demo.alice));
    vm_compute; reflexivity.
Defined.

Lemma disable_2fa_then_login_witness :
  token_of (snd (run (login (L := Demo.demo) Demo.env0
                        (Demo.post [("email", "bob@example.com");
                                    ("password", "hunter2hunter2")]))
                     (fst (run (disable_2fa (L := Demo.demo) Demo.env0
                                  (Demo.payload_of Demo.bob) Demo.bob_disable_2fa)
                               Demo.world0)))) =
  Some (JStr (jwt_sign (Libs := Demo.demo) (id Demo.bob) (username Demo.bob)
                (JWT_SECRET Demo.env0) (24 * 3600) (now Demo.env0))).
Proof.
  apply (disable_2fa_then_login (L := Demo.demo) Demo.env0 Demo.env0
           (Demo.payload_of Demo.bob) Demo.bob_disable_2fa
           (Demo.post [("email", "bob@example.com"); ("password", "hunter2hunter2")])
           Demo.world0 Demo.bob);
    vm_compute; reflexivity.
Defined.

(** ** The keys of the table [users] *)

Lemma NoDup_snoc {A : Type} (l : list A) (x : A) :
  NoDup l -> ~ In x l -> NoDup (l ++ [x]).
Proof.
  induction l as [|a l IH]; simpl; intros Hl Hx.
  - constructor; [intros []|constructor].
  - inversion Hl; subst. constructor.
    + rewrite in_app_iff. simpl. intros [H|[H|[]]]; [contradiction|].
      apply Hx. left. symmetry. exact H.
    + apply IH; [assumption|]. intros H. apply Hx. right. exact H.
Qed.

Lemma unique_violation_false (nu : User) (d : Database) :
  unique_violation nu d = false ->
  ~ In (id nu) (map id (users d)) /\
  ~ In (username nu) (map username (users d)) /\
  ~ In (email nu) (map email (users d)).
Proof.
  unfold unique_violation. intros H.
  assert (Hall : forall v, In v (users d) ->
            id v <> id nu /\ username v <> username nu /\ email v <> email nu).
  { intros v Hv.
    destruct (String.eqb_spec (id v) (id nu)) as [E1|E1];
    destruct (String.eqb_spec (username v) (username nu)) as [E2|E2];
    destruct (String.eqb_spec (email v) (email nu)) as [E3|E3];
      try (split; [|split]; assumption);
      exfalso;
      (assert (Ht : existsb (fun v0 => (id v0 =? id nu)%string
                                       || (username v0 =? username nu)%string
                                       || (email v0 =? email nu)%string) (users d) = true);
       [apply existsb_exists; exists v; split; [exact Hv|];
        rewrite ?E1, ?E2, ?E3, ?String.eqb_refl, ?orb_true_r; reflexivity
       |congruence]). }
  repeat split; intros Hin; apply in_map_iff in Hin;
    destruct Hin as (v & Heq & Hv); destruct (Hall v Hv) as (H1 & H2 & H3); congruence.
Qed.

Section UserKeys.
Context {L : Libs}.
Variable env : Env.

(** What a route does to the columns [id], [username] and [email]: nothing,
    or, for a registration, one new row that collides with none. *)
Lemma serve_users_keys (r : Route) (req : Request) (w : World) :
  (map id (users (db (fst (run (serve env r req) w)))) = map id (users (db w)) /\
   map username (users (db (fst (run (serve env r req) w)))) =
     map username (users (db w)) /\
   map email (users (db (fst (run (serve env r req) w)))) = map email (users (db w))) \/
  exists nu,
    users (db (fst (run (serve env r req) w))) = (users (db w) ++ [nu])%list /\
    unique_violation nu (db w) = false.
Proof.
  destruct r.
  1:{ unfold serve, register, insert_user.
      destruct (negb _ || negb _ || negb _); [left; repeat split; reflexivity|].
      destruct (_ <? 8)%nat; [left; repeat split; reflexivity|].
      step_handler.
      destruct (0 <? _)%nat; simpl; [left; repeat split; reflexivity|].
      destruct (varchar 50 _); simpl; [|left; repeat split; reflexivity].
      destruct (varchar 255 _); simpl; [|left; repeat split; reflexivity].
      destruct (unique_violation _ (db w)) eqn:Hviol; simpl;
        [left; repeat split; reflexivity|].
      right. eexists. split; [reflexivity|exact Hviol]. }
  all: unfold serve, login, route_setup_2fa,
    route_verify_2fa, route_disable_2fa, route_get_api_keys, route_create_api_key,
    authenticateToken_local, authenticateToken, setup_2fa, verify_2fa, disable_2fa,
    get_api_keys, create_api_key, delete_api_key, update_user_status;
    unfold_queries; step_handler.
  all: split_cases;
    first [ left; repeat split; reflexivity
          | left; repeat split; rewrite map_map; apply map_ext;
            let v := fresh "v" in intros v; destruct (id v =? _)%string; reflexivity ].
Qed.

(** X8: the routes keep the keys of [users].  If ids, usernames and emails
    are each pairwise distinct before a request to any of the routes
    (registration included), they are so after it. *)
Theorem serve_keeps_users_unique (r : Route) (req : Request) (w : World) :
  unique_users (db w) ->
  unique_users (db (fst (run (serve env r req) w))).
Proof.
  intros (Hid & Hname & Hmail). unfold unique_users.
  destruct (serve_users_keys r req w) as [(E1 & E2 & E3)|(nu & Hus & Hviol)].
  - rewrite E1, E2, E3. auto.
  - rewrite Hus, !map_app. simpl.
    destruct (unique_violation_false nu (db w) Hviol) as (N1 & N2 & N3).
    repeat split; apply NoDup_snoc; assumption.
Qed.

End UserKeys.

Lemma serve_keeps_users_unique_witness :
  unique_users (db (fst (run (serve (L := Demo.demo) Demo.env0 PostRegister
                                 Demo.dave_register) Demo.world0))).
Proof.
  apply (serve_keeps_users_unique (L := Demo.demo) Demo.env0 PostRegister
           Demo.dave_register Demo.world0).
  unfold unique_users. simpl.
  repeat split; repeat (constructor; [simpl; intuition discriminate|]); constructor.
Defined.

(** ** Listing, creating and deleting API keys *)

Lemma insert_desc_perm (k : ApiKey) (l : list ApiKey) :
  Permutation (insert_desc k l) (k :: l).
Proof.
  induction l as [|h t IH]; simpl; [reflexivity|].
  destruct (key_created_at h <? key_created_at k); [reflexivity|].
  rewrite IH. apply perm_swap.
Qed.

Lemma order_by_created_at_desc_perm (l : list ApiKey) :
  Permutation (order_by_created_at_desc l) l.
Proof.
  unfold order_by_created_at_desc.
  induction l as [|h t IH]; simpl; [reflexivity|].
  rewrite insert_desc_perm. constructor. exact IH.
Qed.

Lemma insert_desc_sorted (k : ApiKey) (l : list ApiKey) :
  Sorted (fun a b => key_created_at b <= key_created_at a) l ->
  Sorted (fun a b => key_created_at b <= key_created_at a) (insert_desc k l).
Proof.
  induction l as [|h t IH]; simpl; intros Hs.
  - constructor; constructor.
  - destruct (Z.ltb_spec (key_created_at h) (key_created_at k)).
    + constructor; [exact Hs|]. constructor. lia.
    + inversion Hs; subst. constructor; [apply IH; assumption|].
      destruct t as [|h' t']; simpl.
      * constructor. lia.
      * destruct (Z.ltb_spec (key_created_at h') (key_created_at k)).
        -- constructor. lia.
        -- inversion H3; subst. constructor. assumption.
Qed.

Lemma order_by_created_at_desc_sorted (l : list ApiKey) :
  Sorted (fun a b => key_created_at b <= key_created_at a)
         (order_by_created_at_desc l).
Proof.
  unfold order_by_created_at_desc.
  induction l as [|h t IH]; simpl; [constructor|].
  apply insert_desc_sorted, IH.
Qed.

Lemma get_api_keys_run (user : JwtPayload) (req : Request) (w : World) :
  run (get_api_keys user req) w =
    (w, mkResponse 200
          (JArr (map listed_columns
                   (order_by_created_at_desc
                      (filter (fun k => (key_user_id k =? userId user)%string)
                              (api_keys (db w))))))).
Proof.
  unfold get_api_keys. step_handler. destruct w as [d tr]. reflexivity.
Qed.

(** X9: the listing of API keys answers 200 with the rows of the caller and of
    nobody else, each once, newest first, and leaves the world as it was. *)
Theorem get_api_keys_lists_own_keys (user : JwtPayload) (req : Request) (w : World) :
  exists rows,
    run (get_api_keys user req) w = (w, mkResponse 200 (JArr (map listed_columns rows))) /\
    Permutation rows
      (filter (fun k => (key_user_id k =? userId user)%string) (api_keys (db w))) /\
    Sorted (fun a b => key_created_at b <= key_created_at a) rows /\
    Forall (fun k => key_user_id k = userId user) rows.
Proof.
  exists (order_by_created_at_desc
            (filter (fun k => (key_user_id k =? userId user)%string) (api_keys (db w)))).
  split; [|split; [|split]].
  - apply get_api_keys_run.
  - apply order_by_created_at_desc_perm.
  - apply order_by_created_at_desc_sorted.
  - apply Forall_forall. intros k Hk.
    apply (Permutation_in _ (order_by_created_at_desc_perm _)) in Hk.
    apply filter_In in Hk. destruct Hk as [_ Hk]. apply String.eqb_eq. exact Hk.
Qed.

Section ApiKeyRoundTrip.
Context {L : Libs}.
Variable env : Env.

(** X10: a key that has just been created is in the next listing of its
    owner, under the id and the name it was created with, active and never
    used, with the permissions asked for.  The creation was answered with
    201, and the name fits its column, [VARCHAR(100)], so that the row holds
    it as it was sent. *)
Theorem create_api_key_then_list (user : JwtPayload) (req list_req : Request)
  (w : World) :
  status (snd (run (create_api_key env user req) w)) = 201 ->
  (String.length (str (body_field "name" req)) <= 100)%nat ->
  exists items,
    snd (run (get_api_keys user list_req)
           (fst (run (create_api_key env user req) w))) = mkResponse 200 (JArr items) /\
    exists expires,
      In (JObj [("id", JStr (new_row_id env));
                ("name", JStr (str (body_field "name" req)));
                ("permissions",
                 json_permissions (match body_permissions req with
                                   | Some ps => ps
                                   | None => []
                                   end));
                ("last_used_at", JNull);
                ("expires_at", expires);
                ("is_active", JBool true);
                ("created_at", JNum (now env))]) items.
Proof.
  intros H201 Hfit.
  assert (Hname : truthy (body_field "name" req) = true).
  { revert H201. unfold create_api_key.
    destruct (truthy (body_field "name" req)); [reflexivity|].
    step_handler. discriminate. }
  pose proof (get_api_keys_run user list_req
                (fst (run (create_api_key env user req) w))) as Hrun.
  pose proof (order_by_created_at_desc_perm
                (filter (fun k => (key_user_id k =? userId user)%string)
                        (api_keys (db (fst (run (create_api_key env user req) w))))))
    as Hperm.
  revert Hrun Hperm.
  generalize (order_by_created_at_desc
                (filter (fun k => (key_user_id k =? userId user)%string)
                        (api_keys (db (fst (run (create_api_key env user req) w)))))).
  intros rows Hrun Hperm.
  exists (map listed_columns rows). rewrite Hrun. split; [reflexivity|].
  revert H201 Hperm. unfold create_api_key. rewrite Hname.
  rewrite (varchar_fits 100 _ Hfit). step_handler.
  destruct (_ || _); simpl; [discriminate|]. intros _.
  rewrite filter_app. simpl. rewrite String.eqb_refl. intros Hperm.
  eexists. apply in_map_iff.
  eexists. split; [|apply (Permutation_in _ (Permutation_sym Hperm));
                    apply in_or_app; right; left; reflexivity].
  reflexivity.
Qed.

(** X11: deleting an API key.  The column [api_keys.id] is a [UUID], so the
    text of the request is read as one: [k] below is the id the database
    compares, whatever spelling the request used for it.  The answer is 200
    exactly when the text reads as a uuid and the first row under that uuid
    belongs to the caller, and then exactly the rows under it are gone; in
    every other case the database is left as it was.  A request for somebody
    else's key is answered with 403 [Unauthorized], under every spelling of
    its id, and a text that is no uuid with 500. *)
Theorem delete_api_key_owner_only (user : JwtPayload) (req : Request) (w : World) :
  let keyId := str (assoc "keyId" (params req)) in
  let uuid := read_uuid (map key_id (api_keys (db w))) keyId in
  (status (snd (run (delete_api_key env user req) w)) = 200 <->
   exists k row,
     uuid = Some k /\
     hd_error (filter (fun r => (key_id r =? k)%string) (api_keys (db w))) = Some row /\
     key_user_id row = userId user) /\
  (forall k,
     uuid = Some k ->
     status (snd (run (delete_api_key env user req) w)) = 200 ->
     api_keys (db (fst (run (delete_api_key env user req) w))) =
       filter (fun r => negb (key_id r =? k)%string) (api_keys (db w))) /\
  (status (snd (run (delete_api_key env user req) w)) <> 200 ->
   db (fst (run (delete_api_key env user req) w)) = db w) /\
  (forall k other,
     uuid = Some k ->
     hd_error (filter (fun r => (key_id r =? k)%string) (api_keys (db w))) = Some other ->
     key_user_id other <> userId user ->
     run (delete_api_key env user req) w = (w, mkResponse 403 (error_body "Unauthorized"))) /\
  (uuid = None ->
   run (delete_api_key env user req) w =
     (w, mkResponse 500 (error_body "Internal server error"))).
Proof.
  cbv zeta. unfold delete_api_key. step_handler.
  destruct (read_uuid (map key_id (api_keys (db w))) (str (assoc "keyId" (params req))))
    as [k|]; simpl.
  2: { split; [split; [discriminate|intros (k & row & Hk & _); discriminate]|].
       split; [discriminate|]. split; [reflexivity|]. split; [discriminate|].
       intros _. destruct w; reflexivity. }
  destruct (filter (fun r => (key_id r =? k)%string) (api_keys (db w)))
    as [|row rest] eqn:Hrows; simpl.
  - split; [split; [discriminate|]|].
    { intros (k' & row & Hk & Hhd & _). inversion Hk; subst k'.
      rewrite Hrows in Hhd. discriminate. }
    split; [discriminate|]. split; [reflexivity|]. split; [|discriminate].
    intros k' other Hk Hhd. inversion Hk; subst k'. rewrite Hrows in Hhd. discriminate.
  - destruct (String.eqb_spec (key_user_id row) (userId user)) as [Ho|Ho]; simpl.
    + split; [split|].
      * intros _. exists k, row. rewrite Hrows. auto.
      * reflexivity.
      * split; [intros k' Hk _; inversion Hk; reflexivity|].
        split; [intros H; exfalso; apply H; reflexivity|].
        split; [|discriminate].
        intros k' other Hk Hhd Hne. inversion Hk; subst k'. rewrite Hrows in Hhd.
        inversion Hhd; subst. contradiction.
    + split; [split; [discriminate|]|].
      { intros (k' & row' & Hk & Hhd & Hown). inversion Hk; subst k'.
        rewrite Hrows in Hhd. inversion Hhd; subst. contradiction. }
      split; [discriminate|]. split; [reflexivity|]. split; [|discriminate].
      intros _ _ _ _ _. destruct w; reflexivity.
Qed.

(** X12: only an administrator changes a user's status.  When the first row
    under the caller's id is not an administrator's, or there is none, the
    answer is 403 [Admin access required] and the world is left as it was,
    whatever the request asks for.  When the request goes through, the id of
    the request is read as a [UUID], the type of the column [users.id]: a
    text that is no uuid gets 500 and changes nothing; otherwise the rows
    under the uuid that was read, whatever its spelling in the request, get
    the requested [is_active] (and the trigger's stamp), nothing else in the
    table [users] changes, and the answer is 200 when there is such a row and
    404 when there is none. *)
Theorem update_user_status_admin_only (user : JwtPayload) (req : Request) (w : World) :
  (match select_users_by_id (userId user) (db w) with
   | row :: _ => is_admin row
   | [] => false
   end = false ->
   run (update_user_status env user req) w =
     (w, mkResponse 403 (error_body "Admin access required"))) /\
  (forall flag,
     body_is_active req = Some flag ->
     match select_users_by_id (userId user) (db w) with
     | row :: _ => is_admin row
     | [] => false
     end = true ->
     match read_uuid (map id (users (db w))) (str (assoc "id" (params req))) with
     | None =>
       run (update_user_status env user req) w =
         (w, mkResponse 500 (error_body "Internal server error"))
     | Some uid =>
       Forall2 (fun u u' =>
                  if (id u =? uid)%string
                  then u' = touch (now env) (set_is_active flag u)
                  else u' = u)
               (users (db w)) (users (db (fst (run (update_user_status env user req) w)))) /\
       api_keys (db (fst (run (update_user_status env user req) w))) = api_keys (db w) /\
       status (snd (run (update_user_status env user req) w)) =
         (if existsb (fun u => (id u =? uid)%string) (users (db w)) then 200 else 404)
     end).
Proof.
  unfold update_user_status. step_handler. split.
  - intros Hadm. rewrite Hadm. simpl. destruct w; reflexivity.
  - intros flag Hflag Hadm. rewrite Hadm, Hflag. simpl.
    destruct (read_uuid (map id (users (db w))) (str (assoc "id" (params req))))
      as [uid|]; simpl; [|destruct w; reflexivity].
    assert (Hrows : Forall2 (fun u u' =>
                if (id u =? uid)%string
                then u' = touch (now env) (set_is_active flag u)
                else u' = u)
             (users (db w))
             (map (fun u => if (id u =? uid)%string
                            then touch (now env) (set_is_active flag u) else u)
                  (users (db w)))).
    { apply Forall2_map_right. intros u.
      destruct (id u =? uid)%string; reflexivity. }
    assert (Hex : existsb (fun u => (id u =? uid)%string) (users (db w)) =
                  match select_users_by_id uid (db w) with [] => false | _ :: _ => true end).
    { clear Hrows Hadm. unfold select_users_by_id.
      induction (users (db w)) as [|u l IH]; [reflexivity|].
      simpl. destruct (id u =? uid)%string; simpl; [reflexivity|exact IH]. }
    rewrite Hex.
    destruct (select_users_by_id uid (db w)); simpl;
      (split; [exact Hrows|split; reflexivity]).
Qed.

End ApiKeyRoundTrip.

Lemma delete_api_key_owner_only_witness :
  read_uuid (L := Demo.demo) (map key_id (api_keys (db DemoUuid.world0)))
            "0F8FAD5B-D9CB-469F-A165-70867728950E"
    = Some "0f8fad5b-d9cb-469f-a165-70867728950e" /\
  status (snd (run (delete_api_key (L := Demo.demo) Demo.env0 (Demo.payload_of Demo.alice)
                      DemoUuid.alice_deletes_key) DemoUuid.world0)) = 200 /\
  api_keys (db (fst (run (delete_api_key (L := Demo.demo) Demo.env0
                            (Demo.payload_of Demo.alice) DemoUuid.alice_deletes_key)
                         DemoUuid.world0))) = [Demo.key0].
Proof.
  destruct (delete_api_key_owner_only (L := Demo.demo) Demo.env0
              (Demo.payload_of Demo.alice) DemoUuid.alice_deletes_key DemoUuid.world0)
    as (Hdone & Hgone & _).
  assert (H200 : status (snd (run (delete_api_key (L := Demo.demo) Demo.env0
                                     (Demo.payload_of Demo.alice)
                                     DemoUuid.alice_deletes_key) DemoUuid.world0)) = 200).
  { apply Hdone. exists "0f8fad5b-d9cb-469f-a165-70867728950e", DemoUuid.key1.
    repeat split; reflexivity. }
  split; [reflexivity|]. split; [exact H200|].
  exact (Hgone "0f8fad5b-d9cb-469f-a165-70867728950e" eq_refl H200).
Defined.

Lemma update_user_status_admin_only_witness :
  read_uuid (L := Demo.demo) (map id (users (db DemoUuid.world0)))
            "{6FA459EA-EE8A-3CA4-894E-DB77E160355E}"
    = Some "6fa459ea-ee8a-3ca4-894e-db77e160355e" /\
  status (snd (run (update_user_status (L := Demo.demo) Demo.env0
                      (Demo.payload_of Demo.root) DemoUuid.deactivate_erin)
                   DemoUuid.world0)) = 200 /\
  Forall2 (fun u u' =>
             if (id u =? "6fa459ea-ee8a-3ca4-894e-db77e160355e")%string
             then u' = touch (now Demo.env0) (set_is_active false u)
             else u' = u)
          (users (db DemoUuid.world0))
          (users (db (fst (run (update_user_status (L := Demo.demo) Demo.env0
                                  (Demo.payload_of Demo.root) DemoUuid.deactivate_erin)
                               DemoUuid.world0)))).
Proof.
  destruct (update_user_status_admin_only (L := Demo.demo) Demo.env0
              (Demo.payload_of Demo.root) DemoUuid.deactivate_erin DemoUuid.world0)
    as (_ & Hadmin).
  destruct (Hadmin false eq_refl eq_refl) as (Hrows & _ & Hstatus).
  split; [reflexivity|]. split; [exact Hstatus|exact Hrows].
Defined.

Lemma create_api_key_then_list_witness :
  exists items,
    snd (run (get_api_keys (Demo.payload_of Demo.alice) (Demo.post []))
           (fst (run (create_api_key (L := Demo.demo) Demo.env0
                        (Demo.payload_of Demo.alice) Demo.alice_new_key) Demo.world0))) =
      mkResponse 200 (JArr items) /\
    exists expires,
      In (JObj [("id", JStr (new_row_id Demo.env0));
                ("name", JStr (str (body_field "name" Demo.alice_new_key)));
                ("permissions",
                 json_permissions (match body_permissions Demo.alice_new_key with
                                   | Some ps => ps
                                   | None => []
                                   end));
                ("last_used_at", JNull);
                ("expires_at", expires);
                ("is_active", JBool true);
                ("created_at", JNum (now Demo.env0))]) items.
Proof.
  apply (create_api_key_then_list (L := Demo.demo) Demo.env0
           (Demo.payload_of Demo.alice) Demo.alice_new_key (Demo.post []) Demo.world0).
  - reflexivity.
  - cbn. lia.
Defined.

(** ** Changing the password *)

Section ChangePassword.
Context {L : Libs}.
Variable env : Env.

Lemma change_password_done (user : JwtPayload) (req : Request) (w : World) :
  status (snd (run (change_password env user req) w)) = 200 ->
  (8 <= String.length (str (body_field "newPassword" req)))%nat /\
  (exists row,
     hd_error (select_users_by_id (userId user) (db w)) = Some row /\
     bcrypt_compare (str (body_field "currentPassword" req)) (password_hash row) = true) /\
  db (fst (run (change_password env user req) w)) =
  insert_audit_log
    (mkAuditLog (new_log_id env) (userId user) "change_password" "user" (userId user)
       (client_ip env) None (now env))
    (update_users_where_id (now env) (userId user)
       (set_password_hash (bcrypt_hash (str (body_field "newPassword" req)) 12 (salt env)))
       (db w)).
Proof.
  unfold change_password.
  destruct (negb _ || negb _); [discriminate|].
  destruct (Nat.ltb_spec (String.length (str (body_field "newPassword" req))) 8);
    [discriminate|].
  step_handler.
  destruct (select_users_by_id (userId user) (db w)) as [|row rest]; [discriminate|].
  destruct (bcrypt_compare _ _) eqn:Hcmp; simpl; [|discriminate].
  intros _. split; [assumption|]. split; [exists row; auto|reflexivity].
Qed.

(** X13: changing the password and login compose.  After a change answered
    with 200, a login of that user (one without an active second factor) is
    answered with a token exactly for the passwords that [bcrypt.compare]
    accepts against the hash of the new password. *)
Theorem change_password_then_login (later : Env) (user : JwtPayload)
  (req login_req : Request) (w : World) (row : User) :
  status (snd (run (change_password env user req) w)) = 200 ->
  truthy (body_field "email" login_req) = true ->
  truthy (body_field "password" login_req) = true ->
  hd_error (select_users_by_email (str (body_field "email" login_req)) (db w)) = Some row ->
  id row = userId user ->
  truthy (totp_secret row) = false ->
  (token_of (snd (run (login later login_req)
                    (fst (run (change_password env user req) w)))) <> None <->
   bcrypt_compare (str (body_field "password" login_req))
     (bcrypt_hash (str (body_field "newPassword" req)) 12 (salt env)) = true).
Proof.
  intros H200 He Hp Hrow Hid H2fa.
  destruct (change_password_done user req w H200) as (_ & _ & Hdb).
  remember (fst (run (change_password env user req) w)) as w1 eqn:Hw1. clear Hw1.
  unfold login. rewrite He, Hp. cbn [negb orb]. step_handler.
  unfold select_users_by_email. rewrite Hdb.
  unfold insert_audit_log. cbn [users].
  pose proof (select_users_by_email_after_update (now env) (userId user)
                (str (body_field "email" login_req))
                (set_password_hash
                   (bcrypt_hash (str (body_field "newPassword" req)) 12 (salt env)))
                (db w) row (fun u => eq_refl) Hrow) as Hsel.
  destruct (filter _ (users (update_users_where_id _ _ _ _))) as [|r rest];
    [discriminate|].
  inversion Hsel; subst r.
  assert (Heq : (id row =? userId user)%string = true)
    by (rewrite Hid; apply String.eqb_refl).
  rewrite Heq. simpl.
  destruct (bcrypt_compare _ _); simpl.
  - rewrite H2fa. simpl. unfold token_of. simpl. split; [reflexivity|discriminate].
  - unfold token_of. simpl. split; [intros H; exfalso; apply H; reflexivity|discriminate].
Qed.

(** X14: the guards of a password change.  A new password under 8 characters
    is refused before any library is called.  Whenever the answer is not
    200, the database is left as it was.  When it is 200, the new password
    has 8 characters or more, the current password verified against the
    stored hash, and the rows under the user's id differ from before in
    [password_hash] (and the trigger's stamp) only: the second factor, the
    flags and the API keys are as they were, and one audit row is added. *)
Theorem change_password_guards (user : JwtPayload) (req : Request) (w : World) :
  ((String.length (str (body_field "newPassword" req)) < 8)%nat ->
   status (snd (run (change_password env user req) w)) = 400 /\
   fst (run (change_password env user req) w) = w) /\
  (status (snd (run (change_password env user req) w)) <> 200 ->
   db (fst (run (change_password env user req) w)) = db w) /\
  (status (snd (run (change_password env user req) w)) = 200 ->
   (8 <= String.length (str (body_field "newPassword" req)))%nat /\
   (exists row,
     hd_error (select_users_by_id (userId user) (db w)) = Some row /\
     bcrypt_compare (str (body_field "currentPassword" req)) (password_hash row) = true) /\
   Forall2 (fun u u' =>
              if (id u =? userId user)%string
              then u' = touch (now env)
                     (set_password_hash
                        (bcrypt_hash (str (body_field "newPassword" req)) 12 (salt env)) u)
              else u' = u)
           (users (db w)) (users (db (fst (run (change_password env user req) w)))) /\
   api_keys (db (fst (run (change_password env user req) w))) = api_keys (db w) /\
   List.length (audit_logs (db (fst (run (change_password env user req) w)))) =
     S (List.length (audit_logs (db w)))).
Proof.
  split; [|split].
  - intros Hlen. unfold change_password.
    destruct (negb _ || negb _); [split; reflexivity|].
    apply Nat.ltb_lt in Hlen. rewrite Hlen. split; reflexivity.
  - unfold change_password.
    destruct (negb _ || negb _); [reflexivity|].
    destruct (_ <? 8)%nat; [reflexivity|].
    step_handler.
    destruct (select_users_by_id (userId user) (db w)) as [|row rest]; [reflexivity|].
    destruct (bcrypt_compare _ _); simpl; [|reflexivity].
    intros H. exfalso. apply H. reflexivity.
  - intros H200.
    destruct (change_password_done user req w H200) as (Hlen & Hrow & Hdb).
    split; [exact Hlen|]. split; [exact Hrow|]. rewrite Hdb.
    unfold insert_audit_log, update_users_where_id, set_users. cbn [users api_keys audit_logs].
    split; [|split; [reflexivity|]].
    + apply Forall2_map_right. intros u.
      destruct (id u =? userId user)%string; reflexivity.
    + rewrite length_app. simpl. lia.
Qed.

End ChangePassword.

Lemma change_password_then_login_witness :
  token_of (snd (run (login (L := Demo.demo) Demo.env0
                        (Demo.post [("email", "alice@example.com");
                                    ("password", "new password 1")]))
                    (fst (run (change_password (L := Demo.demo) Demo.env0
                                 (Demo.payload_of Demo.alice)
                                 (Demo.post [("currentPassword", "password123");
                                             ("newPassword", "new password 1")]))
                              Demo.world0)))) <> None <->
  bcrypt_compare (Libs := Demo.demo)
    (str (body_field "password"
            (Demo.post [("email", "alice@example.com"); ("password", "new password 1")])))
    (bcrypt_hash (Libs := Demo.demo)
       (str (body_field "newPassword"
               (Demo.post [("currentPassword", "password123");
                           ("newPassword", "new password 1")])))
       12 (salt Demo.env0)) = true.
Proof.
  apply (change_password_then_login (L := Demo.demo) Demo.env0 Demo.env0
           (Demo.payload_of Demo.alice)
           (Demo.post [("currentPassword", "password123");
                       ("newPassword", "new password 1")])
           (Demo.post [("email", "alice@example.com"); ("password", "new password 1")])
           Demo.world0 Demo.alice);
    vm_compute; reflexivity.
Defined.

(** ** The profile *)

Section ProfileFacts.

(** X15: the profile shows neither the password hash nor a secret.  Rewrite
    the password hashes and the values of the active and pending secrets of
    the table in any way that keeps which secrets are null: the answer of
    [GET /me] is the same. *)
Theorem get_profile_hides_secrets (f : string -> string) (user : JwtPayload)
  (req : Request) (w : World) :
  snd (run (get_profile user req) (map_users (scramble f) w)) =
  snd (run (get_profile user req) w).
Proof.
  unfold get_profile, map_users, select_users_by_id, set_users. step_handler.
  rewrite (filter_map_commute (scramble f)) by reflexivity.
  destruct (filter (fun u => (id u =? userId user)%string) (users (db w)))
    as [|row rest]; simpl; [reflexivity|].
  destruct (totp_secret row); reflexivity.
Qed.

End ProfileFacts.

(** ** Active secrets are never empty *)

Lemma Forall_map_keep {A : Type} (P : A -> Prop) (g : A -> A) (l : list A) :
  (forall a, P a -> P (g a)) -> Forall P l -> Forall P (map g l).
Proof.
  intros Hg Hl. induction Hl; simpl; constructor; auto.
Qed.

Section SecretInvariant.
Context {L : Libs}.
Variable env : Env.

(** X16: no route activates an empty secret.  If no active secret of the
    table is the empty string before a request to any of the routes, none is
    after it; the profile's [has_2fa] (the secret is not null) and login's
    [has2FA] (the secret is truthy) then say the same of every row. *)
Theorem serve_keeps_secrets_nonempty (r : Route) (req : Request) (w : World) :
  no_empty_secret (db w) ->
  no_empty_secret (db (fst (run (serve env r req) w))) /\
  Forall (fun u => truthy (totp_secret u) = is_not_null (totp_secret u))
         (users (db (fst (run (serve env r req) w)))).
Proof.
  intros Hinv.
  assert (Hkeep : no_empty_secret (db (fst (run (serve env r req) w)))).
  { unfold no_empty_secret in *. destruct r.
    - unfold serve, register, insert_user; unfold_queries. step_handler.
      split_cases; try exact Hinv.
      apply Forall_app. split; [exact Hinv|]. constructor; [discriminate|constructor].
    - unfold serve, login; unfold_queries. step_handler.
      split_cases; try exact Hinv.
      all: apply Forall_map_keep; [|exact Hinv]; intros v Hv;
        destruct (id v =? _)%string; exact Hv.
    - unfold serve, route_setup_2fa, authenticateToken_local, setup_2fa; unfold_queries.
      step_handler. split_cases; try exact Hinv.
      apply Forall_map_keep; [|exact Hinv]. intros u Hu.
      destruct (id u =? _)%string; exact Hu.
    - unfold serve, route_verify_2fa, authenticateToken_local.
      destruct (negb _); [exact Hinv|]. step_handler.
      destruct (jwt_verify _ _ _) as [user|name]; [|exact Hinv].
      unfold verify_2fa; unfold_queries.
      destruct (negb _); [exact Hinv|]. step_handler.
      destruct (filter _ (users (db w))) as [|row rest]; [exact Hinv|].
      destruct (truthy (totp_temp_secret row)) eqn:Htemp; simpl; [|exact Hinv].
      destruct (Totp.verifyCode _ _ _ _); simpl; [|exact Hinv].
      apply Forall_map_keep; [|exact Hinv]. intros u Hu.
      destruct (id u =? _)%string; [|exact Hu]. simpl.
      destruct (truthy_true _ Htemp) as (s & Hs & Hne). rewrite Hs. simpl. congruence.
    - unfold serve, route_disable_2fa, authenticateToken, disable_2fa; unfold_queries.
      step_handler. split_cases; try exact Hinv.
      all: apply Forall_map_keep; [|exact Hinv]; intros v Hv;
        destruct (id v =? _)%string; [discriminate|exact Hv].
    - unfold serve, route_get_api_keys, authenticateToken, get_api_keys; unfold_queries.
      step_handler. split_cases; exact Hinv.
    - unfold serve, route_create_api_key, authenticateToken, create_api_key;
        unfold_queries.
      step_handler. split_cases; exact Hinv.
    - unfold serve, authenticateToken, delete_api_key; unfold_queries.
      step_handler. split_cases; exact Hinv.
    - unfold serve, authenticateToken, update_user_status; unfold_queries.
      step_handler. split_cases; try exact Hinv.
      all: apply Forall_map_keep; [|exact Hinv]; intros v Hv;
        destruct (id v =? _)%string; exact Hv. }
  split; [exact Hkeep|].
  unfold no_empty_secret in Hkeep.
  eapply Forall_impl; [|exact Hkeep]. intros u Hu. cbv beta in Hu.
  destruct (totp_secret u) as [s|]; [|reflexivity]. simpl.
  destruct s; [exfalso; apply Hu; reflexivity|reflexivity].
Qed.

End SecretInvariant.

Lemma serve_keeps_secrets_nonempty_witness :
  no_empty_secret (db (fst (run (serve (L := Demo.demo) Demo.env0 PostRegister
                                   Demo.dave_register) Demo.world0))) /\
  Forall (fun u => truthy (totp_secret u) = is_not_null (totp_secret u))
         (users (db (fst (run (serve (L := Demo.demo) Demo.env0 PostRegister
                                 Demo.dave_register) Demo.world0)))).
Proof.
  apply (serve_keeps_secrets_nonempty (L := Demo.demo) Demo.env0 PostRegister
           Demo.dave_register Demo.world0).
  unfold no_empty_secret. simpl. repeat constructor; discriminate.
Defined.

(** ** Updating the profile *)

Lemma NoDup_map_injective {A B : Type} (f : A -> B) (l : list A) (x y : A) :
  NoDup (map f l) -> In x l -> In y l -> f x = f y -> x = y.
Proof.
  induction l as [|a l IH]; simpl; intros Hnd Hx Hy Hf; [contradiction|].
  inversion Hnd as [|? ? Hnotin Hnd']; subst.
  destruct Hx as [->|Hx], Hy as [->|Hy]; auto.
  - exfalso. apply Hnotin. rewrite Hf. apply in_map. exact Hy.
  - exfalso. apply Hnotin. rewrite <- Hf. apply in_map. exact Hx.
Qed.


Section OneRowUpdate.
(** An update [upd] of the one row [row] of a table whose rows have distinct
    ids. *)
Variable us : list User.
Variable row : User.
Variable upd : User -> User.
Hypothesis ids : NoDup (map id us).
Hypothesis row_in : In row us.
Hypothesis upd_others : forall v, In v us -> v <> row -> upd v = v.



End OneRowUpdate.


Section UpdateProfile.
Variable env : Env.


End UpdateProfile.




Section UpdateProfileConsistent.
Variable env : Env.



End UpdateProfileConsistent.


(** ** Expired sessions *)

Lemma filter_partition_length {A : Type} (f : A -> bool) (l : list A) :
  (List.length (filter f l) + List.length (filter (fun x => negb (f x)) l))%nat
  = List.length l.
Proof.
  induction l as [|a l IH]; simpl; [reflexivity|].
  destruct (f a); simpl; lia.
Qed.

Lemma filter_none {A : Type} (f : A -> bool) (l : list A) :
  (forall x, In x l -> f x = false) -> filter f l = [].
Proof.
  induction l as [|a l IH]; simpl; intros H; [reflexivity|].
  rewrite (H a) by auto. apply IH. auto.
Qed.

Lemma filter_all {A : Type} (f : A -> bool) (l : list A) :
  (forall x, In x l -> f x = true) -> filter f l = l.
Proof.
  induction l as [|a l IH]; simpl; intros H; [reflexivity|].
  rewrite (H a) by auto. f_equal. apply IH. auto.
Qed.

Section Sessions.
Context {P : Postgres}.

(** X19: [cleanup_expired_sessions] deletes the sessions that expired before
    the current time and no other, keeps the rest in their order, and
    returns how many it deleted; called again at that time or earlier it
    finds nothing to delete and returns 0. *)
Theorem cleanup_expired_sessions_exact (env earlier : Env)
  (sessions kept : list Session) (n : Z) :
  cleanup_expired_sessions env sessions = Some (kept, n) ->
  now earlier <= now env ->
  (forall x, In x kept <-> In x sessions /\ now env <= session_expires_at x) /\
  n = Z.of_nat (List.length sessions) - Z.of_nat (List.length kept) /\
  cleanup_expired_sessions earlier kept = Some (kept, 0).
Proof.
  unfold cleanup_expired_sessions. intros H Hle.
  destruct (int4_ok _); [|discriminate]. injection H as <- <-.
  split; [|split].
  - intros x. rewrite filter_In. rewrite negb_true_iff, Z.ltb_ge. reflexivity.
  - pose proof (filter_partition_length
                  (fun x => session_expires_at x <? now env) sessions). lia.
  - rewrite (filter_none (fun x => session_expires_at x <? now earlier)).
    + simpl. rewrite filter_all; [reflexivity|].
      intros x Hx. apply filter_In in Hx. destruct Hx as [_ Hx].
      rewrite negb_true_iff, Z.ltb_ge in *. lia.
    + intros x Hx. apply filter_In in Hx. destruct Hx as [_ Hx].
      rewrite negb_true_iff, Z.ltb_ge in Hx. apply Z.ltb_ge. lia.
Qed.

End Sessions.

Lemma cleanup_expired_sessions_exact_witness :
  (forall x, In x [DemoDiagrams.s2] <->
             In x [DemoDiagrams.s1; DemoDiagrams.s2; DemoDiagrams.s3]
             /\ now Demo.env0 <= session_expires_at x) /\
  2 = Z.of_nat (List.length [DemoDiagrams.s1; DemoDiagrams.s2; DemoDiagrams.s3])
      - Z.of_nat (List.length [DemoDiagrams.s2]) /\
  cleanup_expired_sessions Demo.env0 [DemoDiagrams.s2] = Some ([DemoDiagrams.s2], 0).
Proof.
  apply (cleanup_expired_sessions_exact Demo.env0 Demo.env0
           [DemoDiagrams.s1; DemoDiagrams.s2; DemoDiagrams.s3] [DemoDiagrams.s2] 2).
  - reflexivity.
  - simpl. lia.
Defined.

(** ** Diagrams: who may write *)

Ltac dstep :=
  unfold drun, dbind, dreply, dthrow, dret, get_store, put_tables, lift;
  simpl.

(** The id of a row that is in the table reads as itself. *)
Lemma read_uuid_stored {L : Libs} {Row : Type} (key : Row -> string) (rows : list Row)
  (i : string) :
  filter (fun r => (key r =? i)%string) rows <> [] ->
  read_uuid (map key rows) i = Some i.
Proof.
  intros Hrows. unfold read_uuid.
  replace (existsb (String.eqb i) (map key rows)) with true; [reflexivity|].
  symmetry. induction rows as [|r rows IH]; [contradiction|].
  simpl in *. rewrite (String.eqb_sym i (key r)).
  destruct (key r =? i)%string; [reflexivity|]. simpl. apply IH. exact Hrows.
Qed.

Section DiagramWrites.
Context {L : Libs} {P : Postgres}.
Variable env : Env.

(** X20: a diagram is written by its owner only.  When the diagram under the
    id belongs to somebody else, [PUT /:id], [DELETE /:id] and the restoring
    of a version are each answered with 403 [Unauthorized] and leave every
    table as it was, whether the diagram is public or not and whatever the
    request carries. *)
Theorem diagram_writes_owner_only (user : JwtPayload) (req : DiagramRequest) (s : Store)
  (row : Diagram) :
  hd_error (select_diagrams_by_id (str (assoc "id" (params (http req)))) s) = Some row ->
  dg_user_id row <> userId user ->
  drun (update_diagram env user req) s = (s, mkResponse 403 (error_body "Unauthorized")) /\
  drun (delete_diagram env user req) s = (s, mkResponse 403 (error_body "Unauthorized")) /\
  drun (restore_version env user req) s = (s, mkResponse 403 (error_body "Unauthorized")).
Proof.
  intros Hrow Hne.
  apply String.eqb_neq in Hne.
  unfold update_diagram, delete_diagram, restore_version. dstep.
  rewrite (read_uuid_stored dg_id (diagrams s));
    [|unfold select_diagrams_by_id in Hrow; intros E; rewrite E in Hrow; discriminate].
  destruct (select_diagrams_by_id _ s) as [|r rest]; [discriminate|].
  injection Hrow as ->. rewrite Hne. simpl. repeat split.
Qed.

End DiagramWrites.

(** ** Diagrams: who may read *)

Lemma filter_filter {A : Type} (f g : A -> bool) (l : list A) :
  filter f (filter g l) = filter (fun x => f x && g x) l.
Proof.
  induction l as [|a l IH]; simpl; [reflexivity|].
  destruct (g a); simpl; rewrite ?andb_true_r, ?andb_false_r.
  - destruct (f a); [rewrite IH; reflexivity|exact IH].
  - exact IH.
Qed.

Section DiagramReads.
Context {P : Postgres}.

(** X21: what a caller reads depends on what they may read, and on nothing
    else.  [GET /:id] and [GET /:id/versions] write nothing, and they answer
    as they would if the diagrams that are neither the caller's nor public,
    and the versions of those, were not in the tables; a private diagram of
    somebody else is answered with 404 [Diagram not found]. *)
Theorem diagram_reads_see_readable_only (user : JwtPayload) (req : DiagramRequest)
  (s : Store) :
  fst (drun (get_diagram user req) s) = s /\
  fst (drun (get_versions user req) s) = s /\
  snd (drun (get_diagram user req) s)
    = snd (drun (get_diagram user req) (hide_from (userId user) s)) /\
  snd (drun (get_versions user req) s)
    = snd (drun (get_versions user req) (hide_from (userId user) s)) /\
  (select_diagrams_by_id (str (assoc "id" (params (http req)))) s <> [] ->
   Forall (fun d => readable_by (userId user) d = false)
          (select_diagrams_by_id (str (assoc "id" (params (http req)))) s) ->
   snd (drun (get_diagram user req) s)
     = mkResponse 404 (error_body "Diagram not found") /\
   snd (drun (get_versions user req) s)
     = mkResponse 404 (error_body "Diagram not found")).
Proof.
  assert (Hnone : Forall (fun d => readable_by (userId user) d = false)
                    (select_diagrams_by_id (str (assoc "id" (params (http req)))) s) ->
                  select_readable (str (assoc "id" (params (http req)))) (userId user) s
                  = []).
  { intros Hall. unfold select_readable. apply filter_none. intros d Hd.
    destruct (dg_id d =? _)%string eqn:E; [|reflexivity]. simpl.
    rewrite Forall_forall in Hall. apply (Hall d).
    unfold select_diagrams_by_id. apply filter_In. split; assumption. }
  assert (Hsel : select_readable (str (assoc "id" (params (http req)))) (userId user)
                   (hide_from (userId user) s)
                 = select_readable (str (assoc "id" (params (http req)))) (userId user) s).
  { unfold select_readable, hide_from, readable_by. cbn [diagrams].
    rewrite filter_filter. apply filter_ext_in. intros d _.
    destruct (dg_id d =? _)%string; simpl; [|reflexivity].
    destruct (_ || _); reflexivity. }
  unfold get_diagram, get_versions. dstep. rewrite Hsel.
  destruct (select_readable _ _ s) as [|row rest] eqn:Hrows; simpl.
  - repeat split.
  - split; [reflexivity|]. split; [reflexivity|]. split; [reflexivity|].
    split; [|intros _ Hall; discriminate (Hnone Hall)]. do 3 f_equal.
    unfold hide_from. cbn [diagram_versions diagrams].
    rewrite filter_filter. f_equal. apply filter_ext_in. intros v _.
    destruct (String.eqb_spec (dv_diagram_id v) (str (assoc "id" (params (http req)))))
      as [E|E]; simpl; [|reflexivity].
    symmetry. apply existsb_exists. exists row.
    assert (Hin : In row (select_readable (str (assoc "id" (params (http req))))
                            (userId user) s)) by (rewrite Hrows; left; reflexivity).
    unfold select_readable in Hin. apply filter_In in Hin.
    destruct Hin as [Hin Hrow]. split; [exact Hin|].
    apply andb_true_iff in Hrow. destruct Hrow as [Hid Hread].
    unfold readable_by. rewrite Hread. simpl.
    apply String.eqb_eq in Hid. rewrite Hid, E. apply String.eqb_refl.
Qed.

End DiagramReads.

(** ** Diagrams: updates and their triggers *)

Section DiagramUpdates.
Context {P : Postgres}.
Variable env : Env.

Lemma diagram_assignments_keep (updates : list DiagramAssignment)
  (set : Diagram -> Diagram) :
  diagram_assignments updates = Some set ->
  forall d, dg_id (set d) = dg_id d /\ dg_user_id (set d) = dg_user_id d /\
            dg_version (set d) = dg_version d /\ dg_created_at (set d) = dg_created_at d.
Proof.
  unfold diagram_assignments.
  assert (Hgen : forall (acc : option (Diagram -> Diagram)),
            (forall f, acc = Some f ->
               forall d, dg_id (f d) = dg_id d /\ dg_user_id (f d) = dg_user_id d /\
                         dg_version (f d) = dg_version d /\
                         dg_created_at (f d) = dg_created_at d) ->
            forall set',
              fold_left (fun acc a =>
                           match acc, diagram_assignment a with
                           | Some f, Some g => Some (fun d => g (f d))
                           | _, _ => None
                           end) updates acc = Some set' ->
              forall d, dg_id (set' d) = dg_id d /\ dg_user_id (set' d) = dg_user_id d /\
                        dg_version (set' d) = dg_version d /\
                        dg_created_at (set' d) = dg_created_at d).
  { induction updates as [|a l IH]; simpl; intros acc Hacc set' Hfold.
    - apply Hacc. exact Hfold.
    - eapply IH; [|exact Hfold]. intros f Hf.
      destruct acc as [f0|]; [|discriminate].
      destruct (diagram_assignment a) as [g|] eqn:Hg; [|discriminate].
      injection Hf as <-. intros d.
      destruct (Hacc f0 eq_refl d) as (H1 & H2 & H3 & H4).
      assert (Hg' : forall x, dg_id (g x) = dg_id x /\ dg_user_id (g x) = dg_user_id x /\
                              dg_version (g x) = dg_version x /\
                              dg_created_at (g x) = dg_created_at x).
      { destruct a; simpl in Hg.
        - destruct (varchar 255 v); [|discriminate]. injection Hg as <-. repeat split.
        - injection Hg as <-. repeat split.
        - destruct (jsonb_in v); [|discriminate]. injection Hg as <-. repeat split.
        - injection Hg as <-. repeat split.
        - injection Hg as <-. repeat split. }
      destruct (Hg' (f0 d)) as (G1 & G2 & G3 & G4).
      rewrite G1, G2, G3, G4. auto. }
  intros H. apply (Hgen (Some (fun d => d))); [|exact H].
  intros f [= <-] d. repeat split.
Qed.

Lemma update_rows_none (i : string) (set : Diagram -> Diagram) (rows : list Diagram) :
  (forall d, In d rows -> dg_id d <> i) ->
  update_rows env i set rows = Some (rows, []).
Proof.
  induction rows as [|d rows IH]; simpl; intros H; [reflexivity|].
  assert (E : (dg_id d =? i)%string = false) by (apply String.eqb_neq; apply H; auto).
  rewrite E, IH by auto. reflexivity.
Qed.

Lemma map_other_ids (i : string) (row' : Diagram) (rows : list Diagram) :
  (forall d, In d rows -> dg_id d <> i) ->
  map (fun d => if (dg_id d =? i)%string then row' else d) rows = rows.
Proof.
  induction rows as [|d rows IH]; simpl; intros H; [reflexivity|].
  assert (E : (dg_id d =? i)%string = false) by (apply String.eqb_neq; apply H; auto).
  rewrite E, IH by auto. reflexivity.
Qed.

(** An [UPDATE] under a primary key writes one row. *)
Lemma update_rows_one (i : string) (set : Diagram -> Diagram) (rows : list Diagram)
  (row : Diagram) :
  NoDup (map dg_id rows) -> In row rows -> dg_id row = i ->
  update_rows env i set rows =
    match before_update env row (set row) with
    | Some (row', archived) =>
      Some (map (fun d => if (dg_id d =? i)%string then row' else d) rows, archived)
    | None => None
    end.
Proof.
  induction rows as [|d rows IH]; simpl; intros Hnd Hin Hid; [contradiction|].
  inversion Hnd as [|? ? Hnotin Hnd']; subst.
  destruct Hin as [->|Hin].
  - rewrite String.eqb_refl.
    assert (Hothers : forall d, In d rows -> dg_id d <> dg_id row).
    { intros d Hd E. apply Hnotin. rewrite <- E. apply in_map. exact Hd. }
    rewrite (update_rows_none _ _ _ Hothers).
    destruct (before_update env row (set row)) as [[row' archived]|]; [|reflexivity].
    rewrite app_nil_r, (map_other_ids _ _ _ Hothers). reflexivity.
  - assert (E : (dg_id d =? dg_id row)%string = false).
    { apply String.eqb_neq. intros E. apply Hnotin. rewrite E. apply in_map. exact Hin. }
    rewrite E, (IH Hnd' Hin eq_refl).
    destruct (before_update env row (set row)) as [[row' archived]|]; reflexivity.
Qed.

Lemma first_row_in (i : string) (s : Store) (row : Diagram) :
  hd_error (select_diagrams_by_id i s) = Some row ->
  In row (diagrams s) /\ dg_id row = i.
Proof.
  unfold select_diagrams_by_id. intros H.
  destruct (filter _ (diagrams s)) as [|r rest] eqn:Hf; [discriminate|].
  injection H as ->.
  assert (Hin : In row (filter (fun d => (dg_id d =? i)%string) (diagrams s)))
    by (rewrite Hf; left; reflexivity).
  apply filter_In in Hin. destruct Hin as [Hin E]. apply String.eqb_eq in E. auto.
Qed.

Lemma before_update_keeps (old new row' : Diagram) (archived : list DiagramVersion) :
  before_update env old new = Some (row', archived) ->
  dg_id row' = dg_id new /\ dg_user_id row' = dg_user_id new /\
  dg_title row' = dg_title new /\ dg_description row' = dg_description new /\
  dg_data row' = dg_data new /\ dg_is_public row' = dg_is_public new /\
  dg_tags row' = dg_tags new /\ dg_created_at row' = dg_created_at new /\
  dg_updated_at row' = now env.
Proof.
  unfold before_update, create_diagram_version, update_updated_at_column.
  destruct (negb _); [destruct (int4_ok _); [|discriminate]|];
    intros [= <- <-]; repeat split.
Qed.

(** The rows of the table under an id, after one of them was replaced. *)
Lemma select_after_replace (i : string) (row row' : Diagram) (rows : list Diagram) :
  NoDup (map dg_id rows) -> In row rows -> dg_id row = i -> dg_id row' = i ->
  filter (fun d => (dg_id d =? i)%string)
         (map (fun d => if (dg_id d =? i)%string then row' else d) rows) = [row'].
Proof.
  induction rows as [|d rows IH]; simpl; intros Hnd Hin Hid Hid'; [contradiction|].
  inversion Hnd as [|? ? Hnotin Hnd']; subst.
  destruct Hin as [->|Hin].
  - rewrite String.eqb_refl. rewrite Hid', String.eqb_refl.
    assert (Hothers : forall d, In d rows -> dg_id d <> dg_id row).
    { intros d Hd E. apply Hnotin. rewrite <- E. apply in_map. exact Hd. }
    rewrite (map_other_ids _ _ _ Hothers).
    rewrite filter_none; [reflexivity|].
    intros d Hd. apply String.eqb_neq. apply Hothers. exact Hd.
  - assert (E : (dg_id d =? dg_id row)%string = false).
    { apply String.eqb_neq. intros E. apply Hnotin. rewrite E. apply in_map. exact Hin. }
    rewrite E. rewrite E. apply IH; auto.
Qed.

(** [UPDATE diagrams ... RETURNING *] on the one row under an id. *)
Lemma update_diagrams_returning_one (i : string) (updates : list DiagramAssignment)
  (set : Diagram -> Diagram) (s : Store) (row : Diagram) :
  NoDup (map dg_id (diagrams s)) ->
  hd_error (select_diagrams_by_id i s) = Some row ->
  diagram_assignments updates = Some set ->
  update_diagrams_returning env i updates s =
    match before_update env row (set row) with
    | Some (row', archived) =>
      if forallb (version_insertable s) archived
      then (mkStore (core s)
                    (map (fun d => if (dg_id d =? i)%string then row' else d) (diagrams s))
                    (diagram_versions s ++ archived),
            inl [row'])
      else (s, inr (mkResponse 500 (error_body "Internal server error")))
    | None => (s, inr (mkResponse 500 (error_body "Internal server error")))
    end.
Proof.
  intros Hnd Hrow Hset.
  destruct (first_row_in i s row Hrow) as [Hin Hid].
  unfold update_diagrams_returning, dbind, get_store. rewrite Hset.
  rewrite (update_rows_one i set (diagrams s) row Hnd Hin Hid).
  destruct (before_update env row (set row)) as [[row' archived]|] eqn:Hb; [|reflexivity].
  destruct (forallb _ archived); [|reflexivity].
  unfold put_tables, dret. cbn [core].
  rewrite (select_after_replace i row row' (diagrams s) Hnd Hin Hid); [reflexivity|].
  destruct (before_update_keeps _ _ _ _ Hb) as (E & _).
  rewrite E. destruct (diagram_assignments_keep updates set Hset row) as (E' & _).
  rewrite E'. exact Hid.
Qed.

End DiagramUpdates.

Section DiagramUpdateRoute.
Context {P : Postgres}.
Variable env : Env.

Lemma user_exists_select (uid : string) (s : Store) :
  user_exists uid s = true ->
  exists u rest, select_users_by_id uid (db (core s)) = u :: rest.
Proof.
  unfold user_exists, select_users_by_id. intros H.
  apply existsb_exists in H. destruct H as (u & Hin & Hu).
  destruct (filter (fun u0 => (id u0 =? uid)%string) (users (db (core s))))
    as [|u0 rest] eqn:Hf; [|eauto].
  assert (Hin' : In u (filter (fun u0 => (id u0 =? uid)%string) (users (db (core s)))))
    by (apply filter_In; auto).
  rewrite Hf in Hin'. contradiction.
Qed.



(** What an owner's restoring of a version runs to, when the data of the
    version comes back through a parameter. *)
Lemma restore_version_run (user : JwtPayload) (req : DiagramRequest) (s : Store)
  (row : Diagram) (ver : DiagramVersion) (back : Jsonb) :
  let i := str (assoc "id" (params (http req))) in
  let versionId := str (assoc "versionId" (params (http req))) in
  let changed := negb (jsonb_eqb (dg_data row) back) in
  NoDup (map dg_id (diagrams s)) ->
  hd_error (select_diagrams_by_id i s) = Some row ->
  dg_user_id row = userId user ->
  user_exists (userId user) s = true ->
  hd_error (filter (fun v => (dv_id v =? versionId)%string
                             && (dv_diagram_id v =? i)%string)
                   (diagram_versions s)) = Some ver ->
  jsonb_in (jsonb_out (dv_data ver)) = Some back ->
  (changed = true ->
   int4_ok (dg_version row + 1) = true /\
   existsb (fun v => (dv_id v =? new_row_id env)%string) (diagram_versions s) = false) ->
  drun (restore_version env user req) s =
    (mkStore
       (mkWorld
          (insert_audit_log
             (mkAuditLog (new_log_id env) (userId user) "restore_version" "diagram" i
                         (client_ip env)
                         (Some (JObj [("versionId", JStr versionId)])) (now env))
             (db (core s)))
          (trace (core s)))
       (map (fun d => if (dg_id d =? i)%string
                      then restored_row env back
                             (if changed then dg_version row + 1 else dg_version row) row
                      else d) (diagrams s))
       (diagram_versions s ++
        if changed
        then [mkDiagramVersion (new_row_id env) i (dg_version row) (dg_data row)
                               None (now env) (dg_user_id row)]
        else []),
     mkResponse 200
       (diagram_json
          (restored_row env back
             (if changed then dg_version row + 1 else dg_version row) row))).
Proof.
  intros i versionId changed Hnd Hrow Hown Huser Hver Hback Hchanged.
  destruct (first_row_in i s row Hrow) as [Hrow_in Hid].
  destruct (user_exists_select _ _ Huser) as (u & urest & Hsel).
  unfold restore_version. fold i. fold versionId.
  unfold drun, dbind, get_store.
  pose proof Hrow as Hrow'. unfold select_diagrams_by_id in Hrow' |- *.
  destruct (filter (fun d => (dg_id d =? i)%string) (diagrams s)) as [|r rest] eqn:Hf;
    [discriminate|].
  injection Hrow' as ->. rewrite Hown, String.eqb_refl. cbn [negb].
  destruct (filter _ (diagram_versions s)) as [|ver' vrest]; [discriminate|].
  injection Hver as ->. unfold restored_row.
  erewrite (update_diagrams_returning_one env i _ _ s row Hnd Hrow);
    [|unfold diagram_assignments; cbn [fold_left diagram_assignment];
      rewrite Hback; cbn [option_map]; reflexivity].
  unfold before_update, create_diagram_version, update_updated_at_column.
  cbn [dg_data set_dg_data dg_version dg_id dg_user_id].
  fold changed.
  destruct changed eqn:Hch.
  - destruct (Hchanged eq_refl) as [Hrange Hfresh]. rewrite Hrange.
    cbn [forallb]. unfold version_insertable. cbn [dv_id dv_created_by].
    rewrite Hfresh, Hown, Huser. cbn [negb andb].
    unfold lift, audit_details, bind, get_db, put_db. cbn [core diagrams diagram_versions].
    rewrite Hsel. cbn [db trace].
    unfold dret. rewrite <- ?Hid, <- ?Hown. destruct row; reflexivity.
  - cbn [forallb].
    unfold lift, audit_details, bind, get_db, put_db. cbn [core diagrams diagram_versions].
    rewrite Hsel. cbn [db trace].
    unfold dret. rewrite <- ?Hid, <- ?Hown. destruct row; reflexivity.
Qed.

(** X23: restoring a version.  The data of the version goes through a result
    row and a parameter on its way back into the diagram.  When the database
    does not take it back, the owner's request is answered with 500 and
    nothing is written.  When it does, the answer is 200 with the row as it
    now is, the data that came back in it; the data it replaces is archived
    under the version number the diagram had, and the number goes up by one,
    unless the two are equal. *)
Theorem restore_version_brings_back (user : JwtPayload) (req : DiagramRequest)
  (s : Store) (row : Diagram) (ver : DiagramVersion) :
  let i := str (assoc "id" (params (http req))) in
  let versionId := str (assoc "versionId" (params (http req))) in
  let out := drun (restore_version env user req) s in
  NoDup (map dg_id (diagrams s)) ->
  hd_error (select_diagrams_by_id i s) = Some row ->
  dg_user_id row = userId user ->
  user_exists (userId user) s = true ->
  hd_error (filter (fun v => (dv_id v =? versionId)%string
                             && (dv_diagram_id v =? i)%string)
                   (diagram_versions s)) = Some ver ->
  match jsonb_in (jsonb_out (dv_data ver)) with
  | None => out = (s, mkResponse 500 (error_body "Internal server error"))
  | Some back =>
    let changed := negb (jsonb_eqb (dg_data row) back) in
    (changed = true ->
     int4_ok (dg_version row + 1) = true /\
     existsb (fun v => (dv_id v =? new_row_id env)%string) (diagram_versions s) = false) ->
    let row' := restored_row env back
                  (if changed then dg_version row + 1 else dg_version row) row in
    snd out = mkResponse 200 (diagram_json row') /\
    diagrams (fst out)
      = map (fun d => if (dg_id d =? i)%string then row' else d) (diagrams s) /\
    diagram_versions (fst out)
      = (diagram_versions s ++
         if changed
         then [mkDiagramVersion (new_row_id env) i (dg_version row) (dg_data row)
                                None (now env) (dg_user_id row)]
         else [])%list
  end.
Proof.
  intros i versionId out Hnd Hrow Hown Huser Hver.
  destruct (jsonb_in (jsonb_out (dv_data ver))) as [back|] eqn:Hback.
  - intros changed Hchanged row'. subst out row'.
    rewrite (restore_version_run user req s row ver back
               Hnd Hrow Hown Huser Hver Hback Hchanged).
    cbn [fst snd diagrams diagram_versions]. repeat split.
  - subst out. unfold restore_version. fold i. fold versionId.
    unfold drun, dbind, get_store.
    unfold select_diagrams_by_id in Hrow |- *.
    destruct (filter (fun d => (dg_id d =? i)%string) (diagrams s)) as [|r rest];
      [discriminate|].
    injection Hrow as ->. rewrite Hown, String.eqb_refl. cbn [negb].
    destruct (filter _ (diagram_versions s)) as [|ver' vrest]; [discriminate|].
    injection Hver as ->.
    unfold update_diagrams_returning, dbind, get_store, diagram_assignments.
    cbn [fold_left diagram_assignment]. rewrite Hback. reflexivity.
Qed.

End DiagramUpdateRoute.

Section DiagramRoundTrip.
Context {P : Postgres}.

Lemma map_replace_ids (i : string) (row' : Diagram) (rows : list Diagram) :
  dg_id row' = i ->
  map dg_id (map (fun d => if (dg_id d =? i)%string then row' else d) rows)
  = map dg_id rows.
Proof.
  intros Hid. rewrite map_map. apply map_ext. intros d.
  destruct (String.eqb_spec (dg_id d) i) as [E|E]; congruence.
Qed.

Lemma existsb_false_filter {A : Type} (f g : A -> bool) (l : list A) :
  existsb f l = false -> filter (fun x => f x && g x) l = [].
Proof.
  intros H. apply filter_none. intros x Hx.
  destruct (f x) eqn:E; [|reflexivity].
  exfalso. assert (existsb f l = true) by (apply existsb_exists; eauto). congruence.
Qed.


End DiagramRoundTrip.


(** ** Diagrams: creating, then reading *)

Section DiagramCreate.
Context {P : Postgres}.
Variable env : Env.

(** What a creation answered with 201 went through, and what it left. *)
Lemma create_diagram_created (user : JwtPayload) (req : DiagramRequest) (s : Store) :
  status (snd (drun (create_diagram env user req) s)) = 201 ->
  exists t data,
    varchar 255 (str (body_field "title" (http req))) = Some t /\
    match body_diagram_data req with Some j => jsonb_in j | None => None end = Some data /\
    existsb (fun d => (dg_id d =? new_row_id env)%string) (diagrams s) = false /\
    user_exists (userId user) s = true /\
    let row := mkDiagram (new_row_id env) (userId user) t
                 (body_field "description" (http req)) data
                 (match body_is_public req with Some b => b | None => false end)
                 (match body_tags req with Some ta => ta | None => [] end)
                 1 (now env) (now env) in
    snd (drun (create_diagram env user req) s) = mkResponse 201 (diagram_json row) /\
    diagrams (fst (drun (create_diagram env user req) s)) = (diagrams s ++ [row])%list /\
    diagram_versions (fst (drun (create_diagram env user req) s)) = diagram_versions s /\
    users (db (core (fst (drun (create_diagram env user req) s))))
      = users (db (core s)).
Proof.
  unfold create_diagram, insert_diagram.
  destruct (negb (truthy (body_field "title" (http req)))
            || negb (json_truthy (body_diagram_data req))); [discriminate|].
  unfold drun, dbind, get_store.
  destruct (varchar 255 (str (body_field "title" (http req)))) as [t|];
    [|discriminate].
  destruct (match body_diagram_data req with Some j => jsonb_in j | None => None end)
    as [data|]; [|discriminate].
  cbn [dg_id].
  destruct (existsb _ (diagrams s)) eqn:Hpk; [discriminate|].
  destruct (user_exists (userId user) s) eqn:Hfk; [|discriminate].
  cbn [negb orb]. unfold put_tables, dret, lift, audit_details, bind, get_db, put_db.
  cbn [core diagrams diagram_versions].
  destruct (user_exists_select _ _ Hfk) as (u & urest & Hsel). rewrite Hsel.
  intros _. exists t, data. cbn. repeat split.
Qed.

(** X25: a diagram that has just been created is read back.  After a
    creation answered with 201, [GET /:id] under the id of the response
    answers its owner, and everybody if it was created public, with 200 and
    the row of that response; it answers everybody else with 404. *)
Theorem create_then_get (user reader : JwtPayload) (req get_req : DiagramRequest)
  (s : Store) :
  status (snd (drun (create_diagram env user req) s)) = 201 ->
  str (assoc "id" (params (http get_req))) = new_row_id env ->
  field "id" (body (snd (drun (create_diagram env user req) s)))
    = Some (JStr (new_row_id env)) /\
  snd (drun (get_diagram reader get_req) (fst (drun (create_diagram env user req) s)))
  = if (userId user =? userId reader)%string
       || match body_is_public req with Some b => b | None => false end
    then mkResponse 200 (body (snd (drun (create_diagram env user req) s)))
    else mkResponse 404 (error_body "Diagram not found").
Proof.
  intros H201 Hid.
  destruct (create_diagram_created user req s H201)
    as (t & data & _ & _ & Hpk & _ & Hresp & Hds & _).
  cbv zeta in Hresp, Hds. rewrite Hresp. split; [reflexivity|].
  revert Hds. generalize (fst (drun (create_diagram env user req) s)). intros s1 Hds.
  unfold get_diagram, drun, dbind, get_store, select_readable.
  rewrite Hid, Hds, filter_app.
  rewrite (existsb_false_filter _ _ _ Hpk).
  cbn [filter app dg_id dg_user_id dg_is_public]. rewrite String.eqb_refl. cbn [andb].
  destruct ((userId user =? userId reader)%string
            || match body_is_public req with Some b => b | None => false end);
    reflexivity.
Qed.

End DiagramCreate.

(** ** Diagrams: the version number counts the archive *)

Lemma NoDup_map_filter {Row Key : Type} (key : Row -> Key) (keep : Row -> bool)
  (rows : list Row) (Hkeys : NoDup (map key rows)) :
  NoDup (map key (filter keep rows)).
Proof.
  induction rows as [|a l IH]; simpl; [constructor|].
  inversion Hkeys as [|? ? Hnotin Hnd']; subst.
  destruct (keep a); simpl; [|auto].
  constructor; [|auto].
  intros Hin. apply Hnotin. apply in_map_iff in Hin. destruct Hin as (v & Hv & Hin).
  apply filter_In in Hin. rewrite <- Hv. apply in_map. tauto.
Qed.

Section VersionChain.
Context {P : Postgres}.

Lemma chain_tables (w w' : World) (ds : list Diagram) (vs : list DiagramVersion) :
  version_chain (mkStore w ds vs) -> version_chain (mkStore w' ds vs).
Proof. intros H. exact H. Qed.

Lemma chain_eta (s : Store) :
  version_chain s -> version_chain (mkStore (core s) (diagrams s) (diagram_versions s)).
Proof. intros H. exact H. Qed.

Lemma chain_insert (s : Store) (w : World) (row : Diagram) :
  version_chain s ->
  existsb (fun d => (dg_id d =? dg_id row)%string) (diagrams s) = false ->
  dg_version row = 1 ->
  version_chain (mkStore w (diagrams s ++ [row]) (diagram_versions s)).
Proof.
  intros (Hnd & Hfk & Hch) Hpk Hv.
  assert (Hfresh : forall d, In d (diagrams s) -> dg_id d <> dg_id row).
  { intros d Hd E.
    assert (existsb (fun d => (dg_id d =? dg_id row)%string) (diagrams s) = true).
    { apply existsb_exists. exists d. split; [exact Hd|]. apply String.eqb_eq. exact E. }
    congruence. }
  assert (Hempty : filter (fun v => (dv_diagram_id v =? dg_id row)%string)
                          (diagram_versions s) = []).
  { apply filter_none. intros v Hv'. apply String.eqb_neq. intros E.
    rewrite Forall_forall in Hfk. specialize (Hfk v Hv').
    apply existsb_exists in Hfk. destruct Hfk as (d & Hd & Hd').
    apply String.eqb_eq in Hd'. apply (Hfresh d Hd). congruence. }
  unfold version_chain, archive_of. cbn [diagrams diagram_versions].
  split; [|split].
  - rewrite map_app. cbn [map]. apply NoDup_snoc; [exact Hnd|].
    intros Hin. apply in_map_iff in Hin. destruct Hin as (d & E & Hd).
    apply (Hfresh d Hd E).
  - eapply Forall_impl; [|exact Hfk]. intros v Hv'. cbv beta in *.
    rewrite existsb_app, Hv'. reflexivity.
  - apply Forall_app. split; [exact Hch|].
    constructor; [|constructor]. rewrite Hempty. cbn.
    split; [constructor|]. split; [constructor|]. lia.
Qed.

Lemma chain_delete (s : Store) (w : World) (i : string) :
  version_chain s ->
  version_chain
    (mkStore w (filter (fun d => negb (dg_id d =? i)%string) (diagrams s))
             (filter (fun v => negb (dv_diagram_id v =? i)%string) (diagram_versions s))).
Proof.
  intros (Hnd & Hfk & Hch).
  unfold version_chain, archive_of. cbn [diagrams diagram_versions].
  split; [|split].
  - apply NoDup_map_filter. exact Hnd.
  - rewrite Forall_forall in *. intros v Hv. apply filter_In in Hv.
    destruct Hv as [Hv Hne]. specialize (Hfk v Hv).
    apply existsb_exists in Hfk. destruct Hfk as (d & Hd & Hd').
    apply existsb_exists. exists d. split; [|exact Hd'].
    apply filter_In. split; [exact Hd|].
    apply String.eqb_eq in Hd'. rewrite Hd'. exact Hne.
  - rewrite Forall_forall in *. intros d Hd. apply filter_In in Hd.
    destruct Hd as [Hd Hne].
    assert (Hsame : filter (fun v => (dv_diagram_id v =? dg_id d)%string)
                      (filter (fun v => negb (dv_diagram_id v =? i)%string)
                              (diagram_versions s))
                    = filter (fun v => (dv_diagram_id v =? dg_id d)%string)
                             (diagram_versions s)).
    { rewrite filter_filter. apply filter_ext_in. intros v _.
      destruct (String.eqb_spec (dv_diagram_id v) (dg_id d)) as [E|E]; [|reflexivity].
      rewrite E, Hne. reflexivity. }
    rewrite Hsame. apply (Hch d Hd).
Qed.

End VersionChain.

Section VersionChainUpdate.
Context {P : Postgres}.

Lemma chain_replace (s : Store) (w : World) (i : string) (row row' : Diagram)
  (archived : list DiagramVersion) :
  version_chain s ->
  In row (diagrams s) -> dg_id row = i -> dg_id row' = i ->
  (archived = [] /\ dg_version row' = dg_version row) \/
  (exists a, archived = [a] /\ dv_diagram_id a = i /\ dv_version a = dg_version row /\
             dg_version row' = dg_version row + 1) ->
  version_chain
    (mkStore w (map (fun d => if (dg_id d =? i)%string then row' else d) (diagrams s))
             (diagram_versions s ++ archived)).
Proof.
  intros (Hnd & Hfk & Hch) Hin Hid Hid' Harch.
  assert (Hids : forall d, dg_id (if (dg_id d =? i)%string then row' else d) = dg_id d).
  { intros d. destruct (String.eqb_spec (dg_id d) i); congruence. }
  assert (Hex : forall x,
            existsb (fun d => (dg_id d =? x)%string)
                    (map (fun d => if (dg_id d =? i)%string then row' else d) (diagrams s))
            = existsb (fun d => (dg_id d =? x)%string) (diagrams s)).
  { intros x. clear -Hids. induction (diagrams s) as [|d l IH]; [reflexivity|].
    cbn [map existsb]. rewrite Hids, IH. reflexivity. }
  unfold version_chain, archive_of. cbn [diagrams diagram_versions].
  split; [|split].
  - rewrite (map_replace_ids i row' _ Hid'). exact Hnd.
  - apply Forall_app. split.
    + eapply Forall_impl; [|exact Hfk]. intros v Hv. cbv beta in *.
      rewrite Hex. exact Hv.
    + destruct Harch as [[-> _]|(a & -> & Ha & _)]; [constructor|].
      constructor; [|constructor]. rewrite Hex.
      apply existsb_exists. exists row. split; [exact Hin|].
      apply String.eqb_eq. congruence.
  - rewrite Forall_forall in *. intros d' Hd'.
    apply in_map_iff in Hd'. destruct Hd' as (d & <- & Hd).
    specialize (Hch d Hd). unfold archive_of in Hch.
    destruct Hch as (Hb & Hvs & Hcount).
    rewrite Hids, filter_app.
    destruct (String.eqb_spec (dg_id d) i) as [E|E].
    + assert (d = row).
      { apply (NoDup_map_injective dg_id (diagrams s)); auto. congruence. }
      subst d.
      destruct Harch as [[-> Hv]|(a & -> & Ha & Hav & Hv)].
      * cbn [filter]. rewrite app_nil_r, Hv. auto.
      * cbn [filter]. rewrite Ha, <- Hid, String.eqb_refl.
        split; [|split].
        -- apply Forall_app. split.
           ++ eapply Forall_impl; [|exact Hb]. intros v Hvb. cbv beta in *. lia.
           ++ constructor; [|constructor]. lia.
        -- rewrite map_app. cbn [map]. apply NoDup_snoc; [exact Hvs|].
           intros Hin'. apply in_map_iff in Hin'. destruct Hin' as (v & Ev & Hv').
           rewrite Forall_forall in Hb. specialize (Hb v Hv'). lia.
        -- rewrite length_app. cbn [List.length]. lia.
    + assert (Hnone : filter (fun v => (dv_diagram_id v =? dg_id d)%string) archived = []).
      { destruct Harch as [[-> _]|(a & -> & Ha & _)]; [reflexivity|].
        cbn [filter]. rewrite Ha.
        destruct (String.eqb_spec i (dg_id d)); [congruence|reflexivity]. }
      rewrite Hnone, app_nil_r. auto.
Qed.

Lemma chain_update (env : Env) (i : string) (updates : list DiagramAssignment)
  (s : Store) :
  version_chain s ->
  version_chain (fst (update_diagrams_returning env i updates s)).
Proof.
  intros Hchain. pose proof Hchain as (Hnd & _).
  unfold update_diagrams_returning, dbind, get_store.
  destruct (diagram_assignments updates) as [set|] eqn:Hset; [|exact Hchain].
  destruct (select_diagrams_by_id i s) as [|row rest] eqn:Hsel.
  - rewrite update_rows_none.
    + cbn [forallb]. unfold put_tables, dret. cbn [fst]. rewrite app_nil_r.
      exact Hchain.
    + intros d Hd E. unfold select_diagrams_by_id in Hsel.
      assert (Hin : In d (filter (fun d => (dg_id d =? i)%string) (diagrams s))).
      { apply filter_In. split; [exact Hd|]. apply String.eqb_eq. exact E. }
      rewrite Hsel in Hin. contradiction.
  - assert (Hrow : hd_error (select_diagrams_by_id i s) = Some row)
      by (rewrite Hsel; reflexivity).
    destruct (first_row_in i s row Hrow) as [Hin Hid].
    rewrite (update_rows_one env i set (diagrams s) row Hnd Hin Hid).
    destruct (before_update env row (set row)) as [[row' archived]|] eqn:Hb;
      [|exact Hchain].
    destruct (forallb _ archived); [|exact Hchain].
    unfold put_tables, dret. cbn [fst].
    destruct (diagram_assignments_keep updates set Hset row) as (K1 & _ & K3 & _).
    apply (chain_replace s (core s) i row row' archived Hchain Hin Hid).
    + destruct (before_update_keeps env _ _ _ _ Hb) as (E & _). congruence.
    + revert Hb. unfold before_update, create_diagram_version, update_updated_at_column.
      destruct (negb _).
      * destruct (int4_ok _); [|discriminate]. intros [= <- <-].
        right. eexists. split; [reflexivity|]. cbn. repeat split; congruence.
      * intros [= <- <-]. left. split; [reflexivity|]. cbn. exact K3.
Qed.

End VersionChainUpdate.

Section VersionChainRoutes.
Context {L : Libs} {P : Postgres}.
Variable env : Env.

Lemma drun_fst (h : DHandler Response) (s : Store) : fst (drun h s) = fst (h s).
Proof. unfold drun. destruct (h s) as [s' [r|r]]; reflexivity. Qed.

Lemma chain_lift {A : Type} (h : Handler A) (s : Store) :
  version_chain s -> version_chain (fst (lift h s)).
Proof.
  intros H. unfold lift. destruct (h (core s)) as [w' r]. exact H.
Qed.

(** A statement on the diagram tables, then the audit row, then the answer. *)
Lemma chain_then_audit {A : Type} (m : DHandler A) (h : A -> Handler unit)
  (k : A -> DHandler Response) (s : Store) :
  version_chain (fst (m s)) ->
  (forall a s', fst (k a s') = s') ->
  version_chain (fst (dbind m (fun a => dbind (lift (h a)) (fun _ => k a)) s)).
Proof.
  intros Hm Hk. unfold dbind.
  destruct (m s) as [s1 [a|r]]; [|exact Hm]. cbn [fst] in Hm.
  pose proof (chain_lift (h a) s1 Hm) as Hl.
  destruct (lift (h a) s1) as [s2 [[]|r]]; [|exact Hl].
  rewrite Hk. exact Hl.
Qed.

(** X26: the version number of a diagram counts its archive, and every
    route keeps it so.  If diagram ids are unique, every archived version
    belongs to a diagram and every diagram at version [n] has [n - 1]
    archived versions under different numbers from 1 to [n - 1], then the
    same holds after any request to any of the diagram routes, whatever the
    answer. *)
Theorem diagram_routes_keep_version_chain (r : DiagramRoute) (user : JwtPayload)
  (req : DiagramRequest) (s : Store) :
  version_chain s ->
  version_chain (fst (drun (diagram_route env r user req) s)).
Proof.
  intros Hchain. rewrite drun_fst. destruct r; cbn [diagram_route].
  - unfold get_diagram, dbind, get_store.
    destruct (select_readable _ _ s); exact Hchain.
  - unfold create_diagram.
    destruct (negb _ || negb _); [exact Hchain|].
    apply chain_then_audit; [|reflexivity].
    unfold insert_diagram, dbind, get_store.
    destruct (varchar 255 _) as [t|]; [|exact Hchain].
    destruct (match body_diagram_data req with Some j => jsonb_in j | None => None end)
      as [data|]; [|exact Hchain].
    destruct (existsb _ (diagrams s)) eqn:Hpk; [exact Hchain|].
    destruct (negb (user_exists _ s)); [exact Hchain|].
    cbn [orb]. unfold put_tables, dret. cbn [fst].
    apply chain_insert; [exact Hchain|exact Hpk|reflexivity].
  - unfold update_diagram. unfold dbind at 1. unfold get_store.
    destruct (select_diagrams_by_id _ s) as [|checked rest]; [exact Hchain|].
    destruct (negb _); [exact Hchain|].
    destruct (_ =? 0)%nat; [exact Hchain|].
    apply chain_then_audit.
    + apply chain_update. exact Hchain.
    + intros [|row rows] s'; reflexivity.
  - unfold delete_diagram. unfold dbind at 1. unfold get_store.
    destruct (read_uuid _ _) as [c|]; [|exact Hchain].
    destruct (select_diagrams_by_id _ s) as [|checked rest]; [exact Hchain|].
    destruct (negb _); [exact Hchain|].
    apply chain_then_audit; [|reflexivity].
    unfold put_tables. cbn [fst]. apply chain_delete. exact Hchain.
  - unfold get_versions, dbind, get_store.
    destruct (select_readable _ _ s); exact Hchain.
  - unfold restore_version. unfold dbind at 1. unfold get_store.
    destruct (select_diagrams_by_id _ s) as [|checked rest]; [exact Hchain|].
    destruct (negb _); [exact Hchain|].
    destruct (filter _ (diagram_versions s)) as [|version vrest]; [exact Hchain|].
    apply chain_then_audit.
    + apply chain_update. exact Hchain.
    + intros [|row rows] s'; reflexivity.
Qed.

End VersionChainRoutes.

(** ** Diagrams: the listing of versions *)

Lemma insert_version_desc_perm {P : Postgres} (v : DiagramVersion)
  (l : list DiagramVersion) :
  Permutation (insert_version_desc v l) (v :: l).
Proof.
  induction l as [|h t IH]; simpl; [reflexivity|].
  destruct (dv_version h <? dv_version v); [reflexivity|].
  rewrite IH. apply perm_swap.
Qed.

Lemma order_by_version_desc_perm {P : Postgres} (l : list DiagramVersion) :
  Permutation (order_by_version_desc l) l.
Proof.
  unfold order_by_version_desc.
  induction l as [|h t IH]; simpl; [reflexivity|].
  rewrite insert_version_desc_perm. constructor. exact IH.
Qed.

Lemma insert_version_desc_sorted {P : Postgres} (v : DiagramVersion)
  (l : list DiagramVersion) :
  StronglySorted (fun a b => dv_version b <= dv_version a) l ->
  StronglySorted (fun a b => dv_version b <= dv_version a) (insert_version_desc v l).
Proof.
  induction l as [|h t IH]; simpl; intros Hs.
  - constructor; constructor.
  - inversion Hs as [|? ? Ht Hh]; subst.
    destruct (Z.ltb_spec (dv_version h) (dv_version v)) as [Hlt|Hge].
    + constructor; [exact Hs|].
      constructor; [lia|].
      eapply Forall_impl; [|exact Hh]. intros b Hb. cbv beta in *. lia.
    + constructor; [apply IH; exact Ht|].
      apply (Permutation_Forall (Permutation_sym (insert_version_desc_perm v t))).
      constructor; [lia|exact Hh].
Qed.

Lemma order_by_version_desc_sorted {P : Postgres} (l : list DiagramVersion) :
  StronglySorted (fun a b => dv_version b <= dv_version a) (order_by_version_desc l).
Proof.
  unfold order_by_version_desc.
  induction l as [|h t IH]; simpl; [constructor|].
  apply insert_version_desc_sorted, IH.
Qed.

Lemma countdown_S (n : nat) : countdown (S n) = Z.of_nat (S n) :: countdown n.
Proof.
  unfold countdown. rewrite seq_S, rev_app_distr. reflexivity.
Qed.

Lemma strict_desc_length (l : list Z) (m : Z) :
  StronglySorted (fun a b => b < a) l ->
  Forall (fun x => 1 <= x <= m) l ->
  Z.of_nat (List.length l) <= Z.max 0 m.
Proof.
  revert m. induction l as [|h t IH]; intros m Hs Hb; [simpl; lia|].
  inversion Hs as [|? ? Ht Hh]; subst. inversion Hb as [|? ? Hhb Htb]; subst.
  assert (Ht' : Forall (fun x => 1 <= x <= h - 1) t).
  { rewrite Forall_forall in *. intros x Hx.
    specialize (Hh x Hx). specialize (Htb x Hx). lia. }
  specialize (IH (h - 1) Ht Ht'). cbn [List.length]. lia.
Qed.

Lemma strict_desc_full (l : list Z) :
  StronglySorted (fun a b => b < a) l ->
  Forall (fun x => 1 <= x <= Z.of_nat (List.length l)) l ->
  l = countdown (List.length l).
Proof.
  induction l as [|h t IH]; intros Hs Hb; [reflexivity|].
  inversion Hs as [|? ? Ht Hh]; subst. inversion Hb as [|? ? Hhb Htb]; subst.
  cbn [List.length] in *.
  assert (Ht' : Forall (fun x => 1 <= x <= h - 1) t).
  { rewrite Forall_forall in *. intros x Hx.
    specialize (Hh x Hx). specialize (Htb x Hx). lia. }
  pose proof (strict_desc_length t (h - 1) Ht Ht') as Hlen.
  assert (Hhn : h = Z.of_nat (S (List.length t))) by lia.
  rewrite countdown_S, <- Hhn. f_equal. apply IH; [exact Ht|].
  eapply Forall_impl; [|exact Ht']. intros x Hx. cbv beta in *. lia.
Qed.

Lemma desc_strict (l : list Z) :
  StronglySorted (fun a b => b <= a) l -> NoDup l ->
  StronglySorted (fun a b => b < a) l.
Proof.
  induction l as [|h t IH]; intros Hs Hnd; [constructor|].
  inversion Hs as [|? ? Ht Hh]; subst. inversion Hnd as [|? ? Hnotin Hnd']; subst.
  constructor; [auto|].
  rewrite Forall_forall in *. intros x Hx. specialize (Hh x Hx).
  assert (x <> h) by (intros ->; contradiction). lia.
Qed.

Lemma StronglySorted_map {A B : Type} (f : A -> B) (R : B -> B -> Prop) (l : list A) :
  StronglySorted (fun a b => R (f a) (f b)) l -> StronglySorted R (map f l).
Proof.
  induction 1 as [|a l Hl IH Ha]; simpl; constructor; [exact IH|].
  rewrite Forall_map. exact Ha.
Qed.

Section VersionListing.
Context {P : Postgres}.

(** X27: the listing of versions of a diagram that the caller may read.  On
    tables where the version numbers count the archives, [GET /:id/versions]
    of a diagram at version [n] answers with 200 and [n - 1] rows, all of
    this diagram, under the numbers [n - 1], ..., 1 in this order. *)
Theorem get_versions_counts_down (user : JwtPayload) (req : DiagramRequest)
  (s : Store) (d : Diagram) :
  let i := str (assoc "id" (params (http req))) in
  version_chain s ->
  hd_error (select_readable i (userId user) s) = Some d ->
  exists rows,
    drun (get_versions user req) s = (s, mkResponse 200 (JArr (map version_json rows))) /\
    Permutation rows (archive_of d s) /\
    map dv_version rows = countdown (Z.to_nat (dg_version d - 1)).
Proof.
  intros i (Hnd & Hfk & Hch) Hd.
  assert (Hin : In d (diagrams s) /\ dg_id d = i).
  { unfold select_readable in Hd.
    destruct (filter _ (diagrams s)) as [|r rest] eqn:Hf; [discriminate|].
    injection Hd as ->.
    assert (Hin : In d (filter (fun d => (dg_id d =? i)%string
                                         && ((dg_user_id d =? userId user)%string
                                             || dg_is_public d)) (diagrams s)))
      by (rewrite Hf; left; reflexivity).
    apply filter_In in Hin. destruct Hin as [Hin E].
    apply andb_true_iff in E. destruct E as [E _]. apply String.eqb_eq in E. auto. }
  destruct Hin as [Hin Hid].
  rewrite Forall_forall in Hch. destruct (Hch d Hin) as (Hb & Hvs & Hcount).
  exists (order_by_version_desc (archive_of d s)).
  pose proof (order_by_version_desc_perm (archive_of d s)) as Hperm.
  split; [|split].
  - unfold get_versions, drun, dbind, get_store. fold i.
    destruct (select_readable i (userId user) s); [discriminate|].
    unfold archive_of. rewrite Hid. reflexivity.
  - exact Hperm.
  - assert (Hlen : List.length (map dv_version (order_by_version_desc (archive_of d s)))
                   = Z.to_nat (dg_version d - 1)).
    { rewrite length_map, (Permutation_length Hperm). lia. }
    rewrite <- Hlen. apply strict_desc_full.
    + apply desc_strict.
      * apply StronglySorted_map with (R := fun a b => b <= a).
        apply order_by_version_desc_sorted.
      * apply (Permutation_NoDup (Permutation_sym (Permutation_map dv_version Hperm))).
        exact Hvs.
    + rewrite Hlen. rewrite Forall_map.
      apply (Permutation_Forall (Permutation_sym Hperm)).
      eapply Forall_impl; [|exact Hb]. intros v Hv. cbv beta in *. lia.
Qed.

End VersionListing.

(** ** Diagrams: deleting *)

Section DiagramDelete.
Context {L : Libs} {P : Postgres}.
Variable env : Env.

Lemma delete_diagram_done (user : JwtPayload) (req : DiagramRequest) (s : Store) :
  let i := str (assoc "id" (params (http req))) in
  status (snd (drun (delete_diagram env user req) s)) = 200 ->
  exists c,
    read_uuid (map dg_id (diagrams s)) i = Some c /\
    (exists row, hd_error (select_diagrams_by_id c s) = Some row /\
                 dg_user_id row = userId user) /\
    diagrams (fst (drun (delete_diagram env user req) s))
      = filter (fun d => negb (dg_id d =? c)%string) (diagrams s) /\
    diagram_versions (fst (drun (delete_diagram env user req) s))
      = filter (fun v => negb (dv_diagram_id v =? c)%string) (diagram_versions s).
Proof.
  intros i. unfold delete_diagram. fold i.
  unfold drun, dbind, get_store.
  destruct (read_uuid (map dg_id (diagrams s)) i) as [c|]; [|discriminate].
  destruct (select_diagrams_by_id c s) as [|row rest] eqn:Hrows; [discriminate|].
  destruct (String.eqb_spec (dg_user_id row) (userId user)) as [Ho|Ho];
    [|discriminate].
  cbn [negb]. unfold put_tables, lift, audit_details, bind, get_db, put_db, dret.
  cbn [core diagrams diagram_versions].
  destruct (select_users_by_id (userId user) (db (core s))); [discriminate|].
  intros _. exists c. rewrite Hrows. cbn. split; [reflexivity|].
  split; [exists row; split; [reflexivity|exact Ho]|]. split; reflexivity.
Qed.

(** No row is under a text that is the id of none. *)
Lemma nothing_under_unknown_text (i : string) (s : Store) :
  existsb (String.eqb i) (map dg_id (diagrams s)) = false ->
  forall f : Diagram -> bool,
    filter (fun d => (dg_id d =? i)%string && f d) (diagrams s) = [].
Proof.
  intros Hnot f. apply filter_none. intros d Hd.
  destruct (String.eqb_spec (dg_id d) i) as [E|E]; [|reflexivity].
  exfalso. assert (Hin : existsb (String.eqb i) (map dg_id (diagrams s)) = true).
  { apply existsb_exists. exists (dg_id d). split; [apply (in_map dg_id); exact Hd|].
    rewrite E. apply String.eqb_refl. }
  rewrite Hin in Hnot. discriminate.
Qed.

(** X28: a deleted diagram is gone with its versions, and nothing else is.
    [DELETE /:id] reads the id of the request as a [UUID], the type of the
    column: [c] below is the id the database compares, whatever spelling the
    request used for it.  After an answer of 200, which only the owner of
    the diagram under [c] gets, no diagram and no archived version is left
    under [c]; reading the diagram or its versions, under [c] or under the
    text that the request carried, is answered with 404 for every caller;
    and every diagram under another id is still there with the archive it
    had. *)
Theorem delete_diagram_cascades (user reader : JwtPayload)
  (req read_req : DiagramRequest) (s : Store) :
  let i := str (assoc "id" (params (http req))) in
  let s' := fst (drun (delete_diagram env user req) s) in
  status (snd (drun (delete_diagram env user req) s)) = 200 ->
  exists c,
    read_uuid (map dg_id (diagrams s)) i = Some c /\
    (exists row, hd_error (select_diagrams_by_id c s) = Some row /\
                 dg_user_id row = userId user) /\
    select_diagrams_by_id c s' = [] /\
    filter (fun v => (dv_diagram_id v =? c)%string) (diagram_versions s') = [] /\
    (str (assoc "id" (params (http read_req))) = c \/
     str (assoc "id" (params (http read_req))) = i ->
     snd (drun (get_diagram reader read_req) s')
       = mkResponse 404 (error_body "Diagram not found") /\
     snd (drun (get_versions reader read_req) s')
       = mkResponse 404 (error_body "Diagram not found")) /\
    (forall d, dg_id d <> c ->
       (In d (diagrams s') <-> In d (diagrams s)) /\ archive_of d s' = archive_of d s).
Proof.
  intros i s' H200.
  destruct (delete_diagram_done user req s H200) as (c & Hc & Hrow & Hds & Hvs).
  fold i in Hc. fold s' in Hds, Hvs. exists c.
  assert (Hgone : forall f : Diagram -> bool,
            filter (fun d => (dg_id d =? c)%string && f d) (diagrams s') = []).
  { intros f. rewrite Hds, filter_filter. apply filter_none. intros d _.
    destruct (dg_id d =? c)%string; [apply andb_false_r|reflexivity]. }
  assert (Hsent : forall f : Diagram -> bool,
            filter (fun d => (dg_id d =? i)%string && f d) (diagrams s') = []).
  { unfold read_uuid in Hc.
    destruct (existsb (String.eqb i) (map dg_id (diagrams s))) eqn:Hstored.
    - injection Hc as <-. exact Hgone.
    - intros f. rewrite Hds, filter_filter.
      rewrite <- (nothing_under_unknown_text i s Hstored
                    (fun d => f d && negb (dg_id d =? c)%string)).
      apply filter_ext_in. intros d _. rewrite andb_assoc. reflexivity. }
  split; [exact Hc|]. split; [exact Hrow|]. split; [|split; [|split]].
  - unfold select_diagrams_by_id. rewrite Hds, filter_filter.
    apply filter_none. intros d _. destruct (dg_id d =? c)%string; reflexivity.
  - rewrite Hvs, filter_filter.
    apply filter_none. intros v _. destruct (dv_diagram_id v =? c)%string; reflexivity.
  - intros [Hread|Hread];
      (split;
       [unfold get_diagram|unfold get_versions];
       unfold drun, dbind, get_store, select_readable;
       rewrite Hread, ?Hgone, ?Hsent; reflexivity).
  - intros d Hne. split.
    + rewrite Hds, filter_In. apply String.eqb_neq in Hne. rewrite Hne. tauto.
    + unfold archive_of. rewrite Hvs, filter_filter. apply filter_ext_in.
      intros v _.
      destruct (String.eqb_spec (dv_diagram_id v) (dg_id d)) as [E|E]; [|reflexivity].
      rewrite E. apply String.eqb_neq in Hne. rewrite Hne. reflexivity.
Qed.

End DiagramDelete.

(** ** The diagram routes on an example *)


Lemma restore_version_brings_back_witness :
  snd (drun (restore_version Demo.env0 (Demo.payload_of Demo.alice)
               (DemoDiagrams.on_version "d-1" "v-1")) DemoDiagrams.store0)
  = mkResponse 200
      (diagram_json
         (mkDiagram (P := DemoDiagrams.pg) "d-1" "u-alice" "Network" None "{nodes:1}"
                    false ["infra"] 3 1650000000 1700000000)) /\
  diagrams (fst (drun (restore_version Demo.env0 (Demo.payload_of Demo.alice)
                         (DemoDiagrams.on_version "d-1" "v-1")) DemoDiagrams.store0))
  = [mkDiagram (P := DemoDiagrams.pg) "d-1" "u-alice" "Network" None "{nodes:1}"
               false ["infra"] 3 1650000000 1700000000;
     DemoDiagrams.d2] /\
  diagram_versions (fst (drun (restore_version Demo.env0 (Demo.payload_of Demo.alice)
                                 (DemoDiagrams.on_version "d-1" "v-1"))
                              DemoDiagrams.store0))
  = [DemoDiagrams.v1;
     mkDiagramVersion (P := DemoDiagrams.pg) "row-1" "d-1" 2 "{nodes:2}" None
                      1700000000 "u-alice"].
Proof.
  refine (restore_version_brings_back Demo.env0 (Demo.payload_of Demo.alice)
            (DemoDiagrams.on_version "d-1" "v-1") DemoDiagrams.store0
            DemoDiagrams.d1 DemoDiagrams.v1 _ _ _ _ _ _).
  - repeat (constructor; [simpl; intuition discriminate|]). constructor.
  - reflexivity.
  - reflexivity.
  - reflexivity.
  - reflexivity.
  - intros _. split; reflexivity.
Defined.


Lemma create_then_get_witness :
  field "id" (body (snd (drun (create_diagram Demo.env0 (Demo.payload_of Demo.alice)
                                 DemoDiagrams.alice_create) DemoDiagrams.store0)))
    = Some (JStr "row-1") /\
  snd (drun (get_diagram (Demo.payload_of Demo.bob) (DemoDiagrams.on_diagram "row-1" [] None))
            (fst (drun (create_diagram Demo.env0 (Demo.payload_of Demo.alice)
                          DemoDiagrams.alice_create) DemoDiagrams.store0)))
  = mkResponse 200
      (body (snd (drun (create_diagram Demo.env0 (Demo.payload_of Demo.alice)
                          DemoDiagrams.alice_create) DemoDiagrams.store0))).
Proof.
  refine (create_then_get Demo.env0 (Demo.payload_of Demo.alice)
            (Demo.payload_of Demo.bob) DemoDiagrams.alice_create
            (DemoDiagrams.on_diagram "row-1" [] None) DemoDiagrams.store0 _ _);
    reflexivity.
Defined.

Lemma diagram_routes_keep_version_chain_witness :
  version_chain
    (fst (drun (diagram_route (L := Demo.demo) Demo.env0 PutDiagram (Demo.payload_of Demo.alice)
                  DemoDiagrams.alice_update) DemoDiagrams.store0)).
Proof.
  apply (diagram_routes_keep_version_chain (L := Demo.demo) Demo.env0 PutDiagram
           (Demo.payload_of Demo.alice) DemoDiagrams.alice_update DemoDiagrams.store0).
  unfold version_chain, archive_of. cbn.
  split; [|split].
  - repeat (constructor; [simpl; intuition discriminate|]). constructor.
  - repeat constructor.
  - repeat constructor; cbn; try lia; intuition discriminate.
Defined.

Lemma get_versions_counts_down_witness :
  exists rows,
    drun (get_versions (Demo.payload_of Demo.alice) (DemoDiagrams.on_diagram "d-1" [] None))
         DemoDiagrams.store0
    = (DemoDiagrams.store0, mkResponse 200 (JArr (map version_json rows))) /\
    Permutation rows (archive_of DemoDiagrams.d1 DemoDiagrams.store0) /\
    map dv_version rows = [1].
Proof.
  refine (get_versions_counts_down (Demo.payload_of Demo.alice)
            (DemoDiagrams.on_diagram "d-1" [] None) DemoDiagrams.store0 DemoDiagrams.d1
            _ _).
  - unfold version_chain, archive_of. cbn.
    split; [|split].
    + repeat (constructor; [simpl; intuition discriminate|]). constructor.
    + repeat constructor.
    + repeat constructor; cbn; try lia; intuition discriminate.
  - reflexivity.
Defined.

Lemma delete_diagram_cascades_witness :
  let s' := fst (drun (delete_diagram (L := Demo.demo) Demo.env0
                         (Demo.payload_of Demo.alice) DemoUuid.alice_deletes_diagram)
                      DemoUuid.store0) in
  let c := "9b2f4c1e-5a7d-4e3b-8c6f-0d1a2b3c4d5e" in
  read_uuid (L := Demo.demo) (map dg_id (diagrams DemoUuid.store0))
            "9B2F4C1E-5A7D-4E3B-8C6F-0D1A2B3C4D5E" = Some c /\
  hd_error (select_diagrams_by_id c DemoUuid.store0) = Some DemoUuid.d3 /\
  diagrams s' = [DemoDiagrams.d2] /\
  diagram_versions s' = [] /\
  snd (drun (get_diagram (Demo.payload_of Demo.alice) DemoUuid.alice_deletes_diagram) s')
    = mkResponse 404 (error_body "Diagram not found") /\
  (forall d, dg_id d <> c ->
     (In d (diagrams s') <-> In d (diagrams DemoUuid.store0)) /\
     archive_of d s' = archive_of d DemoUuid.store0).
Proof.
  cbv zeta.
  destruct (delete_diagram_cascades (L := Demo.demo) Demo.env0 (Demo.payload_of Demo.alice)
              (Demo.payload_of Demo.alice) DemoUuid.alice_deletes_diagram
              DemoUuid.alice_deletes_diagram DemoUuid.store0 eq_refl)
    as (c & Hc & _ & _ & _ & Hread & Hrest).
  assert (E : read_uuid (L := Demo.demo) (map dg_id (diagrams DemoUuid.store0))
                        "9B2F4C1E-5A7D-4E3B-8C6F-0D1A2B3C4D5E"
              = Some "9b2f4c1e-5a7d-4e3b-8c6f-0d1a2b3c4d5e") by reflexivity.
  pose proof (eq_trans (eq_sym E) Hc) as Hlit. injection Hlit as <-.
  split; [exact E|]. split; [reflexivity|]. split; [reflexivity|].
  split; [reflexivity|]. split; [|exact Hrest].
  apply Hread. right. reflexivity.
Defined.

Lemma diagram_writes_owner_only_witness :
  drun (update_diagram Demo.env0 (Demo.payload_of Demo.bob) DemoDiagrams.alice_update)
       DemoDiagrams.store0
    = (DemoDiagrams.store0, mkResponse 403 (error_body "Unauthorized")) /\
  drun (delete_diagram (L := Demo.demo) Demo.env0 (Demo.payload_of Demo.bob)
          DemoDiagrams.alice_update)
       DemoDiagrams.store0
    = (DemoDiagrams.store0, mkResponse 403 (error_body "Unauthorized")) /\
  drun (restore_version Demo.env0 (Demo.payload_of Demo.bob) DemoDiagrams.alice_update)
       DemoDiagrams.store0
    = (DemoDiagrams.store0, mkResponse 403 (error_body "Unauthorized")).
Proof.
  apply (diagram_writes_owner_only (L := Demo.demo) Demo.env0 (Demo.payload_of Demo.bob)
           DemoDiagrams.alice_update DemoDiagrams.store0 DemoDiagrams.d1).
  - reflexivity.
  - discriminate.
Defined.
